(** * Request dispatch of the production server ([App]), the render
    [Pipeline] and the redirect helpers, embedded from the TypeScript
    sources:

    - [core/app/index.ts]            (class [App])
    - [core/pipeline.ts]             (class [Pipeline])
    - [core/render/core.ts]          ([renderPage])
    - [core/redirects/helpers.ts]    ([redirectRouteGenerate],
                                      [redirectRouteStatus], ...)

    Asynchronous functions are embedded sequentially (every [await] is a
    sequencing point of one request); exceptions are an explicit
    completion; the objects the code mutates ([this], the world of user
    code) are threaded as state. *)

From Stdlib Require Import ZArith List String Ascii Bool Lia.
From Stdlib Require Import Sorting.Mergesort Sorting.Permutation Orders.
Import ListNotations.

Local Open Scope string_scope.
Local Open Scope Z_scope.

Set Implicit Arguments.

(* ================================================================== *)
(** * JavaScript strings *)
(* ================================================================== *)

Module JsString.

(** [s.endsWith(suffix)] *)
Definition endsWith (s suffix : string) : bool :=
  let n := String.length s in
  let k := String.length suffix in
  (k <=? n)%nat && (substring (n - k) k s =? suffix)%string.

(** [s.startsWith(p)] *)
Definition startsWith (s p : string) : bool := prefix p s.

(** [s.slice(n)] for [0 <= n]: the string without its first [n] units. *)
Fixpoint slice (n : nat) (s : string) : string :=
  match n, s with
  | O, _ => s
  | S _, EmptyString => EmptyString
  | S n', String _ t => slice n' t
  end.

(** What is left of [s] after the prefix [p], when [s] starts with [p]. *)
Fixpoint dropPrefix (p s : string) : option string :=
  match p, s with
  | EmptyString, _ => Some s
  | String _ _, EmptyString => None
  | String a p', String b s' =>
      if (a =? b)%char then dropPrefix p' s' else None
  end.

(** The first occurrence of [searchValue] in [s] (StringIndexOf from
    position 0), as the pair of what precedes and what follows it. *)
Fixpoint splitFirst (searchValue s : string) : option (string * string) :=
  match dropPrefix searchValue s with
  | Some following => Some (EmptyString, following)
  | None =>
      match s with
      | EmptyString => None
      | String c t =>
          match splitFirst searchValue t with
          | Some (preceding, following) => Some (String c preceding, following)
          | None => None
          end
      end
  end.

(** GetSubstitution of ECMA-262 for a string pattern (no captures):
    [$$], [$&], [$`] and [$'] are expanded, everything else, [$1] and
    [$<] included, is copied. *)
Fixpoint GetSubstitution (matched preceding following template : string)
  : string :=
  match template with
  | EmptyString => EmptyString
  | String "$" (String "$" r) =>
      String "$" (GetSubstitution matched preceding following r)
  | String "$" (String "&" r) =>
      matched ++ GetSubstitution matched preceding following r
  | String "$" (String "`" r) =>
      preceding ++ GetSubstitution matched preceding following r
  | String "$" (String "'" r) =>
      following ++ GetSubstitution matched preceding following r
  | String c r => String c (GetSubstitution matched preceding following r)
  end.

(** [s.replace(searchValue, replaceValue)] with two strings: only the
    first occurrence is replaced. *)
Definition replace (s searchValue replaceValue : string) : string :=
  match splitFirst searchValue s with
  | None => s
  | Some (preceding, following) =>
      preceding
        ++ GetSubstitution searchValue preceding following replaceValue
        ++ following
  end.

(** [a || b] on strings: the empty string is falsy. *)
Definition or (a b : string) : string :=
  match a with EmptyString => b | _ => a end.

(** A property that holds a string or is [undefined], as a condition:
    [undefined] and the empty string are falsy. *)
Definition truthy (v : option string) : option string :=
  match v with
  | Some EmptyString => None
  | _ => v
  end.

(** Does the character occur in the string. *)
Fixpoint mem (c : ascii) (s : string) : bool :=
  match s with
  | EmptyString => false
  | String d t => (c =? d)%char || mem c t
  end.

(** Byte-lowercase of the Fetch standard. *)
Definition lowerChar (c : ascii) : ascii :=
  let n := nat_of_ascii c in
  if ((65 <=? n) && (n <=? 90))%nat then ascii_of_nat (n + 32) else c.

Fixpoint toLowerCase (s : string) : string :=
  match s with
  | EmptyString => EmptyString
  | String c t => String (lowerChar c) (toLowerCase t)
  end.

End JsString.

(** The errors that the language and the platform throw by themselves.
    The wording of a message is the engine's. *)
Inductive NativeError :=
| TypeError (message : string)
| RangeError (message : string).

(* ================================================================== *)
(** * The [Headers] class of the Fetch standard *)
(* ================================================================== *)

Module StringOrder <: TotalLeBool.
Definition t := string.
Definition leb := String.leb.
Theorem leb_total : forall x y, leb x y = true \/ leb y x = true.
Proof. exact String.leb_total. Qed.
End StringOrder.

Module StringSort := Sort StringOrder.

Module Headers.

(** A header list keeps the headers in the order they were appended,
    with the names as given; names compare byte-case-insensitively. *)
Definition HeaderList := list (string * string).

(** [immutable] is the guard of the headers of a response that came
    from [fetch] or [Response.redirect]: changing them throws. *)
Record t := mk { immutable : bool; headerList : HeaderList }.

Definition nameEqb (a b : string) : bool :=
  (JsString.toLowerCase a =? JsString.toLowerCase b)%string.

Definition hasName (name : string) (h : string * string) : bool :=
  nameEqb (fst h) name.

(** Values of the headers called [name], in order. *)
Definition values (name : string) (l : HeaderList) : list string :=
  map snd (filter (hasName name) l).

(** [headers.get(name)]: the values joined by comma and space. *)
Definition getList (name : string) (l : HeaderList) : option string :=
  match values name l with
  | [] => None
  | vs => Some (String.concat ", " vs)
  end.

Definition get (name : string) (h : t) : option string :=
  getList name (headerList h).

(** [headers.delete(name)]: [None] is the TypeError of immutable
    headers. *)
Definition delete (name : string) (h : t) : option t :=
  if immutable h then None
  else Some (mk false (filter (fun x => negb (hasName name x)) (headerList h))).

(** The sorted lowercase set of the names. *)
Definition names (l : HeaderList) : list string :=
  StringSort.sort
    (nodup string_dec (map (fun h => JsString.toLowerCase (fst h)) l)).

(** Sort and combine: what iterating a [Headers] object yields, hence
    [Array.from(headers)].  [set-cookie] values stay apart. *)
Definition entriesOf (l : HeaderList) (name : string) : HeaderList :=
  if (name =? "set-cookie")%string then map (pair name) (values name l)
  else match getList name l with
       | Some v => [(name, v)]
       | None => []
       end.

Definition entries (h : t) : HeaderList :=
  flat_map (entriesOf (headerList h)) (names (headerList h)).

(** HTTP whitespace bytes: tab, line feed, carriage return, space. *)
Definition isHttpWhitespace (c : ascii) : bool :=
  let n := nat_of_ascii c in
  ((n =? 9) || (n =? 10) || (n =? 13) || (n =? 32))%nat.

Fixpoint stripLeading (s : string) : string :=
  match s with
  | EmptyString => EmptyString
  | String c t => if isHttpWhitespace c then stripLeading t else s
  end.

Fixpoint stripTrailing (s : string) : string :=
  match s with
  | EmptyString => EmptyString
  | String c t =>
      match stripTrailing t with
      | EmptyString =>
          if isHttpWhitespace c then EmptyString else String c EmptyString
      | t' => String c t'
      end
  end.

(** To normalize a value: its leading and trailing HTTP whitespace bytes
    are removed. *)
Definition normalize (potentialValue : string) : string :=
  stripTrailing (stripLeading potentialValue).

Fixpoint all (p : ascii -> bool) (s : string) : bool :=
  match s with
  | EmptyString => true
  | String c t => p c && all p t
  end.

(** A header value, once normalized: it holds no NUL, no line feed and no
    carriage return. *)
Definition isValueByte (c : ascii) : bool :=
  let n := nat_of_ascii c in
  negb ((n =? 0) || (n =? 10) || (n =? 13))%nat.

Definition isHeaderValue (value : string) : bool := all isValueByte value.

(** A header name is a token: one or more of the letters, the digits
    and [!#$%&'*+-.^_`|~]. *)
Definition isTokenByte (c : ascii) : bool :=
  let n := nat_of_ascii c in
  ((97 <=? n) && (n <=? 122) || (65 <=? n) && (n <=? 90)
   || (48 <=? n) && (n <=? 57)
   || (n =? 33) || (35 <=? n) && (n <=? 39) || (n =? 42) || (n =? 43)
   || (n =? 45) || (n =? 46) || (n =? 94) || (n =? 95) || (n =? 96)
   || (n =? 124) || (n =? 126))%nat.

Definition isHeaderName (name : string) : bool :=
  match name with
  | EmptyString => false
  | _ => all isTokenByte name
  end.

(** [headers.append(name, value)]: the value is normalized, then name
    and value are checked, then the guard; [None] is the TypeError.
    The strings of this development are sequences of units below 256,
    so that the conversion of an argument to a [ByteString], which
    throws for a unit above 255, is not seen here.  The headers of a
    response keep [set-cookie], as they do on a server. *)
Definition append (name value : string) (h : t) : option t :=
  let value := normalize value in
  if negb (isHeaderName name && isHeaderValue value) then None
  else if immutable h then None
  else Some (mk false (headerList h ++ [(name, value)])%list).

(** To fill new headers with the pairs of a record or of a sequence. *)
Fixpoint fill (init : HeaderList) (h : t) : option t :=
  match init with
  | [] => Some h
  | (name, value) :: rest =>
      match append name value h with
      | Some h' => fill rest h'
      | None => None
      end
  end.

Definition empty : t := mk false [].

(** [new Headers(init)] for a record whose values the program computed. *)
Definition ofRecord (init : HeaderList) : option t := fill init empty.

(** A pair as [append] stores it. *)
Definition normalized (h : string * string) : string * string :=
  (fst h, normalize (snd h)).

(** [new Headers(init)] for pairs that come out of the iteration of
    existing headers: the names are tokens in lower case and the values
    hold none of the bytes that [append] refuses, so that every pair is
    appended; its value is normalized like any other, which changes a
    combined value that ends with an empty value. *)
Definition ofEntries (init : HeaderList) : t :=
  mk false (fold_left (fun l h => (l ++ [normalized h])%list) init []).

(** What [get] answers once the headers were copied, pair by pair. *)
Definition copied (value : option string) : option string :=
  option_map normalize value.


End Headers.


(* ================================================================== *)
(** * [Response] and [Request] of the Fetch standard *)
(* ================================================================== *)

(** The per-request locals ([object] in the source). *)
Definition Locals := list (string * string).

Module Response.

(** [responseSent] is the property the code sets under
    [Symbol.for('astro.responseSent')]. *)
Record t := mk {
  status : Z;
  statusText : string;
  headers : Headers.t;
  body : option string;
  responseSent : bool
}.

(** The [headers] member of a [ResponseInit]. *)
Inductive HeadersInit :=
| NoHeaders
| OfHeaders (h : Headers.t)
| OfRecord (r : Headers.HeaderList).

(** A status that the constructor takes. *)
Definition inRange (status_ : Z) : bool := (200 <=? status_) && (status_ <=? 599).

(** A null body status. *)
Definition isNullBodyStatus (status_ : Z) : bool :=
  (status_ =? 101) || (status_ =? 103) || (status_ =? 204)
  || (status_ =? 205) || (status_ =? 304).

(** The headers of a new response, filled from the [headers] member;
    [None] is the TypeError of [append]. *)
Definition initHeaders (init : HeadersInit) : option Headers.t :=
  match init with
  | NoHeaders => Some Headers.empty
  | OfHeaders h => Some (Headers.ofEntries (Headers.entries h))
  | OfRecord r => Headers.ofRecord r
  end.

(** [new Response(body, { status, statusText, headers })], in the order
    of the Fetch standard: a status outside 200..599 is a RangeError;
    the headers are filled; a body with a null body status is a
    TypeError.  The body is [null] or the unread body of another
    response, so that extracting it does not fail and adds no content
    type; a status text is that of another response, which the check of
    the reason phrase lets through; a status is that of another
    response, 404, 500 or a redirect status of the configuration, all
    of them unsigned shorts, so that the conversion to one changes
    nothing. *)
Definition new (body : option string) (status : option Z)
  (statusText : option string) (init : HeadersInit) : t + NativeError :=
  let status_ := match status with Some s => s | None => 200 end in
  if negb (inRange status_) then
    inr (RangeError "init.status must be in the range of 200 to 599, inclusive.")
  else
    match initHeaders init with
    | None => inr (TypeError "Headers.append: invalid header name or value.")
    | Some headers_ =>
        match body with
        | Some _ =>
            if isNullBodyStatus status_ then
              inr (TypeError "Response constructor: Invalid response status code.")
            else
              inl (mk status_
                     (match statusText with Some s => s | None => EmptyString end)
                     headers_ body false)
        | None =>
            inl (mk status_
                   (match statusText with Some s => s | None => EmptyString end)
                   headers_ body false)
        end
    end.

(** [Reflect.set(response, responseSentSymbol, true)] *)
Definition setResponseSent (r : t) : t :=
  mk (status r) (statusText r) (headers r) (body r) true.

(** The response after [response.headers.delete(name)] went through. *)
Definition withHeaders (r : t) (h : Headers.t) : t :=
  mk (status r) (statusText r) h (body r) (responseSent r).

End Response.

Module Request.

(** [locals] and [clientAddress] are the properties kept under
    [Symbol.for('astro.locals')] and [Symbol.for('astro.clientAddress')]. *)
Record t := mk {
  method : string;
  url : string;
  headers : Headers.t;
  locals : option Locals;
  clientAddress : option string
}.

(** [new Request(url, request)]: a new object, without the symbol
    properties of the old one. *)
Definition new (url : string) (init : t) : t :=
  mk (method init) url (headers init) None None.

(** [Reflect.set(request, clientLocalsSymbol, locals)] *)
Definition setLocals (r : t) (l : Locals) : t :=
  mk (method r) (url r) (headers r) (Some l) (clientAddress r).

End Request.

(* ================================================================== *)
(** * Route data ([@types/astro]) *)
(* ================================================================== *)

Module RouteType.
(** Modelled from the spec: the union [RouteType] of [@types/astro.ts],
    which is not among the sources; these are the type tags of a route
    descriptor (spec, 3), and the cases of [#tryRenderRoute]. *)
Inductive t := page | endpoint | redirect | fallback.

Definition eqb (a b : t) : bool :=
  match a, b with
  | page, page | endpoint, endpoint | redirect, redirect
  | fallback, fallback => true
  | _, _ => false
  end.
End RouteType.

(** Modelled from the spec: [Params] of [@types/astro.ts] (not among the
    sources), segment names with their values, unset for an absent
    segment (spec, 3): a record of strings, with its own keys in
    insertion order. *)
Definition Params := list (string * option string).

(** Modelled from the spec: [RedirectConfig] of [@types/astro.ts] (not
    among the sources), a destination template with, or without, an
    explicit status (spec, 4.4); [redirectRouteGenerate] tells the two
    apart by [typeof]. *)
Inductive RedirectConfig :=
| RedirectString (destination : string)
| RedirectObject (status : Z) (destination : string).

(** Modelled from the spec: [RouteData] of [@types/astro.ts] (not among
    the sources), the route descriptor of the spec (3), with the fields
    the code reads, under the names it reads them by.  [pattern] is the
    compiled matcher, kept as the test it performs ([pattern.test(p)],
    and whether [pattern.exec(p)] is not null). *)
#[local] Unset Elimination Schemes.
Inductive RouteData := mkRouteData {
  route : string;
  type : RouteType.t;
  component : string;
  pattern : string -> bool;
  prerender : bool;
  redirect : option RedirectConfig;
  redirectRoute : option RouteData;
  fallbackRoutes : list RouteData;
  generate : Params -> string;
  pathname : option string
}.
#[local] Set Elimination Schemes.

(* ================================================================== *)
(** * [core/redirects/helpers.ts] *)
(* ================================================================== *)

Definition routeIsRedirect (route : option RouteData) : bool :=
  match route with
  | Some r => RouteType.eqb (type r) RouteType.redirect
  | None => false
  end.

Definition routeIsFallback (route : option RouteData) : bool :=
  match route with
  | Some r => RouteType.eqb (type r) RouteType.fallback
  | None => false
  end.

(** The value of a string of decimal digits. *)
Definition digitValue (c : ascii) : option N :=
  let n := nat_of_ascii c in
  if ((48 <=? n) && (n <=? 57))%nat then Some (N.of_nat (n - 48)) else None.

Fixpoint decimal (acc : N) (s : string) : option N :=
  match s with
  | EmptyString => Some acc
  | String c t =>
      match digitValue c with
      | Some d => decimal (acc * 10 + d)%N t
      | None => None
      end
  end.

(** A property key that is an array index: the canonical decimal
    writing of an integer from 0 to 2^32 - 2. *)
Definition arrayIndex (key : string) : option N :=
  match key with
  | EmptyString => None
  | String "0" EmptyString => Some 0%N
  | String "0" _ => None
  | _ =>
      match decimal 0 key with
      | Some n => if (n <=? 4294967294)%N then Some n else None
      | None => None
      end
  end.

Definition isArrayIndex (key : string) : bool :=
  match arrayIndex key with Some _ => true | None => false end.

Definition indexOf (key : string) : N :=
  match arrayIndex key with Some n => n | None => 0%N end.

(** Keys that are array indices, in ascending order of the index. *)
Fixpoint insertIndex (key : string) (sorted : list string) : list string :=
  match sorted with
  | [] => [key]
  | k :: rest =>
      if (indexOf key <=? indexOf k)%N then key :: sorted
      else k :: insertIndex key rest
  end.

Definition sortIndices (l : list string) : list string :=
  fold_right insertIndex [] l.

(** [Object.keys(data)]: the keys that are array indices come first, in
    ascending order, then the other keys in the order in which they
    were created. *)
Definition keys (data : Params) : list string :=
  let own := map fst data in
  (sortIndices (filter isArrayIndex own)
   ++ filter (fun k => negb (isArrayIndex k)) own)%list.

(** [data[param]] *)
Fixpoint lookup (data : Params) (param : string) : option string :=
  match data with
  | [] => None
  | (k, v) :: rest => if (k =? param)%string then v else lookup rest param
  end.

(** A string argument that is [undefined] is converted by [ToString]. *)
Definition toStringArg (v : option string) : string :=
  match v with Some s => s | None => "undefined" end.

(** One turn of the loop of [redirectRouteGenerate]. *)
Definition substituteParam (data : Params) (target param : string) : string :=
  let paramValue := toStringArg (lookup data param) in
  let target := JsString.replace target ("[" ++ param ++ "]") paramValue in
  JsString.replace target ("[..." ++ param ++ "]") paramValue.

Definition redirectRouteGenerate (redirectRoute_ : RouteData) (data : Params)
  : string :=
  let routeData := redirectRoute redirectRoute_ in
  let route := redirect redirectRoute_ in
  match routeData with
  | Some routeData =>
      JsString.or (generate routeData data)
        (JsString.or
           (match pathname routeData with Some p => p | None => EmptyString end)
           "/")
  | None =>
      match route with
      | Some (RedirectString route) =>
          fold_left (substituteParam data) (keys data) route
      | None => "/"
      | Some (RedirectObject _ destination) => destination
      end
  end.

Definition redirectRouteStatus (redirectRoute_ : RouteData) (method : string)
  : Z :=
  let routeData := redirectRoute redirectRoute_ in
  match routeData with
  | Some {| redirect := Some (RedirectObject status _) |} => status
  | _ => if negb (method =? "GET")%string then 308 else 301
  end.


(* ================================================================== *)
(** * Effects: thrown errors and threaded state *)
(* ================================================================== *)

(** Modelled from the spec: the thrown values the code tells apart.
    The class [EndpointNotFoundError] is declared in
    [core/app/ssrPipeline.ts], which is not among the sources; it is the
    endpoint-not-found condition of the spec (4.5, 7), which carries the
    response of the endpoint, read here as [err.originalResponse].  An
    [AstroError] is known by the name of its entry in
    [core/errors/errors-data.ts], which is not among the sources either.
    [catch (err: any)] receives whatever was thrown: [undefined] and
    [null], which have no properties, and any other value, given by what
    the [catch] of [render] reads of it, [err.message] and [String(err)]
    ([None] when the conversion throws, as for an object without
    prototype). *)
Inductive Exn :=
| EndpointNotFoundError (originalResponse : Response.t)
| AstroError (name : string)
| Error (message : string)
| Native (e : NativeError)
| Undefined
| Null
| Other (message : option string) (text : option string).

Coercion Native : NativeError >-> Exn.

Inductive Completion (A : Type) :=
| Normal (a : A)
| Throw (e : Exn).
Arguments Throw {A} e.

(** The completion of a call of the platform. *)
Definition completion {A : Type} (r : A + NativeError) : Completion A :=
  match r with
  | inl a => Normal a
  | inr e => Throw (Native e)
  end.

(** [Error.prototype.toString] for an error with this name and
    message. *)
Definition errorToString (name message : string) : string :=
  match name, message with
  | EmptyString, _ => message
  | _, EmptyString => name
  | _, _ => name ++ ": " ++ message
  end.

(** A computation over the state [S] that returns or throws. *)
Definition Eff (S A : Type) : Type := S -> Completion A * S.

Definition ret {S A} (a : A) : Eff S A := fun s => (Normal a, s).

Definition throw {S A} (e : Exn) : Eff S A := fun s => (Throw e, s).

(** A call that leaves the state alone. *)
Definition pure {S A} (c : Completion A) : Eff S A := fun s => (c, s).

Definition bind {S A B} (m : Eff S A) (k : A -> Eff S B) : Eff S B :=
  fun s =>
    match m s with
    | (Normal a, s') => k a s'
    | (Throw e, s') => (Throw e, s')
    end.

(** [try { m } catch (err) { handler(err) }] *)
Definition tryCatch {S A} (m : Eff S A) (handler : Exn -> Eff S A) : Eff S A :=
  fun s =>
    match m s with
    | (Normal a, s') => (Normal a, s')
    | (Throw e, s') => handler e s'
    end.

Declare Scope eff_scope.
Delimit Scope eff_scope with eff.
Notation "x <- m ;; k" := (bind m (fun x => k))
  (at level 61, m at next level, right associativity) : eff_scope.
Notation "m ;;; k" := (bind m (fun _ => k))
  (at level 61, right associativity) : eff_scope.

(* ================================================================== *)
(** * What the dispatch code is linked against *)
(* ================================================================== *)

(** Types whose values the code only passes on. *)
Class HostTypes := {
  (** state of user code (modules, middleware, endpoints) and of the
      network, as far as one request can change it *)
  World : Type;
  ComponentInstance : Type;
  AstroComponentFactory : Type;
  SSRResult : Type;
  AstroCookies : Type;
  APIContext : Type;
  Props : Type
}.

(** Modelled from the spec: [Environment] of [core/render/environment.ts]
    (not among the sources), the configuration of the server, read only
    (spec, 3), as far as the code reads it. *)
Record Environment := {
  adapterName : string;
  site : option string;
  ssr : bool;
  streaming : bool;
  compressHTML : bool
}.

(** Modelled from the spec: [SSRElement] of [@types/astro.ts] (not among
    the sources), an element to inject in the head (spec, 3). *)
Record SSRElement := {
  props : list (string * string);
  children : string
}.

(** Modelled from the spec: the [i18n] member of the manifest
    ([@types/astro.ts], not among the sources): locale list, routing
    strategy and default locale (spec, 3). *)
Record I18n := {
  locales : list string;
  routing : string;
  defaultLocale : string
}.

Section Rendering.
Context `{HostTypes}.

(** Code that runs on the world only. *)
Definition U (A : Type) : Type := Eff World A.

(** Modelled from the spec: [RenderContext] of [core/render/context.ts]
    (not among the sources), the per-request snapshot of the spec (3),
    with the fields the code reads; the three locale fields travel
    together as [rc_i18n]. *)
Record RenderContext := {
  request : Request.t;
  rc_pathname : string;
  rc_route : RouteData;
  status : option Z;
  params : Params;
  rc_props : Props;
  rc_locals : option Locals;
  scripts : list SSRElement;
  styles : list SSRElement;
  links : list SSRElement;
  rc_i18n : option I18n
}.

(** [MiddlewareHandler]: it is given the context and [next], and may
    come back without a response. *)
Definition MiddlewareHandler : Type :=
  APIContext -> U Response.t -> U (option Response.t).

Definition EndpointResultHandler : Type :=
  Request.t -> Response.t -> U Response.t.

(** [PipelineHookFunction]: returns nothing; what it does to the render
    context it was handed is the context it gives back. *)
Definition PipelineHookFunction : Type :=
  RenderContext -> option ComponentInstance -> U RenderContext.

(** Functions imported by [pipeline.ts] and [render/core.ts] from
    modules that are given, not embedded. *)
Class RenderHost := {
  (** [createAPIContext({...})]: reads the render context and the
      environment *)
  createAPIContext : RenderContext -> Environment -> APIContext;
  (** [apiContext.cookies] *)
  cookies : APIContext -> AstroCookies;
  callMiddleware : MiddlewareHandler -> APIContext -> U Response.t -> U Response.t;
  callEndpoint : option ComponentInstance -> Environment -> RenderContext
                 -> option MiddlewareHandler -> U Response.t;
  (** [mod.default], [None] when it is falsy, [typeof mod.default] and
      [mod.partial] *)
  default : ComponentInstance -> option AstroComponentFactory;
  typeofDefault : ComponentInstance -> string;
  partial : ComponentInstance -> bool;
  (** [createResult({...})]: reads the environment, the render context,
      [partial], the status and the cookies *)
  createResult : Environment -> RenderContext -> bool -> Z -> AstroCookies
                 -> SSRResult;
  (** [result.cookies] *)
  resultCookies : SSRResult -> option AstroCookies;
  runtimeRenderPage : SSRResult -> AstroComponentFactory -> Props -> bool
                      -> RouteData -> U Response.t;
  attachCookiesToResponse : Response.t -> AstroCookies -> Response.t
}.

Context `{RenderHost}.

Local Open Scope eff_scope.

(* ------------------------------------------------------------------ *)
(** ** [core/render/core.ts] *)

Definition renderPage (mod_ : option ComponentInstance)
  (renderContext : RenderContext) (env : Environment) (cookies_ : AstroCookies)
  : U Response.t :=
  if routeIsRedirect (Some (rc_route renderContext)) then
    pure (completion
            (Response.new None
               (Some (redirectRouteStatus (rc_route renderContext)
                        (Request.method (request renderContext))))
               None
               (Response.OfRecord
                  [("location",
                    redirectRouteGenerate (rc_route renderContext)
                      (params renderContext))])))
  else if routeIsFallback (Some (rc_route renderContext)) then
    pure (completion (Response.new None (Some 404) None Response.NoHeaders))
  else
    match mod_ with
    | None => throw (AstroError "CantRenderPage")
    | Some mod_ =>
        match default mod_ with
        | None =>
            throw (Error ("Expected an exported Astro component but received typeof "
                          ++ typeofDefault mod_))
        | Some Component =>
            let result :=
              createResult env renderContext (partial mod_)
                (match status renderContext with Some s => s | None => 200 end)
                cookies_ in
            response <- runtimeRenderPage result Component
                          (rc_props renderContext) (streaming env)
                          (rc_route renderContext) ;;
            ret (match resultCookies result with
                 | Some c => attachCookiesToResponse response c
                 | None => response
                 end)
        end
    end.

(* ------------------------------------------------------------------ *)
(** ** [core/pipeline.ts] *)

(** The fields of [class Pipeline]. *)
Record Pipeline := {
  env : Environment;
  onRequest : option MiddlewareHandler;
  hooks_before : list PipelineHookFunction;
  endpointHandler : option EndpointResultHandler
}.

Definition setEndpointHandler (this : Pipeline) (handler : EndpointResultHandler)
  : Pipeline :=
  {| env := env this; onRequest := onRequest this;
     hooks_before := hooks_before this; endpointHandler := Some handler |}.

Definition setMiddlewareFunction (this : Pipeline) (onRequest_ : MiddlewareHandler)
  : Pipeline :=
  {| env := env this; onRequest := Some onRequest_;
     hooks_before := hooks_before this; endpointHandler := endpointHandler this |}.

Definition unsetMiddlewareFunction (this : Pipeline) : Pipeline :=
  {| env := env this; onRequest := None;
     hooks_before := hooks_before this; endpointHandler := endpointHandler this |}.

Definition onBeforeRenderRoute (this : Pipeline) (fn : PipelineHookFunction)
  : Pipeline :=
  {| env := env this; onRequest := onRequest this;
     hooks_before := (hooks_before this ++ [fn])%list;
     endpointHandler := endpointHandler this |}.

(** The Pipeline as it is once its hooks have run: the same, without
    hooks. *)
Definition withoutHooks (this : Pipeline) : Pipeline :=
  {| env := env this; onRequest := onRequest this; hooks_before := [];
     endpointHandler := endpointHandler this |}.

(** [for (const hook of this.#hooks.before) hook(renderContext, componentInstance)] *)
Fixpoint runHooks (hooks : list PipelineHookFunction)
  (renderContext : RenderContext) (componentInstance : option ComponentInstance)
  : U RenderContext :=
  match hooks with
  | [] => ret renderContext
  | hook :: rest =>
      renderContext' <- hook renderContext componentInstance ;;
      runHooks rest renderContext' componentInstance
  end.

(** [#tryRenderRoute].  The four cases are all of [RouteType], so that
    the [default] case of the source has no input. *)
Definition tryRenderRoute (renderContext : RenderContext) (env_ : Environment)
  (mod_ : option ComponentInstance) (onRequest_ : option MiddlewareHandler)
  : U Response.t :=
  let apiContext := createAPIContext renderContext env_ in
  match type (rc_route renderContext) with
  | RouteType.page | RouteType.fallback | RouteType.redirect =>
      match onRequest_ with
      | Some onRequest_ =>
          callMiddleware onRequest_ apiContext
            (renderPage mod_ renderContext env_ (cookies apiContext))
      | None => renderPage mod_ renderContext env_ (cookies apiContext)
      end
  | RouteType.endpoint => callEndpoint mod_ env_ renderContext onRequest_
  end.

Definition renderRoute (this : Pipeline) (renderContext : RenderContext)
  (componentInstance : option ComponentInstance) : U Response.t :=
  renderContext <- runHooks (hooks_before this) renderContext componentInstance ;;
  result <- tryRenderRoute renderContext (env this) componentInstance
              (onRequest this) ;;
  match type (rc_route renderContext) with
  | RouteType.endpoint =>
      match endpointHandler this with
      | None =>
          throw (Error "You created a pipeline that does not know how to handle the result coming from an endpoint.")
      | Some handler => handler (request renderContext) result
      end
  | _ => ret result
  end.

End Rendering.

(* ================================================================== *)
(** * [core/app/index.ts]: the data of [class App] *)
(* ================================================================== *)

(** [status: 404 | 500] of [RenderErrorOptions] and of the override of
    [#mergeResponses]. *)
Inductive ErrorStatus := E404 | E500.

Definition statusCode (s : ErrorStatus) : Z :=
  match s with E404 => 404 | E500 => 500 end.

(** The status inside a template literal. *)
Definition statusString (s : ErrorStatus) : string :=
  match s with E404 => "404" | E500 => "500" end.

(** [STATUS_CODES.has(status)] for [STATUS_CODES = new Set([404, 500])],
    with the status it found. *)
Definition STATUS_CODES_has (status : Z) : option ErrorStatus :=
  if status =? 404 then Some E404
  else if status =? 500 then Some E500
  else None.

Inductive TrailingSlash := always | never | ignore.

(** Modelled from the spec: an entry of [RouteInfo.scripts]
    ([core/app/types.ts], not among the sources), the script elements of
    the per-route asset metadata (spec, 3): with a [stage], or a module
    script. *)
Inductive Script :=
| StageScript (stage children : string)
| ModuleScript (type_ value : string).

(** Modelled from the spec: an entry of [RouteInfo.styles], a stylesheet
    element of the per-route asset metadata (spec, 3). *)
Definition Style := (string * string)%type.

(** Modelled from the spec: [RouteInfo] of [core/app/types.ts] (not among
    the sources), the per-route asset metadata (spec, 3). *)
Record RouteInfo := {
  routeData : RouteData;
  ri_styles : list Style;
  ri_scripts : list Script
}.

(** Modelled from the spec: [ManifestData] of [@types/astro.ts] (not
    among the sources), the route table (spec, 2). *)
Record ManifestData := { md_routes : list RouteData }.

Section Dispatch.
Context `{HT : HostTypes} `{RH : !RenderHost}.

(** Modelled from the spec: [SinglePageBuiltModule] of
    [core/build/types.ts] (not among the sources), the render unit of
    the spec (6): a loader of the module and the optional middleware
    export. *)
Record SinglePageBuiltModule := {
  page : U ComponentInstance;
  mod_onRequest : option MiddlewareHandler
}.

(** Modelled from the spec: [SSRManifest] of [@types/astro.ts] (not among
    the sources), the route manifest of the spec (6), as far as [App]
    reads it while it serves a request. *)
Record SSRManifest := {
  m_adapterName : string;
  routes : list RouteInfo;
  base : string;
  trailingSlash : TrailingSlash;
  assets : list string;
  pageMap : option (string -> option (U SinglePageBuiltModule));
  pageModule : option SinglePageBuiltModule;
  i18n : option I18n
}.

(** Modelled from the spec: the argument of the imported
    [createRenderContext] ([core/render/context.ts], not among the
    sources), the inputs of the render context builder (spec, 4.2), as
    [#createRenderContext] fills them. *)
Record CreateRenderContextArgs := {
  a_request : Request.t;
  a_pathname : string;
  a_route : RouteData;
  a_status : Z;
  a_env : Environment;
  a_mod : ComponentInstance;
  a_scripts : option (list SSRElement);
  a_styles : option (list SSRElement);
  a_links : option (list SSRElement);
  a_i18n : option I18n
}.

(** What a call of the logger was given: the method called, its label
    ([null] for none) and the message. *)
Record LogEntry := {
  log_level : string;
  log_label : option string;
  log_message : string
}.

(** The private fields of [App].  [logged] is what went to the logger,
    and [routeDataToRouteInfo] the [get] of the map of that name. *)
Record App := {
  manifest : SSRManifest;
  manifestData : ManifestData;
  routeDataToRouteInfo : RouteData -> option RouteInfo;
  baseWithoutTrailingSlash : string;
  pipeline : Pipeline;
  logged : list LogEntry;
  renderOptionsDeprecationWarningShown : bool
}.

(** Functions and constants [app/index.ts] imports from modules that are
    given, not embedded, and from the platform. *)
Class DispatchHost := {
  collapseDuplicateSlashes : string -> string;
  prependForwardSlash : string -> string;
  removeTrailingForwardSlash : string -> string;
  matchRoute : string -> ManifestData -> option RouteData;
  (** [new URL(url).pathname] *)
  urlPathname : string -> string;
  (** [new URL(path, url).toString()] *)
  resolveURL : string -> string -> string;
  fetch : string -> U Response.t;
  createRenderContext : CreateRenderContextArgs -> U RenderContext;
  createStylesheetElementSet : list Style -> list SSRElement;
  createModuleScriptElement : string -> string -> SSRElement;
  createI18nMiddleware : option I18n -> string -> TrailingSlash
                         -> option MiddlewareHandler;
  i18nPipelineHook : PipelineHookFunction;
  sequence : list MiddlewareHandler -> MiddlewareHandler;
  RedirectSinglePageBuiltModule : SinglePageBuiltModule;
  (** [err.stack], read when the error is caught: the text the engine
      recorded in the thrown object when it was created, [undefined]
      for a value that has no such property; the property is not part
      of the language *)
  stack : World -> Exn -> option string;
  (** the [message] of the entry of [errors-data.ts] with this name *)
  astroErrorMessage : string -> string
}.

Context `{DH : DispatchHost}.

Local Open Scope eff_scope.

(** The methods of [App] run on [this] and on the world. *)
Definition St : Type := (App * World)%type.
Definition AppM (A : Type) : Type := Eff St A.

Definition liftU {A} (m : U A) : AppM A :=
  fun s => let (r, w) := m (snd s) in (r, (fst s, w)).

Definition getThis : AppM App := fun s => (Normal (fst s), s).

Definition setPipeline (f : Pipeline -> Pipeline) : AppM unit :=
  fun s =>
    let this := fst s in
    (Normal tt,
     ({| manifest := manifest this; manifestData := manifestData this;
         routeDataToRouteInfo := routeDataToRouteInfo this;
         baseWithoutTrailingSlash := baseWithoutTrailingSlash this;
         pipeline := f (pipeline this);
         logged := logged this;
         renderOptionsDeprecationWarningShown :=
           renderOptionsDeprecationWarningShown this |}, snd s)).

(** [this.#logger.error(null, message)] and [this.#logger.warn(label, message)] *)
Definition log (level : string) (label : option string) (message : string)
  : AppM unit :=
  fun s =>
    let this := fst s in
    (Normal tt,
     ({| manifest := manifest this; manifestData := manifestData this;
         routeDataToRouteInfo := routeDataToRouteInfo this;
         baseWithoutTrailingSlash := baseWithoutTrailingSlash this;
         pipeline := pipeline this;
         logged := (logged this
                    ++ [{| log_level := level; log_label := label;
                           log_message := message |}])%list;
         renderOptionsDeprecationWarningShown :=
           renderOptionsDeprecationWarningShown this |}, snd s)).

(** The text of the warning, for the adapter of this name. *)
Definition deprecationWarning (adapterName_ : string) : string :=
  "The adapter " ++ adapterName_
  ++ " is using a deprecated signature of the 'app.render()' method. From Astro 4.0, locals and routeData are provided as properties on an optional object to this method. Using the old signature will cause an error in Astro 5.0. See https://github.com/withastro/astro/pull/9199 for more information.".

Definition logRenderOptionsDeprecationWarning : AppM unit :=
  fun s =>
    let this := fst s in
    if renderOptionsDeprecationWarningShown this then (Normal tt, s)
    else
      (Normal tt,
       ({| manifest := manifest this; manifestData := manifestData this;
           routeDataToRouteInfo := routeDataToRouteInfo this;
           baseWithoutTrailingSlash := baseWithoutTrailingSlash this;
           pipeline := pipeline this;
           logged := (logged this
                      ++ [{| log_level := "warn";
                             log_label := Some "deprecated";
                             log_message :=
                               deprecationWarning (m_adapterName (manifest this)) |}])%list;
           renderOptionsDeprecationWarningShown := true |}, snd s)).

(** [err.message] of a thrown value that has properties. *)
Definition messageOf (err : Exn) : option string :=
  match err with
  | EndpointNotFoundError _ => Some EmptyString
  | AstroError name => Some (astroErrorMessage name)
  | Error message => Some message
  | Native (TypeError message) => Some message
  | Native (RangeError message) => Some message
  | Undefined | Null => None
  | Other message _ => message
  end.

(** [String(err)]; [None] when the conversion throws. *)
Definition stringOf (err : Exn) : option string :=
  match err with
  | EndpointNotFoundError _ => Some (errorToString "Error" EmptyString)
  | AstroError name => Some (errorToString name (astroErrorMessage name))
  | Error message => Some (errorToString "Error" message)
  | Native (TypeError message) => Some (errorToString "TypeError" message)
  | Native (RangeError message) => Some (errorToString "RangeError" message)
  | Undefined => Some "undefined"
  | Null => Some "null"
  | Other _ text => text
  end.

(** [err.stack || err.message || String(err)], in the world in which the
    error was caught.  Reading a property of [undefined] or of [null]
    throws. *)
Definition errorText (w : World) (err : Exn) : Completion string :=
  match err with
  | Undefined =>
      Throw (TypeError "Cannot read properties of undefined (reading 'stack')")
  | Null =>
      Throw (TypeError "Cannot read properties of null (reading 'stack')")
  | _ =>
      match JsString.truthy (stack w err) with
      | Some text => Normal text
      | None =>
          match JsString.truthy (messageOf err) with
          | Some text => Normal text
          | None =>
              match stringOf err with
              | Some text => Normal text
              | None => Throw (TypeError "Cannot convert object to primitive value")
              end
          end
      end
  end.

Definition removeBase (this : App) (pathname_ : string) : string :=
  if JsString.startsWith pathname_ (base (manifest this)) then
    JsString.slice (String.length (baseWithoutTrailingSlash this) + 1) pathname_
  else pathname_.

Definition getPathnameFromRequest (this : App) (request_ : Request.t) : string :=
  prependForwardSlash (removeBase this (urlPathname (Request.url request_))).

(** [match(request)] *)
Definition match_ (this : App) (request_ : Request.t) : option RouteData :=
  let pathname_ := urlPathname (Request.url request_) in
  if existsb (String.eqb pathname_) (assets (manifest this)) then None
  else
    let pathname_ := prependForwardSlash (removeBase this pathname_) in
    match matchRoute pathname_ (manifestData this) with
    | None => None
    | Some routeData_ => if prerender routeData_ then None else Some routeData_
    end.

(** [x ? a : b] on a number: zero is falsy. *)
Definition truthy (z : Z) : bool := negb (z =? 0).

(** [#mergeResponses(newResponse, originalResponse, override)].  The
    deletion changes the headers of the original response itself; it
    is the same deletion whenever the original is merged again. *)
Definition mergeResponses (newResponse : Response.t)
  (originalResponse : option Response.t) (override : option ErrorStatus)
  : Completion Response.t :=
  match originalResponse with
  | None =>
      match override with
      | Some override =>
          completion
            (Response.new (Response.body newResponse)
               (Some (statusCode override))
               (Some (Response.statusText newResponse))
               (Response.OfHeaders (Response.headers newResponse)))
      | None => Normal newResponse
      end
  | Some originalResponse =>
      let unforced :=
        if Response.status originalResponse =? 200
        then Response.status newResponse
        else Response.status originalResponse in
      let status_ :=
        match override with
        | Some override =>
            if truthy (statusCode override) then statusCode override
            else unforced
        | None => unforced
        end in
      (* try { originalResponse.headers.delete('Content-type') } catch {} *)
      let originalResponse :=
        match Headers.delete "Content-type" (Response.headers originalResponse) with
        | Some h => Response.withHeaders originalResponse h
        | None => originalResponse
        end in
      completion
        (Response.new (Response.body newResponse)
           (Some status_)
           (Some (if status_ =? 200 then Response.statusText newResponse
                  else Response.statusText originalResponse))
           (Response.OfHeaders
              (Headers.ofEntries
                 (Headers.entries (Response.headers newResponse)
                  ++ Headers.entries (Response.headers originalResponse))%list)))
  end.

(** The status that the merge with an original response computes. *)
Definition mergedStatus (newResponse originalResponse : Response.t)
  (override : option ErrorStatus) : Z :=
  match override with
  | Some o => statusCode o
  | None =>
      if Response.status originalResponse =? 200
      then Response.status newResponse
      else Response.status originalResponse
  end.

(** The original response, once its content type was deleted. *)
Definition withoutContentType (originalResponse : Response.t) : Response.t :=
  match Headers.delete "Content-type" (Response.headers originalResponse) with
  | Some h => Response.withHeaders originalResponse h
  | None => originalResponse
  end.

Definition getDefaultStatusCode (routeData_ : RouteData) (pathname_ : string) : Z :=
  if negb (pattern routeData_ pathname_)
     && existsb (fun fallbackRoute => pattern fallbackRoute pathname_)
          (fallbackRoutes routeData_)
  then 302
  else
    let route_ := removeTrailingForwardSlash (route routeData_) in
    if JsString.endsWith route_ "/404" then 404
    else if JsString.endsWith route_ "/500" then 500
    else 200.

Definition getModuleForRoute (route_ : RouteData) : AppM SinglePageBuiltModule :=
  this <- getThis ;;
  match type route_ with
  | RouteType.redirect => ret RedirectSinglePageBuiltModule
  | _ =>
      match pageMap (manifest this) with
      | Some pageMap_ =>
          match pageMap_ (component route_) with
          | None =>
              throw (Error ("Unexpectedly unable to find a component instance for route "
                            ++ route route_))
          | Some importComponentInstance => liftU importComponentInstance
          end
      | None =>
          match pageModule (manifest this) with
          | Some importComponentInstance => ret importComponentInstance
          | None =>
              throw (Error "Astro couldn't find the correct page to render, probably because it wasn't correctly mapped for SSR usage. This is an internal error, please file an issue.")
          end
      end
  end.

(** The loop over [info.scripts] of [#createRenderContext]. *)
Fixpoint collectScripts (scripts_ : list Script) : list SSRElement :=
  match scripts_ with
  | [] => []
  | StageScript stage children_ :: rest =>
      if (stage =? "head-inline")%string
      then {| props := []; children := children_ |} :: collectScripts rest
      else collectScripts rest
  | ModuleScript type_ value :: rest =>
      createModuleScriptElement type_ value :: collectScripts rest
  end.

(** [#createRenderContext(url, request, routeData, page, status)]; [url]
    is the URL of the request, given by its text. *)
Definition App_createRenderContext (url_ : string) (request_ : Request.t)
  (routeData_ : RouteData) (page_ : SinglePageBuiltModule) (status_ : Z)
  : AppM RenderContext :=
  this <- getThis ;;
  match type routeData_ with
  | RouteType.endpoint =>
      let pathname_ := "/" ++ removeBase this (urlPathname url_) in
      mod_ <- liftU (page page_) ;;
      liftU (createRenderContext
               {| a_request := request_; a_pathname := pathname_;
                  a_route := routeData_; a_status := status_;
                  a_env := env (pipeline this); a_mod := mod_;
                  a_scripts := None; a_styles := None; a_links := None;
                  a_i18n := i18n (manifest this) |})
  | _ =>
      let pathname_ := prependForwardSlash (removeBase this (urlPathname url_)) in
      match routeDataToRouteInfo this routeData_ with
      | None => throw (TypeError "Cannot read properties of undefined (reading 'styles')")
      | Some info =>
          let links_ := [] in
          let styles_ := createStylesheetElementSet (ri_styles info) in
          let scripts_ := collectScripts (ri_scripts info) in
          mod_ <- liftU (page page_) ;;
          liftU (createRenderContext
                   {| a_request := request_; a_pathname := pathname_;
                      a_route := routeData_; a_status := status_;
                      a_env := env (pipeline this); a_mod := mod_;
                      a_scripts := Some scripts_; a_styles := Some styles_;
                      a_links := Some links_;
                      a_i18n := i18n (manifest this) |})
      end
  end.

(** [RenderErrorOptions] *)
Record RenderErrorOptions := {
  o_status : ErrorStatus;
  response : option Response.t;
  skipMiddleware : bool
}.

(** [this.#pipeline.renderRoute(renderContext, page)] *)
Definition pipelineRenderRoute (renderContext : RenderContext)
  (page_ : ComponentInstance) : AppM Response.t :=
  this <- getThis ;;
  liftU (renderRoute (pipeline this) renderContext (Some page_)).

(** The [try] block of [#renderError], up to the response of the error
    page. *)
Definition renderError_try (request_ : Request.t) (errorRouteData : RouteData)
  (mod_ : SinglePageBuiltModule) (status_ : ErrorStatus) (skipMiddleware_ : bool)
  : AppM Response.t :=
  newRenderContext <- App_createRenderContext (Request.url request_) request_
                        errorRouteData mod_ (statusCode status_) ;;
  page_ <- liftU (page mod_) ;;
  (match skipMiddleware_, mod_onRequest mod_ with
   | false, Some onRequest_ =>
       setPipeline (fun p => setMiddlewareFunction p onRequest_)
   | _, _ => ret tt
   end) ;;;
  (if skipMiddleware_ then setPipeline unsetMiddlewareFunction else ret tt) ;;;
  pipelineRenderRoute newRenderContext page_.

(** The [try] block of [#renderError]: the render of the error page,
    and the merge of its response with the original one. *)
Definition renderError_merged (request_ : Request.t) (errorRouteData : RouteData)
  (mod_ : SinglePageBuiltModule) (status_ : ErrorStatus) (skipMiddleware_ : bool)
  (originalResponse : option Response.t) : AppM Response.t :=
  response_ <- renderError_try request_ errorRouteData mod_ status_
                 skipMiddleware_ ;;
  pure (mergeResponses response_ originalResponse None).

(** The last three lines of [#renderError]: a response without body. *)
Definition renderError_bare (status_ : ErrorStatus)
  (originalResponse : option Response.t) : Completion Response.t :=
  match completion
          (Response.new None (Some (statusCode status_)) None Response.NoHeaders)
  with
  | Throw e => Throw e
  | Normal bare =>
      match mergeResponses bare originalResponse None with
      | Throw e => Throw e
      | Normal response_ => Normal (Response.setResponseSent response_)
      end
  end.

(** The path of the error route of [#renderError]. *)
Definition errorRoutePath (this : App) (status_ : ErrorStatus) : string :=
  "/" ++ statusString status_
      ++ match trailingSlash (manifest this) with
         | always => "/"
         | _ => EmptyString
         end.

(** The address of the document of a prerendered error route. *)
Definition statusURL (this : App) (request_ : Request.t)
  (errorRouteData : RouteData) (status_ : ErrorStatus) : string :=
  let url_ := Request.url request_ in
  let maybeDotHtml :=
    if JsString.endsWith (route errorRouteData) ("/" ++ statusString status_)
    then ".html" else EmptyString in
  resolveURL (baseWithoutTrailingSlash this ++ "/"
                ++ statusString status_ ++ maybeDotHtml) url_.

(** [#renderError(request, { status, response, skipMiddleware })].  The
    function calls itself; [fuel] bounds the depth of the calls and
    [None] means that it ran out. *)
Fixpoint renderError (fuel : nat) (request_ : Request.t)
  (options : RenderErrorOptions) (s : St) : option (Completion Response.t * St) :=
  match fuel with
  | O => None
  | S fuel =>
      let this := fst s in
      let status_ := o_status options in
      let originalResponse := response options in
      let errorRouteData :=
        matchRoute (errorRoutePath this status_) (manifestData this) in
      match errorRouteData with
      | Some errorRouteData =>
          if prerender errorRouteData then
            match liftU (fetch (statusURL this request_ errorRouteData status_)) s with
            | (Throw e, s1) => Some (Throw e, s1)
            | (Normal response_, s1) =>
                let override := Some status_ in
                Some (mergeResponses response_ originalResponse override, s1)
            end
          else
            match getModuleForRoute errorRouteData s with
            | (Throw e, s1) => Some (Throw e, s1)
            | (Normal mod_, s1) =>
                match renderError_merged request_ errorRouteData mod_ status_
                        (skipMiddleware options) originalResponse s1 with
                | (Normal response_, s2) => Some (Normal response_, s2)
                | (Throw _, s2) =>
                    match skipMiddleware options, mod_onRequest mod_ with
                    | false, Some _ =>
                        renderError fuel request_
                          {| o_status := status_; response := originalResponse;
                             skipMiddleware := true |} s2
                    | _, _ => Some (renderError_bare status_ originalResponse, s2)
                    end
                end
            end
      | None => Some (renderError_bare status_ originalResponse, s)
      end
  end.

(** [RenderOptions]; the outer [option] of a field says whether the
    object has the key. *)
Record RenderOptions := {
  ro_routeData : option (option RouteData);
  ro_locals : option (option Locals)
}.

(** The second argument of [render]: route data (the deprecated
    signature) or options. *)
Inductive RouteDataOrOptions :=
| ArgRouteData (routeData_ : RouteData)
| ArgOptions (options : RenderOptions).

(** The head of [render]: the route data and the locals out of the two
    signatures.  An options object with neither key is taken for route
    data; it has no [pattern], which [#getDefaultStatusCode] then fails
    to read. *)
Definition render_arguments (routeDataOrOptions : option RouteDataOrOptions)
  (maybeLocals : option Locals) : AppM (option RouteData * option Locals) :=
  match routeDataOrOptions with
  | Some (ArgOptions {| ro_routeData := None; ro_locals := None |}) =>
      logRenderOptionsDeprecationWarning ;;;
      throw (TypeError "Cannot read properties of undefined (reading 'exec')")
  | Some (ArgOptions o) =>
      ret (match ro_routeData o with Some r => r | None => None end,
           match ro_locals o with Some l => l | None => None end)
  | Some (ArgRouteData routeData_) =>
      logRenderOptionsDeprecationWarning ;;;
      ret (Some routeData_, maybeLocals)
  | None =>
      (match maybeLocals with
       | Some _ => logRenderOptionsDeprecationWarning
       | None => ret tt
       end) ;;;
      ret (None, maybeLocals)
  end.

(** Handle requests with duplicate slashes by cloning with a cleaned-up
    URL. *)
Definition render_request (request_ : Request.t) : Request.t :=
  if negb (Request.url request_ =? collapseDuplicateSlashes (Request.url request_))%string
  then Request.new (collapseDuplicateSlashes (Request.url request_)) request_
  else request_.

(** [if (!routeData) routeData = this.match(request)] *)
Definition render_route (this : App) (routeData_ : option RouteData)
  (request_ : Request.t) : option RouteData :=
  match routeData_ with
  | Some r => Some r
  | None => match_ this request_
  end.

(** [Reflect.set(request, clientLocalsSymbol, locals ?? {})] *)
Definition render_locals (request_ : Request.t) (locals_ : option Locals)
  : Request.t :=
  Request.setLocals request_ (match locals_ with Some l => l | None => [] end).

(** From the default status to the render context, before the [try]. *)
Definition render_prepare (request_ : Request.t) (routeData_ : RouteData)
  : AppM (SinglePageBuiltModule * ComponentInstance * RenderContext) :=
  this <- getThis ;;
  let pathname_ := getPathnameFromRequest this request_ in
  let defaultStatus := getDefaultStatusCode routeData_ pathname_ in
  mod_ <- getModuleForRoute routeData_ ;;
  pageModule_ <- liftU (page mod_) ;;
  renderContext <- App_createRenderContext (Request.url request_) request_
                     routeData_ mod_ defaultStatus ;;
  ret (mod_, pageModule_, renderContext).

(** The [try] block of [render]: the middleware is set, the Pipeline
    renders. *)
Definition render_try (mod_ : SinglePageBuiltModule)
  (renderContext : RenderContext) (pageModule_ : ComponentInstance)
  : AppM Response.t :=
  this <- getThis ;;
  let i18nMiddleware :=
    createI18nMiddleware (i18n (manifest this)) (base (manifest this))
      (trailingSlash (manifest this)) in
  (match i18nMiddleware with
   | Some i18nMiddleware =>
       (match mod_onRequest mod_ with
        | Some onRequest_ =>
            setPipeline
              (fun p => setMiddlewareFunction p (sequence [i18nMiddleware; onRequest_]))
        | None => setPipeline (fun p => setMiddlewareFunction p i18nMiddleware)
        end) ;;;
       setPipeline (fun p => onBeforeRenderRoute p i18nPipelineHook)
   | None =>
       match mod_onRequest mod_ with
       | Some onRequest_ => setPipeline (fun p => setMiddlewareFunction p onRequest_)
       | None => ret tt
       end
   end) ;;;
  pipelineRenderRoute renderContext pageModule_.

(** The [catch] block of [render]. *)
Definition render_catch (fuel : nat) (request_ : Request.t) (err : Exn) (s : St)
  : option (Completion Response.t * St) :=
  match err with
  | EndpointNotFoundError originalResponse =>
      renderError fuel request_
        {| o_status := E404; response := Some originalResponse;
           skipMiddleware := false |} s
  | _ =>
      match errorText (snd s) err with
      | Throw e => Some (Throw e, s)
      | Normal text =>
          renderError fuel request_
            {| o_status := E500; response := None; skipMiddleware := false |}
            (snd (log "error" None text s))
      end
  end.

(** The end of [render], once the Pipeline has returned [response]. *)
Definition render_finish (fuel : nat) (request_ : Request.t)
  (routeData_ : RouteData) (response_ : Response.t) (s : St)
  : option (Completion Response.t * St) :=
  match type routeData_ with
  | RouteType.page | RouteType.redirect =>
      match STATUS_CODES_has (Response.status response_) with
      | Some status_ =>
          renderError fuel request_
            {| o_status := status_; response := Some response_;
               skipMiddleware := false |} s
      | None => Some (Normal (Response.setResponseSent response_), s)
      end
  | _ => Some (Normal response_, s)
  end.

(** [render(request, routeDataOrOptions, maybeLocals)] *)
Definition render (fuel : nat) (request_ : Request.t)
  (routeDataOrOptions : option RouteDataOrOptions) (maybeLocals : option Locals)
  (s : St) : option (Completion Response.t * St) :=
  match render_arguments routeDataOrOptions maybeLocals s with
  | (Throw e, s0) => Some (Throw e, s0)
  | (Normal (routeData_, locals_), s0) =>
      let request_ := render_request request_ in
      match render_route (fst s0) routeData_ request_ with
      | None =>
          renderError fuel request_
            {| o_status := E404; response := None; skipMiddleware := false |} s0
      | Some routeData_ =>
          let request_ := render_locals request_ locals_ in
          match render_prepare request_ routeData_ s0 with
          | (Throw e, s1) => Some (Throw e, s1)
          | (Normal (mod_, pageModule_, renderContext), s1) =>
              match render_try mod_ renderContext pageModule_ s1 with
              | (Throw err, s2) => render_catch fuel request_ err s2
              | (Normal response_, s2) =>
                  render_finish fuel request_ routeData_ response_ s2
              end
          end
      end
  end.

End Dispatch.

(* ================================================================== *)
(** * What a request leaves of the [App] *)
(* ================================================================== *)

Section Unchanged.
Context `{HT : HostTypes} `{RH : !RenderHost}.

(** The second [App] is the first one up to the middleware and the
    hooks of its Pipeline and to the flag of the warning, with a log
    that starts with the log of the first. *)
Definition sameSite (a b : App) : Prop :=
  manifest b = manifest a
  /\ manifestData b = manifestData a
  /\ routeDataToRouteInfo b = routeDataToRouteInfo a
  /\ baseWithoutTrailingSlash b = baseWithoutTrailingSlash a
  /\ env (pipeline b) = env (pipeline a)
  /\ endpointHandler (pipeline b) = endpointHandler (pipeline a)
  /\ exists more, logged b = (logged a ++ more)%list.

(** The Pipeline of the second [App] has the hooks of the first. *)
Definition sameHooks (a b : App) : Prop :=
  hooks_before (pipeline b) = hooks_before (pipeline a).

(** A method that leaves the [App] as it is, as far as the relation
    says. *)
Definition Keeps (R : App -> App -> Prop) {A : Type} (m : AppM A) : Prop :=
  forall s, R (fst s) (fst (snd (m s))).

(** A relation between an [App] and what it has become that the logger
    and the setters of the middleware respect. *)
Record Frame (R : App -> App -> Prop) : Prop := {
  frame_refl : forall a, R a a;
  frame_trans : forall a b c, R a b -> R b c -> R a c;
  frame_log : forall level label message, Keeps R (log level label message);
  frame_warning : Keeps R logRenderOptionsDeprecationWarning;
  frame_set :
    forall m, Keeps R (setPipeline (fun p => setMiddlewareFunction p m));
  frame_unset : Keeps R (setPipeline unsetMiddlewareFunction)
}.

End Unchanged.

(* ================================================================== *)
(** * [core/routing/params.ts] *)
(* ================================================================== *)



(** [v ? v : undefined] on a string or [undefined]: the empty string is
    falsy. *)
Definition orUndefined (v : option string) : option string :=
  match v with
  | Some EmptyString => None
  | _ => v
  end.





Definition paramValue (key : string) (v : option string) : option string :=
  if JsString.startsWith key "..." then orUndefined v else v.

(* ================================================================== *)
(** * [vite-plugin-astro-server/route.ts]: the error routes *)
(* ================================================================== *)

(** [/^\/404\/?$/.test(s)] *)
Definition route404 (s : string) : bool :=
  (s =? "/404")%string || (s =? "/404/")%string.

Definition getCustom404Route (manifestData_ : ManifestData) : option RouteData :=
  find (fun r => route404 (route r)) (md_routes manifestData_).

Definition has404Route (manifest_ : ManifestData) : bool :=
  existsb (fun r => (route r =? "/404")%string) (md_routes manifest_).

(** [getStatus(matchedRoute)], on the route of the match. *)
Definition getStatus (matchedRoute : option RouteData) : option ErrorStatus :=
  match matchedRoute with
  | None => Some E404
  | Some r =>
      if (route r =? "/404")%string then Some E404
      else if (route r =? "/500")%string then Some E500
      else None
  end.

(* ================================================================== *)
(** * [runtime/server/transition.ts]: names of transitions *)
(* ================================================================== *)

(** The class [[a-zA-Z0-9\-\_]] *)
Definition isIdentChar (c : ascii) : bool :=
  let n := nat_of_ascii c in
  ((97 <=? n) && (n <=? 122) || (65 <=? n) && (n <=? 90)
   || (48 <=? n) && (n <=? 57) || (n =? 45) || (n =? 95))%nat.

(** [name.replace(/[^a-zA-Z0-9\-\_]/g, '_')] *)
Fixpoint replaceInvalid (name : string) : string :=
  match name with
  | EmptyString => EmptyString
  | String c t => String (if isIdentChar c then c else "_"%char) (replaceInvalid t)
  end.

(** What [replace(/^\_+|\_+$/g, '')] removes at the start: the
    underscores the string begins with. *)
Fixpoint trimStart (s : string) : string :=
  match s with
  | EmptyString => EmptyString
  | String c t => if (c =? "_")%char then trimStart t else s
  end.

(** ... and at the end: the underscores the string ends with. *)
Fixpoint trimEnd (s : string) : string :=
  match s with
  | EmptyString => EmptyString
  | String c t =>
      match trimEnd t with
      | EmptyString => if (c =? "_")%char then EmptyString else String c EmptyString
      | t' => String c t'
      end
  end.

Definition toValidIdent (name : string) : string :=
  trimEnd (trimStart (replaceInvalid name)).

(** Every character is of the class. *)
Fixpoint allIdentChars (s : string) : bool :=
  match s with
  | EmptyString => true
  | String c t => isIdentChar c && allIdentChars t
  end.

(** The first and the last character of a string. *)
Definition firstChar (s : string) : option ascii :=
  match s with
  | EmptyString => None
  | String c _ => Some c
  end.

Fixpoint lastChar (s : string) : option ascii :=
  match s with
  | EmptyString => None
  | String c EmptyString => Some c
  | String _ t => lastChar t
  end.

(* ================================================================== *)
(** * A small site, to run the code on *)
(* ================================================================== *)

Module Sample.

(** What a loaded module does when it is rendered or called. *)
Inductive Unit_ :=
| Renders (r : Response.t)
| Fails (message : string)
| Throws (value : Exn).

(** The world counts the renders of modules. *)
#[global] Instance types : HostTypes := {|
  World := nat;
  ComponentInstance := Unit_;
  AstroComponentFactory := Unit_;
  SSRResult := unit;
  AstroCookies := unit;
  APIContext := unit;
  Props := unit
|}.

Definition run (u : Unit_) : U Response.t :=
  fun w =>
    match u with
    | Renders r => (Normal r, S w)
    | Fails message => (Throw (Error message), S w)
    | Throws value => (Throw value, S w)
    end.

#[global] Instance renderHost : RenderHost := {|
  createAPIContext := fun _ _ => tt;
  cookies := fun _ => tt;
  callMiddleware := fun onRequest_ apiContext next =>
    bind (onRequest_ apiContext next)
      (fun r => match r with
                | Some r => ret r
                | None => throw (AstroError "MiddlewareNoDataOrNextCalled")
                end);
  callEndpoint := fun mod_ _ _ _ =>
    match mod_ with
    | Some u => run u
    | None => throw (Error "no endpoint")
    end;
  default := fun u => Some u;
  typeofDefault := fun _ => "function";
  partial := fun _ => false;
  createResult := fun _ _ _ _ _ => tt;
  resultCookies := fun _ => None;
  runtimeRenderPage := fun _ Component _ _ _ => run Component;
  attachCookiesToResponse := fun r _ => r
|}.

Definition html (status_ : Z) (body_ : string) : Response.t :=
  Response.mk status_ "" (Headers.mk false [("content-type", "text/html")])
    (Some body_) false.

(** A module whose [page()] loads [u]. *)
Definition module (u : Unit_) (onRequest_ : option MiddlewareHandler)
  : SinglePageBuiltModule :=
  {| page := ret u; mod_onRequest := onRequest_ |}.

(** Middleware that calls [next] and returns its response. *)
Definition passThrough : MiddlewareHandler :=
  fun _ next => bind next (fun r => ret (Some r)).

Definition routeAt (path : string) (type_ : RouteType.t) (prerender_ : bool)
  : RouteData :=
  mkRouteData path type_ path (String.eqb path) prerender_ None None []
    (fun _ => path) (Some path).

(** The engine of the sample records where an [Error] was created. *)
Definition trace (err : Exn) : option string :=
  match err with
  | Error message => Some ("Error: " ++ message ++ " at page.astro:1:7")
  | _ => None
  end.

(** The first route whose pattern accepts the path. *)
Definition firstMatch (pathname_ : string) (m : ManifestData) : option RouteData :=
  find (fun r => pattern r pathname_) (md_routes m).

#[global] Instance dispatchHost : DispatchHost := {|
  collapseDuplicateSlashes := fun u => u;
  prependForwardSlash := fun p =>
    if JsString.startsWith p "/" then p else "/" ++ p;
  removeTrailingForwardSlash := fun p =>
    if JsString.endsWith p "/"
    then substring 0 (String.length p - 1) p else p;
  matchRoute := firstMatch;
  urlPathname := fun u => u;
  resolveURL := fun path _ => path;
  fetch := fun u => ret (Response.mk 200 "OK"
                           (Headers.mk true [("content-type", "text/html")])
                           (Some ("static " ++ u)) false);
  createRenderContext := fun a =>
    ret {| request := a_request a; rc_pathname := a_pathname a;
           rc_route := a_route a; status := Some (a_status a);
           params := []; rc_props := tt;
           rc_locals := Request.locals (a_request a);
           scripts := match a_scripts a with Some l => l | None => [] end;
           styles := match a_styles a with Some l => l | None => [] end;
           links := match a_links a with Some l => l | None => [] end;
           rc_i18n := a_i18n a |};
  createStylesheetElementSet := fun _ => [];
  createModuleScriptElement := fun t v => {| props := [(t, v)]; children := "" |};
  createI18nMiddleware := fun _ _ _ => None;
  i18nPipelineHook := fun rc _ => ret rc;
  sequence := fun _ => passThrough;
  RedirectSinglePageBuiltModule := module (Renders (html 200 "")) (Some passThrough);
  stack := fun _ => trace;
  astroErrorMessage := fun name => "Astro: " ++ name
|}.

(** A site out of routes and of the module of each. *)
Definition site_ (l : list (RouteData * SinglePageBuiltModule)) : App :=
  {| manifest :=
       {| m_adapterName := "sample";
          routes := map (fun x => {| routeData := fst x; ri_styles := [];
                                     ri_scripts := [] |}) l;
          base := "/"; trailingSlash := ignore; assets := [];
          pageMap :=
            Some (fun c =>
                    option_map (fun x => ret (snd x))
                      (find (fun x => (component (fst x) =? c)%string) l));
          pageModule := None; i18n := None |};
     manifestData := {| md_routes := map fst l |};
     routeDataToRouteInfo := fun r =>
       Some {| routeData := r; ri_styles := []; ri_scripts := [] |};
     baseWithoutTrailingSlash := "";
     pipeline :=
       {| env := {| adapterName := "sample"; site := None; ssr := true;
                    streaming := true; compressHTML := false |};
          onRequest := None; hooks_before := [];
          endpointHandler := Some (fun _ r => ret r) |};
     logged := [];
     renderOptionsDeprecationWarningShown := false |}.

Definition get_ (path : string) : Request.t :=
  Request.mk "GET" path Headers.empty None None.

(** A redirect route [/old/[slug]] with the given configuration, whose
    target is not a route of the site. *)
Definition redirectTo (config : RedirectConfig) : RouteData :=
  mkRouteData "/old/[slug]" RouteType.redirect "/old/[slug]" (fun _ => true)
    false (Some config) None [] (fun _ => "") None.

(** The render context of a request for a route, without parameters. *)
Definition contextOf (method_ : string) (route_ : RouteData) (params_ : Params)
  : RenderContext :=
  {| request := Request.mk method_ "/old/abc" Headers.empty None None;
     rc_pathname := "/old/abc"; rc_route := route_; status := Some 200;
     params := params_; rc_props := tt; rc_locals := None;
     scripts := []; styles := []; links := []; rc_i18n := None |}.

Definition environment : Environment :=
  {| adapterName := "sample"; site := None; ssr := true;
     streaming := true; compressHTML := false |}.

(** The route [/404] of a site whose pages fall back from [/es/...] to
    the default locale. *)
Definition notFoundWithFallback : RouteData :=
  mkRouteData "/404" RouteType.page "/404" (String.eqb "/404") false None None
    [routeAt "/es/404" RouteType.fallback false] (fun _ => "/404") (Some "/404").

(** An endpoint route and its render context. *)
Definition apiContext_ : RenderContext :=
  {| request := Request.mk "GET" "/api" Headers.empty None None;
     rc_pathname := "/api"; rc_route := routeAt "/api" RouteType.endpoint false;
     status := Some 200; params := []; rc_props := tt; rc_locals := None;
     scripts := []; styles := []; links := []; rc_i18n := None |}.

(** A handler of endpoint results that marks what it was given. *)
Definition markingHandler : EndpointResultHandler :=
  fun request_ result =>
    ret (Response.mk (Response.status result) (Request.url request_)
           (Response.headers result) (Response.body result) false).

Definition pipelineWith (handler : option EndpointResultHandler) : Pipeline :=
  {| env := environment; onRequest := None; hooks_before := [];
     endpointHandler := handler |}.

(** What a caller sees of a run: the completion, and how many times
    a module was rendered. *)
Definition observe (o : option (Completion Response.t * St))
  : option (Completion Response.t * nat) :=
  option_map (fun x => (fst x, snd (snd x))) o.

(** Requests that have no route go to [/404]. *)
Definition notFoundOptions : RenderErrorOptions :=
  {| o_status := E404; response := None; skipMiddleware := false |}.

(** A site with a page [/] and an error page [/404]. *)
Definition siteWith (home notFound : SinglePageBuiltModule) : App :=
  site_ [(routeAt "/" RouteType.page false, home);
         (routeAt "/404" RouteType.page false, notFound)].

(** A site whose only route is reached through a locale fallback, with
    an error page. *)
Definition fallbackSite : App :=
  site_ [(routeAt "/es/about" RouteType.fallback false,
          module (Renders (html 200 "about")) None);
         (routeAt "/404" RouteType.page false,
          module (Renders (html 404 "Not Found")) None)].

(** Modules: a page that renders, one that reports 404 by itself, one
    that throws, and error pages. *)
Definition homePage : SinglePageBuiltModule :=
  module (Renders (html 200 "home")) None.

Definition reports404 : SinglePageBuiltModule :=
  module (Renders (html 404 "gone")) None.

Definition throwingPage : SinglePageBuiltModule :=
  module (Fails "boom") None.

Definition notFoundPage : SinglePageBuiltModule :=
  module (Renders (html 404 "Not Found")) None.

(** An error page that sends the visitor home. *)
Definition redirectingNotFoundPage : SinglePageBuiltModule :=
  module (Renders (Response.mk 302 "" (Headers.mk false [("location", "/")])
                     None false)) None.

(** A page that throws [undefined], and the page of a site for 500. *)
Definition throwsUndefined : SinglePageBuiltModule :=
  module (Throws Undefined) None.

Definition serverErrorPage : SinglePageBuiltModule :=
  module (Renders (html 500 "Server Error")) None.

(** The answer of an endpoint that has nothing to send. *)
Definition noContent : Response.t :=
  Response.mk 204 "No Content" (Headers.mk false []) None false.

(** Error pages whose render throws, without and with middleware. *)
Definition brokenNotFoundPage : SinglePageBuiltModule :=
  module (Fails "error page failed") None.

Definition brokenNotFoundPageWithMiddleware : SinglePageBuiltModule :=
  module (Fails "error page failed") (Some passThrough).

(** A site with only the page [/]. *)
Definition siteWithout404 (home : SinglePageBuiltModule) : App :=
  site_ [(routeAt "/" RouteType.page false, home)].

(** A site with the page [/] and a page for 500. *)
Definition siteWith500 (home : SinglePageBuiltModule) : App :=
  site_ [(routeAt "/" RouteType.page false, home);
         (routeAt "/500" RouteType.page false, serverErrorPage)].

(** A site whose error page was prerendered. *)
Definition staticErrorSite : App :=
  site_ [(routeAt "/" RouteType.page false, homePage);
         (routeAt "/404" RouteType.page true, notFoundPage)].

(** An error page that answers 200. *)
Definition softNotFoundPage : SinglePageBuiltModule :=
  module (Renders (html 200 "Not Found")) None.

(** A route that is reached through a pattern only: its generator gives
    the empty path and it has no pathname. *)
Definition patternRoute : RouteData :=
  mkRouteData "/[...all]" RouteType.page "/[...all]" (fun _ => true) false
    None None [] (fun _ => EmptyString) None.


(** A redirect whose target is a route of the site. *)
Definition redirectToRoute (target : RouteData) : RouteData :=
  mkRouteData "/old" RouteType.redirect "/old" (String.eqb "/old") false
    (Some (RedirectString (route target))) (Some target) []
    (fun _ => "/old") (Some "/old").

(** The options of a caller that found the route itself. *)
Definition withRoute (r : RouteData) : option RouteDataOrOptions :=
  Some (ArgOptions {| ro_routeData := Some (Some r); ro_locals := None |}).


(** An error page and a response that both set cookies. *)
Definition errorPageWithCookie : Response.t :=
  Response.mk 404 "Not Found"
    (Headers.mk false [("content-type", "text/html");
                       ("set-cookie", "seen=1")])
    (Some "<h1>Not Found</h1>") false.

Definition userResponseWithCookies : Response.t :=
  Response.mk 404 ""
    (Headers.mk false [("Set-Cookie", "session=; Max-Age=0");
                       ("x-custom", "1");
                       ("set-cookie", "theme=dark")])
    None false.



(** The host of a site with internationalisation. *)
Definition i18nDispatchHost : DispatchHost :=
  {| collapseDuplicateSlashes := fun u => u;
     prependForwardSlash := fun p =>
       if JsString.startsWith p "/" then p else "/" ++ p;
     removeTrailingForwardSlash := fun p => p;
     matchRoute := firstMatch;
     urlPathname := fun u => u;
     resolveURL := fun path _ => path;
     fetch := fun u => throw (Error "offline");
     createRenderContext := fun a =>
       ret {| request := a_request a; rc_pathname := a_pathname a;
              rc_route := a_route a; status := Some (a_status a);
              params := []; rc_props := tt;
              rc_locals := Request.locals (a_request a);
              scripts := []; styles := []; links := [];
              rc_i18n := a_i18n a |};
     createStylesheetElementSet := fun _ => [];
     createModuleScriptElement := fun t v => {| props := [(t, v)]; children := "" |};
     createI18nMiddleware := fun _ _ _ => Some passThrough;
     i18nPipelineHook := fun rc _ => ret rc;
     sequence := fun _ => passThrough;
     RedirectSinglePageBuiltModule := module (Renders (html 200 "")) None;
     stack := fun _ => trace;
     astroErrorMessage := fun name => "Astro: " ++ name |}.

(** An error page and the response of a page that set headers of its
    own. *)
Definition errorPage : Response.t :=
  Response.mk 404 "Not Found"
    (Headers.mk false [("content-type", "text/html");
                       ("cache-control", "no-store")])
    (Some "<h1>Not Found</h1>") false.

Definition userResponse : Response.t :=
  Response.mk 404 ""
    (Headers.mk false [("content-type", "application/json");
                       ("cache-control", "max-age=60");
                       ("x-custom", "1")])
    (Some "{}") false.

End Sample.


(* ================================================================== *)
(** * Theory of the header lists *)
(* ================================================================== *)

Lemma string_append_assoc (a b c : string) :
  ((a ++ b) ++ c)%string = (a ++ (b ++ c))%string.
Proof. induction a as [|x a IH]; simpl; [reflexivity | now rewrite IH]. Qed.

Lemma lowerChar_idem (c : ascii) :
  JsString.lowerChar (JsString.lowerChar c) = JsString.lowerChar c.
Proof. destruct c as [[] [] [] [] [] [] [] []]; reflexivity. Qed.

Lemma toLowerCase_idem (s : string) :
  JsString.toLowerCase (JsString.toLowerCase s) = JsString.toLowerCase s.
Proof.
  induction s as [|c s IH]; simpl; [reflexivity|].
  now rewrite lowerChar_idem, IH.
Qed.

Lemma fold_left_snoc {A B} (f : A -> B) (init : list A) (acc : list B) :
  fold_left (fun l h => (l ++ [f h])%list) init acc = (acc ++ map f init)%list.
Proof.
  revert acc; induction init as [|x init IH]; intro acc; simpl.
  - now rewrite app_nil_r.
  - rewrite IH, <- app_assoc. reflexivity.
Qed.

Lemma headerList_ofEntries (l : Headers.HeaderList) :
  Headers.headerList (Headers.ofEntries l) = map Headers.normalized l.
Proof. unfold Headers.ofEntries; simpl. now rewrite fold_left_snoc. Qed.

(** Normalizing is idempotent. *)
Lemma stripTrailing_first (s : string) (c : ascii) (t : string) :
  Headers.stripTrailing s = String c t ->
  exists t', s = String c t'.
Proof.
  destruct s as [|d s']; simpl; [discriminate|].
  destruct (Headers.stripTrailing s').
  - destruct (Headers.isHttpWhitespace d); [discriminate|].
    intro E. injection E as -> _. eauto.
  - intro E. injection E as -> _. eauto.
Qed.

Lemma stripLeading_first (s : string) (c : ascii) (t : string) :
  Headers.stripLeading s = String c t -> Headers.isHttpWhitespace c = false.
Proof.
  induction s as [|d s IH]; simpl; [discriminate|].
  destruct (Headers.isHttpWhitespace d) eqn:E; [exact IH|].
  intro H. injection H as -> _. exact E.
Qed.

Lemma stripLeading_fixed (s : string) :
  match s with
  | EmptyString => True
  | String c _ => Headers.isHttpWhitespace c = false
  end ->
  Headers.stripLeading s = s.
Proof. destruct s as [|c s]; simpl; [reflexivity|]. now intros ->. Qed.

Lemma stripTrailing_idem (s : string) :
  Headers.stripTrailing (Headers.stripTrailing s) = Headers.stripTrailing s.
Proof.
  induction s as [|c s IH]; simpl; [reflexivity|].
  destruct (Headers.stripTrailing s) as [|d t] eqn:E.
  - destruct (Headers.isHttpWhitespace c) eqn:Ec; simpl; [reflexivity|].
    now rewrite Ec.
  - cbn [Headers.stripTrailing]. cbn [Headers.stripTrailing] in IH.
    rewrite IH. reflexivity.
Qed.

Lemma normalize_idem (v : string) :
  Headers.normalize (Headers.normalize v) = Headers.normalize v.
Proof.
  unfold Headers.normalize.
  rewrite (stripLeading_fixed (Headers.stripTrailing (Headers.stripLeading v))).
  - apply stripTrailing_idem.
  - destruct (Headers.stripTrailing (Headers.stripLeading v)) as [|c t] eqn:E;
      [exact I|].
    apply stripTrailing_first in E. destruct E as [t' E].
    now apply stripLeading_first in E.
Qed.

Lemma copied_idem (v : option string) :
  Headers.copied (Headers.copied v) = Headers.copied v.
Proof. destruct v as [v|]; simpl; [|reflexivity]. now rewrite normalize_idem. Qed.

Lemma map_normalize_idem (l : list string) :
  map Headers.normalize (map Headers.normalize l) = map Headers.normalize l.
Proof.
  rewrite map_map. apply map_ext. intro v. apply normalize_idem.
Qed.

Lemma values_normalized (name : string) (l : Headers.HeaderList) :
  Headers.values name (map Headers.normalized l)
  = map Headers.normalize (Headers.values name l).
Proof.
  unfold Headers.values.
  induction l as [|h l IH]; [reflexivity|].
  cbn [map filter].
  change (Headers.hasName name (Headers.normalized h))
    with (Headers.hasName name h).
  destruct (Headers.hasName name h); cbn [map]; now rewrite IH.
Qed.

Lemma values_app (name : string) (l1 l2 : Headers.HeaderList) :
  Headers.values name (l1 ++ l2)%list
  = (Headers.values name l1 ++ Headers.values name l2)%list.
Proof. unfold Headers.values. now rewrite filter_app, map_app. Qed.



Lemma names_In (l : Headers.HeaderList) (m : string) :
  In m (Headers.names l)
  <-> exists h, In h l /\ JsString.toLowerCase (fst h) = m.
Proof.
  unfold Headers.names. split.
  - intro Hin.
    apply (Permutation_in _ (Permutation_sym (StringSort.Permuted_sort _))) in Hin.
    apply nodup_In, in_map_iff in Hin. destruct Hin as [h [E Hh]]. now exists h.
  - intros [h [Hh E]].
    apply (Permutation_in _ (StringSort.Permuted_sort _)).
    apply nodup_In, in_map_iff. now exists h.
Qed.

Lemma names_lower (l : Headers.HeaderList) (m : string) :
  In m (Headers.names l) -> JsString.toLowerCase m = m.
Proof.
  intro Hin. apply names_In in Hin. destruct Hin as [h [_ E]].
  rewrite <- E. apply toLowerCase_idem.
Qed.

Lemma names_NoDup (l : Headers.HeaderList) : NoDup (Headers.names l).
Proof.
  unfold Headers.names.
  eapply Permutation_NoDup; [apply StringSort.Permuted_sort | apply NoDup_nodup].
Qed.

Lemma values_nil_iff (name : string) (l : Headers.HeaderList) :
  Headers.values name l = []
  <-> ~ In (JsString.toLowerCase name) (Headers.names l).
Proof.
  rewrite names_In. unfold Headers.values. split.
  - intros E [h [Hh Eh]].
    assert (Hf : In h (filter (Headers.hasName name) l)).
    { apply filter_In. split; [assumption|].
      unfold Headers.hasName, Headers.nameEqb. rewrite Eh. apply String.eqb_refl. }
    destruct (filter (Headers.hasName name) l); [contradiction | discriminate].
  - intro Hn.
    destruct (filter (Headers.hasName name) l) as [|h t] eqn:E; [reflexivity|].
    exfalso. apply Hn. exists h.
    assert (Hf : In h (filter (Headers.hasName name) l)) by (rewrite E; now left).
    apply filter_In in Hf. destruct Hf as [Hh Hname]. split; [assumption|].
    now apply String.eqb_eq in Hname.
Qed.

Lemma hasName_lower (name : string) (h : string * string) :
  Headers.hasName (JsString.toLowerCase name) h = Headers.hasName name h.
Proof. unfold Headers.hasName, Headers.nameEqb. now rewrite toLowerCase_idem. Qed.

Lemma values_lower (name : string) (l : Headers.HeaderList) :
  Headers.values (JsString.toLowerCase name) l = Headers.values name l.
Proof.
  unfold Headers.values. f_equal. apply filter_ext. intro h. apply hasName_lower.
Qed.

Lemma values_map_pair (name m : string) (vs : list string) :
  Headers.values name (map (pair m) vs)
  = if Headers.nameEqb m name then vs else [].
Proof.
  unfold Headers.values.
  induction vs as [|v vs IH]; simpl.
  - now destruct (Headers.nameEqb m name).
  - unfold Headers.hasName at 1; simpl.
    destruct (Headers.nameEqb m name); simpl; now rewrite IH.
Qed.

Lemma values_entriesOf_other (l : Headers.HeaderList) (m name : string) :
  JsString.toLowerCase m = m -> m <> JsString.toLowerCase name ->
  Headers.values name (Headers.entriesOf l m) = [].
Proof.
  intros Hm Hne.
  assert (E : Headers.nameEqb m name = false).
  { unfold Headers.nameEqb. rewrite Hm. now apply String.eqb_neq. }
  unfold Headers.entriesOf.
  destruct (m =? "set-cookie")%string.
  - now rewrite values_map_pair, E.
  - destruct (Headers.getList m l) as [v|]; [|reflexivity].
    change [(m, v)] with (map (pair m) [v]). now rewrite values_map_pair, E.
Qed.

Lemma getList_entriesOf_same (l : Headers.HeaderList) (name : string) :
  Headers.getList name (Headers.entriesOf l (JsString.toLowerCase name))
  = Headers.getList name l.
Proof.
  assert (E : Headers.nameEqb (JsString.toLowerCase name) name = true).
  { unfold Headers.nameEqb. rewrite toLowerCase_idem. apply String.eqb_refl. }
  unfold Headers.entriesOf, Headers.getList at 1.
  destruct (JsString.toLowerCase name =? "set-cookie")%string.
  - rewrite values_map_pair, E, values_lower. reflexivity.
  - unfold Headers.getList. rewrite values_lower.
    destruct (Headers.values name l) as [|v vs] eqn:Ev; [reflexivity|].
    change [(JsString.toLowerCase name, String.concat ", " (v :: vs))]
      with (map (pair (JsString.toLowerCase name)) [String.concat ", " (v :: vs)]).
    rewrite values_map_pair, E. reflexivity.
Qed.

Lemma values_flat_map (name : string) (f : string -> Headers.HeaderList)
  (L : list string) :
  Headers.values name (flat_map f L)
  = flat_map (fun m => Headers.values name (f m)) L.
Proof.
  induction L as [|a L IH]; simpl; [reflexivity|].
  now rewrite values_app, IH.
Qed.

Lemma values_entries_absent (l : Headers.HeaderList) (name : string)
  (L : list string) :
  (forall m, In m L -> JsString.toLowerCase m = m) ->
  ~ In (JsString.toLowerCase name) L ->
  flat_map (fun m => Headers.values name (Headers.entriesOf l m)) L = [].
Proof.
  induction L as [|a L IH]; intros Hlow Hn; simpl; [reflexivity|].
  rewrite values_entriesOf_other, IH; simpl; auto.
  - intros m Hm. apply Hlow. now right.
  - intro Hin. apply Hn. now right.
  - apply Hlow. now left.
  - intro E. apply Hn. now left.
Qed.

Lemma values_entries_present (l : Headers.HeaderList) (name : string)
  (L : list string) :
  (forall m, In m L -> JsString.toLowerCase m = m) ->
  NoDup L -> In (JsString.toLowerCase name) L ->
  flat_map (fun m => Headers.values name (Headers.entriesOf l m)) L
  = Headers.values name (Headers.entriesOf l (JsString.toLowerCase name)).
Proof.
  induction L as [|a L IH]; intros Hlow Hnd Hin; [contradiction|].
  inversion Hnd as [|? ? Ha HL]; subst. simpl.
  destruct (string_dec a (JsString.toLowerCase name)) as [E|E].
  - subst a. rewrite values_entries_absent; auto.
    + now rewrite app_nil_r.
    + intros m Hm. apply Hlow. now right.
  - rewrite values_entriesOf_other; auto.
    + simpl. apply IH; auto.
      * intros m Hm. apply Hlow. now right.
      * destruct Hin as [Hin|Hin]; [contradiction | assumption].
    + apply Hlow. now left.
Qed.

(** Iterating a header list and filling a new one with what comes out
    does not change what [get] answers. *)
Lemma getList_entries (name : string) (h : Headers.t) :
  Headers.getList name (Headers.entries h) = Headers.get name h.
Proof.
  unfold Headers.entries, Headers.get.
  set (l := Headers.headerList h).
  destruct (in_dec string_dec (JsString.toLowerCase name) (Headers.names l))
    as [Hin|Hn].
  - rewrite <- (getList_entriesOf_same l name).
    unfold Headers.getList.
    rewrite values_flat_map, values_entries_present.
    + reflexivity.
    + intros m; apply names_lower.
    + apply names_NoDup.
    + exact Hin.
  - unfold Headers.getList.
    rewrite values_flat_map, values_entries_absent.
    + apply values_nil_iff in Hn. now rewrite Hn.
    + intros m; apply names_lower.
    + exact Hn.
Qed.

Lemma values_delete (name other : string) (l : Headers.HeaderList) :
  Headers.values name (filter (fun x => negb (Headers.hasName other x)) l)
  = if Headers.nameEqb name other then [] else Headers.values name l.
Proof.
  unfold Headers.values.
  destruct (Headers.nameEqb name other) eqn:E; unfold Headers.nameEqb in E.
  - replace (filter (Headers.hasName name)
               (filter (fun x => negb (Headers.hasName other x)) l))
      with (@nil (string * string)); [reflexivity|].
    induction l as [|h l IH]; simpl; [reflexivity|].
    destruct (Headers.hasName other h) eqn:Eo; simpl; [exact IH|].
    destruct (Headers.hasName name h) eqn:En; [|exact IH].
    unfold Headers.hasName, Headers.nameEqb in Eo, En.
    apply String.eqb_eq in E, En. apply String.eqb_neq in Eo. congruence.
  - f_equal. induction l as [|h l IH]; simpl; [reflexivity|].
    destruct (Headers.hasName other h) eqn:Eo; simpl.
    + destruct (Headers.hasName name h) eqn:En; [|exact IH].
      unfold Headers.hasName, Headers.nameEqb in Eo, En.
      apply String.eqb_eq in Eo, En. apply String.eqb_neq in E. congruence.
    + destruct (Headers.hasName name h); now rewrite IH.
Qed.

(* ================================================================== *)
(** * [#mergeResponses] *)
(* ================================================================== *)

Lemma get_ofEntries (name : string) (l : Headers.HeaderList) :
  Headers.get name (Headers.ofEntries l)
  = Headers.getList name (map Headers.normalized l).
Proof. unfold Headers.get. now rewrite headerList_ofEntries. Qed.

Lemma nameEqb_set_cookie (name : string) :
  Headers.nameEqb name "set-cookie"
  = (JsString.toLowerCase name =? "set-cookie")%string.
Proof. reflexivity. Qed.

(** Iterating the headers gives at most one pair for a name other than
    [set-cookie], with the combined value. *)
Lemma values_entries_combined (name : string) (h : Headers.t) :
  Headers.nameEqb name "set-cookie" = false ->
  Headers.values name (Headers.entries h)
  = match Headers.get name h with Some v => [v] | None => [] end.
Proof.
  intro Hname. rewrite nameEqb_set_cookie in Hname.
  unfold Headers.entries, Headers.get.
  set (l := Headers.headerList h). rewrite values_flat_map.
  destruct (in_dec string_dec (JsString.toLowerCase name) (Headers.names l))
    as [Hin|Hn].
  - rewrite values_entries_present.
    + unfold Headers.entriesOf. rewrite Hname.
      unfold Headers.getList. rewrite values_lower.
      destruct (Headers.values name l) as [|v vs]; [reflexivity|].
      change [(JsString.toLowerCase name, String.concat ", " (v :: vs))]
        with (map (pair (JsString.toLowerCase name)) [String.concat ", " (v :: vs)]).
      rewrite values_map_pair. unfold Headers.nameEqb.
      now rewrite toLowerCase_idem, String.eqb_refl.
    + intros m; apply names_lower.
    + apply names_NoDup.
    + exact Hin.
  - rewrite values_entries_absent.
    + apply values_nil_iff in Hn. unfold Headers.getList. now rewrite Hn.
    + intros m; apply names_lower.
    + exact Hn.
Qed.

(** Iterating the headers does not change the values of [set-cookie]. *)
Lemma values_entries_set_cookie (name : string) (h : Headers.t) :
  JsString.toLowerCase name = "set-cookie" ->
  Headers.values name (Headers.entries h)
  = Headers.values name (Headers.headerList h).
Proof.
  intro Hname. unfold Headers.entries.
  set (l := Headers.headerList h). rewrite values_flat_map.
  destruct (in_dec string_dec (JsString.toLowerCase name) (Headers.names l))
    as [Hin|Hn].
  - rewrite values_entries_present.
    + unfold Headers.entriesOf. rewrite Hname. simpl.
      rewrite values_map_pair. unfold Headers.nameEqb. rewrite Hname. simpl.
      rewrite <- Hname. apply values_lower.
    + intros m; apply names_lower.
    + apply names_NoDup.
    + exact Hin.
  - rewrite values_entries_absent.
    + apply values_nil_iff in Hn. now rewrite Hn.
    + intros m; apply names_lower.
    + exact Hn.
Qed.

(** What [get] answers for a name other than [set-cookie] once the
    headers were copied, and once the headers of two responses were put
    one after the other. *)
Lemma getList_copied (name : string) (h : Headers.t) :
  Headers.nameEqb name "set-cookie" = false ->
  Headers.getList name (map Headers.normalized (Headers.entries h))
  = Headers.copied (Headers.get name h).
Proof.
  intro Hname. unfold Headers.getList at 1.
  rewrite values_normalized, (values_entries_combined _ _ Hname).
  now destruct (Headers.get name h).
Qed.



(* ================================================================== *)
(** * The constructor of [Response] *)
(* ================================================================== *)

Lemma new_returns (body : option string) (status : option Z)
  (statusText : option string) (init : Response.HeadersInit) (r : Response.t) :
  Response.new body status statusText init = inl r ->
  let status_ := match status with Some s => s | None => 200 end in
  Response.inRange status_ = true
  /\ (body = None \/ Response.isNullBodyStatus status_ = false)
  /\ Response.initHeaders init = Some (Response.headers r)
  /\ r = Response.mk status_
           (match statusText with Some s => s | None => EmptyString end)
           (Response.headers r) body false.
Proof.
  unfold Response.new, Response.inRange. cbv zeta.
  destruct ((200 <=? _) && (_ <=? 599)); [|discriminate]. cbn [negb].
  destruct (Response.initHeaders init) as [h|]; [|discriminate].
  destruct body as [b|].
  - destruct (Response.isNullBodyStatus _) eqn:E; [discriminate|].
    intro H. injection H as <-. cbn. auto.
  - intro H. injection H as <-. cbn. auto.
Qed.

Lemma new_ok (body : option string) (status : option Z)
  (statusText : option string) (init : Response.HeadersInit) (h : Headers.t) :
  let status_ := match status with Some s => s | None => 200 end in
  Response.inRange status_ = true ->
  body = None \/ Response.isNullBodyStatus status_ = false ->
  Response.initHeaders init = Some h ->
  Response.new body status statusText init
  = inl (Response.mk status_
           (match statusText with Some s => s | None => EmptyString end)
           h body false).
Proof.
  unfold Response.new, Response.inRange. cbv zeta. intros -> Hbody ->. cbn [negb].
  destruct body as [b|]; [|reflexivity].
  destruct Hbody as [Hbody | ->]; [discriminate | reflexivity].
Qed.

Lemma new_out_of_range (body : option string) (status : option Z)
  (statusText : option string) (init : Response.HeadersInit) :
  Response.inRange (match status with Some s => s | None => 200 end) = false ->
  exists message,
    Response.new body status statusText init = inr (RangeError message).
Proof.
  unfold Response.new, Response.inRange. intros ->. cbn [negb]. eauto.
Qed.

Lemma new_null_body_status (body : string) (status : option Z)
  (statusText : option string) (init : Response.HeadersInit) :
  Response.inRange (match status with Some s => s | None => 200 end) = true ->
  Response.isNullBodyStatus (match status with Some s => s | None => 200 end)
  = true ->
  exists message,
    Response.new (Some body) status statusText init = inr (TypeError message).
Proof.
  unfold Response.new, Response.inRange. intros -> ->. cbn [negb].
  destruct (Response.initHeaders init); eauto.
Qed.

Lemma completion_Normal {A} (x : A + NativeError) (a : A) :
  completion x = Normal a -> x = inl a.
Proof. destruct x; simpl; intro H; [now injection H as -> | discriminate]. Qed.

(* ================================================================== *)
(** * [#mergeResponses] *)
(* ================================================================== *)

Lemma statusCode_truthy (s : ErrorStatus) : truthy (statusCode s) = true.
Proof. destruct s; reflexivity. Qed.

Lemma statusCode_inRange (s : ErrorStatus) :
  Response.inRange (statusCode s) = true /\ Response.isNullBodyStatus (statusCode s) = false.
Proof. destruct s; split; reflexivity. Qed.

(** Without original response and with an override, the merge is a
    copy of the new response with the status of the override. *)
Lemma mergeResponses_override_alone (newResponse : Response.t)
  (override : ErrorStatus) :
  mergeResponses newResponse None (Some override)
  = Normal (Response.mk (statusCode override) (Response.statusText newResponse)
              (Headers.ofEntries (Headers.entries (Response.headers newResponse)))
              (Response.body newResponse) false).
Proof.
  unfold mergeResponses.
  erewrite new_ok; [reflexivity | | | reflexivity];
    destruct override; auto.
Qed.

(** The merge with an original response is one call of the constructor. *)
Lemma mergeResponses_unfold (newResponse originalResponse : Response.t)
  (override : option ErrorStatus) :
  mergeResponses newResponse (Some originalResponse) override
  = completion
      (Response.new (Response.body newResponse)
         (Some (mergedStatus newResponse originalResponse override))
         (Some (if mergedStatus newResponse originalResponse override =? 200
                then Response.statusText newResponse
                else Response.statusText (withoutContentType originalResponse)))
         (Response.OfHeaders
            (Headers.ofEntries
               (Headers.entries (Response.headers newResponse)
                ++ Headers.entries
                     (Response.headers (withoutContentType originalResponse)))%list))).
Proof.
  unfold mergeResponses, mergedStatus, withoutContentType.
  destruct override as [o|]; [rewrite statusCode_truthy|];
    destruct (Headers.delete "Content-type" (Response.headers originalResponse));
    reflexivity.
Qed.

(** When the constructor takes the status, the merge returns a response
    with that status and the body of the new response. *)
Lemma mergeResponses_returns (newResponse originalResponse : Response.t)
  (override : option ErrorStatus) :
  Response.inRange (mergedStatus newResponse originalResponse override) = true ->
  Response.body newResponse = None
  \/ Response.isNullBodyStatus
       (mergedStatus newResponse originalResponse override) = false ->
  exists r,
    mergeResponses newResponse (Some originalResponse) override = Normal r
    /\ Response.status r = mergedStatus newResponse originalResponse override
    /\ Response.body r = Response.body newResponse.
Proof.
  intros Hrange Hbody. rewrite mergeResponses_unfold.
  erewrite new_ok; [|exact Hrange | exact Hbody | reflexivity].
  eexists. split; [reflexivity|]. split; reflexivity.
Qed.

(** The headers of a merged response. *)
Lemma mergeResponses_headerList (newResponse originalResponse : Response.t)
  (override : option ErrorStatus) (r : Response.t) :
  mergeResponses newResponse (Some originalResponse) override = Normal r ->
  Response.headers r
  = Headers.ofEntries
      (Headers.entries
         (Headers.ofEntries
            (Headers.entries (Response.headers newResponse)
             ++ Headers.entries
                  (Response.headers (withoutContentType originalResponse)))%list)).
Proof.
  rewrite mergeResponses_unfold. intro H.
  apply completion_Normal, new_returns in H.
  destruct H as (_ & _ & Hh & _). cbn [Response.initHeaders] in Hh.
  now injection Hh as <-.
Qed.

(** C1, as the code has it.  Merging a new response with an original
    one: when the merge returns a response, its status is the one of
    the override when there is an override; without override it is the
    status of the new response when the original has status 200, and
    the status of the original otherwise.  The merge returns when that
    status is one the constructor of [Response] takes, from 200 to 599
    and, with a body, none of 204, 205 and 304; for any other status
    the constructor throws, and there is no merged response. *)
Theorem mergeResponses_status (newResponse originalResponse : Response.t)
  (override : option ErrorStatus) :
  let status_ :=
    match override with
    | Some o => statusCode o
    | None =>
        if Response.status originalResponse =? 200
        then Response.status newResponse
        else Response.status originalResponse
    end in
  (forall r,
     mergeResponses newResponse (Some originalResponse) override = Normal r ->
     Response.status r = status_)
  /\ ((200 <=? status_) && (status_ <=? 599) = true ->
      Response.body newResponse = None
      \/ Response.isNullBodyStatus status_ = false ->
      exists r,
        mergeResponses newResponse (Some originalResponse) override = Normal r
        /\ Response.status r = status_)
  /\ ((200 <=? status_) && (status_ <=? 599) = false ->
      exists message,
        mergeResponses newResponse (Some originalResponse) override
        = Throw (RangeError message))
  /\ ((200 <=? status_) && (status_ <=? 599) = true ->
      Response.body newResponse <> None ->
      Response.isNullBodyStatus status_ = true ->
      exists message,
        mergeResponses newResponse (Some originalResponse) override
        = Throw (TypeError message)).
Proof.
  cbv zeta. fold (mergedStatus newResponse originalResponse override).
  rewrite mergeResponses_unfold.
  set (status_ := mergedStatus newResponse originalResponse override).
  split; [|split; [|split]].
  - intros r H. apply completion_Normal, new_returns in H.
    destruct H as (_ & _ & _ & ->). reflexivity.
  - intros Hrange Hbody. eexists.
    erewrite new_ok; [split; reflexivity | exact Hrange | exact Hbody | reflexivity].
  - intro Hrange.
    destruct (@new_out_of_range (Response.body newResponse) (Some status_)
                (Some (if status_ =? 200 then Response.statusText newResponse
                       else Response.statusText
                              (withoutContentType originalResponse)))
                (Response.OfHeaders
                   (Headers.ofEntries
                      (Headers.entries (Response.headers newResponse)
                       ++ Headers.entries
                            (Response.headers
                               (withoutContentType originalResponse)))%list))
                Hrange) as [message ->].
    now exists message.
  - intros Hrange Hbody Hnull.
    destruct (Response.body newResponse) as [b|]; [|now destruct Hbody].
    destruct (@new_null_body_status b (Some status_)
                (Some (if status_ =? 200 then Response.statusText newResponse
                       else Response.statusText
                              (withoutContentType originalResponse)))
                (Response.OfHeaders
                   (Headers.ofEntries
                      (Headers.entries (Response.headers newResponse)
                       ++ Headers.entries
                            (Response.headers
                               (withoutContentType originalResponse)))%list))
                Hrange Hnull) as [message ->].
    now exists message.
Qed.

Lemma values_withoutContentType (name : string) (originalResponse : Response.t) :
  JsString.toLowerCase name = "set-cookie" ->
  Headers.values name
    (Headers.headerList (Response.headers (withoutContentType originalResponse)))
  = Headers.values name (Headers.headerList (Response.headers originalResponse)).
Proof.
  intro Hname. unfold withoutContentType, Headers.delete.
  destruct (Headers.immutable (Response.headers originalResponse));
    [reflexivity|].
  cbn [Response.withHeaders Response.headers Headers.headerList].
  rewrite values_delete. unfold Headers.nameEqb. now rewrite Hname.
Qed.

(** The cookies of the headers of two responses, put one after the
    other and copied. *)
Lemma values_merged_set_cookie (name : string) (h1 h2 : Headers.t) :
  JsString.toLowerCase name = "set-cookie" ->
  Headers.values name
    (Headers.headerList
       (Headers.ofEntries
          (Headers.entries
             (Headers.ofEntries (Headers.entries h1 ++ Headers.entries h2)%list))))
  = map Headers.normalize
      (Headers.values name (Headers.headerList h1)
       ++ Headers.values name (Headers.headerList h2))%list.
Proof.
  intro Hname.
  rewrite headerList_ofEntries, values_normalized.
  rewrite (values_entries_set_cookie _ _ Hname).
  rewrite headerList_ofEntries, values_normalized, values_app.
  rewrite !(values_entries_set_cookie _ _ Hname).
  apply map_normalize_idem.
Qed.


(* ================================================================== *)
(** * The redirect helpers and [renderPage] *)
(* ================================================================== *)







(* ------------------------------------------------------------------ *)
(** ** [String.prototype.replace] on a template *)

Lemma dropPrefix_app (p s : string) :
  JsString.dropPrefix p (p ++ s)%string = Some s.
Proof.
  induction p as [|a p IH]; simpl; [reflexivity|].
  now rewrite Ascii.eqb_refl.
Qed.

Lemma splitFirst_unfold (sv s : string) :
  JsString.splitFirst sv s
  = match JsString.dropPrefix sv s with
    | Some following => Some (EmptyString, following)
    | None =>
        match s with
        | EmptyString => None
        | String c t =>
            match JsString.splitFirst sv t with
            | Some (preceding, following) => Some (String c preceding, following)
            | None => None
            end
        end
    end.
Proof. destruct s; reflexivity. Qed.

Lemma mem_app (c : ascii) (a b : string) :
  JsString.mem c (a ++ b)%string = JsString.mem c a || JsString.mem c b.
Proof.
  induction a as [|x a IH]; simpl; [reflexivity|].
  now rewrite IH, orb_assoc.
Qed.

(** A search string that starts with a bracket is found right after a
    stretch without brackets. *)
Lemma splitFirst_after (token pre post : string) :
  JsString.mem "[" pre = false ->
  JsString.splitFirst (String "[" token) (pre ++ String "[" token ++ post)%string
  = Some (pre, post).
Proof.
  intro Hpre. induction pre as [|c pre IH].
  - rewrite splitFirst_unfold.
    change (EmptyString ++ String "[" token ++ post)%string
      with (String "[" token ++ post)%string.
    now rewrite dropPrefix_app.
  - cbn [JsString.mem] in Hpre. apply orb_false_iff in Hpre. destruct Hpre as [Hc Hpre].
    rewrite splitFirst_unfold.
    change (String c pre ++ String "[" token ++ post)%string
      with (String c (pre ++ String "[" token ++ post))%string.
    cbn [JsString.dropPrefix]. rewrite Hc.
    now rewrite (IH Hpre).
Qed.

(** ... and is not found in a string without brackets. *)
Lemma splitFirst_absent (token s : string) :
  JsString.mem "[" s = false ->
  JsString.splitFirst (String "[" token) s = None.
Proof.
  intro Hs. induction s as [|c s IH]; [reflexivity|].
  cbn [JsString.mem] in Hs. apply orb_false_iff in Hs. destruct Hs as [Hc Hs].
  rewrite splitFirst_unfold. cbn [JsString.dropPrefix]. rewrite Hc.
  now rewrite (IH Hs).
Qed.

(** The keys of an object with one property. *)
Lemma keys_single (k : string) (v : option string) : keys [(k, v)] = [k].
Proof.
  unfold keys. cbn [map fst filter].
  now destruct (isArrayIndex k).
Qed.




(** For a redirect route given by a template (a string, with no target
    route) in which [[slug]] is the only bracket token, [generate] with
    [slug = "abc"] gives the template with the token replaced by [abc],
    and no bracket is left. *)
Theorem redirectRouteGenerate_slug (r : RouteData) (pre post : string) :
  redirectRoute r = None ->
  redirect r = Some (RedirectString (pre ++ "[slug]" ++ post)) ->
  JsString.mem "[" pre = false ->
  JsString.mem "[" post = false ->
  redirectRouteGenerate r [("slug", Some "abc")] = (pre ++ "abc" ++ post)%string
  /\ JsString.mem "[" (redirectRouteGenerate r [("slug", Some "abc")]) = false.
Proof.
  intros Htarget Hredirect Hpre Hpost.
  assert (E : redirectRouteGenerate r [("slug", Some "abc")]
              = (pre ++ "abc" ++ post)%string).
  { unfold redirectRouteGenerate. rewrite Htarget, Hredirect.
    rewrite keys_single. cbn [fold_left]. unfold substituteParam.
    cbn [lookup toStringArg String.eqb Ascii.eqb Bool.eqb].
    unfold JsString.replace at 2.
    change ("[" ++ "slug" ++ "]")%string with (String "["%char "slug]").
    change (pre ++ "[slug]" ++ post)%string
      with (pre ++ String "["%char "slug]" ++ post)%string.
    rewrite (splitFirst_after "slug]" pre post Hpre).
    cbn [JsString.GetSubstitution].
    unfold JsString.replace.
    change ("[..." ++ "slug" ++ "]")%string with (String "["%char "...slug]").
    rewrite splitFirst_absent; [reflexivity|].
    rewrite !mem_app, Hpre, Hpost. reflexivity. }
  split; [exact E|].
  rewrite E, !mem_app, Hpre, Hpost. reflexivity.
Qed.

Lemma redirectRouteGenerate_slug_witness :
  redirectRouteGenerate (Sample.redirectTo (RedirectString "/posts/[slug]/"))
    [("slug", Some "abc")] = "/posts/abc/"
  /\ JsString.mem "["
       (redirectRouteGenerate (Sample.redirectTo (RedirectString "/posts/[slug]/"))
          [("slug", Some "abc")]) = false.
Proof.
  apply (redirectRouteGenerate_slug
           (Sample.redirectTo (RedirectString "/posts/[slug]/")) "/posts/" "/");
    reflexivity.
Defined.

(** C9, on the code: of a token that occurs twice only the first is
    replaced, and a destination that comes with a status is returned as
    it is, with its token. *)
Lemma redirectRouteGenerate_brackets_remain :
  redirectRouteGenerate
    (Sample.redirectTo (RedirectString "/[slug]/comments/[slug]"))
    [("slug", Some "abc")] = "/abc/comments/[slug]"
  /\ redirectRouteGenerate
       (Sample.redirectTo (RedirectObject 302 "/posts/[slug]"))
       [("slug", Some "abc")] = "/posts/[slug]".
Proof. split; reflexivity. Qed.

(* ================================================================== *)
(** * [#getDefaultStatusCode] *)
(* ================================================================== *)

(** C6, as the code has it.  The default status is 302 when the
    pathname is not accepted by the pattern of the route itself and is
    accepted by one of its fallback routes; otherwise it is 404 if the
    path of the route, without trailing slash, ends with [/404], 500 if
    it ends with [/500], and 200 in every other case. *)
Theorem getDefaultStatusCode_cases `{DispatchHost} (routeData_ : RouteData)
  (pathname_ : string) :
  (pattern routeData_ pathname_ = false ->
   (exists f, In f (fallbackRoutes routeData_) /\ pattern f pathname_ = true) ->
   getDefaultStatusCode routeData_ pathname_ = 302)
  /\ (pattern routeData_ pathname_ = true
      \/ (forall f, In f (fallbackRoutes routeData_) -> pattern f pathname_ = false) ->
      getDefaultStatusCode routeData_ pathname_
      = if JsString.endsWith (removeTrailingForwardSlash (route routeData_)) "/404"
        then 404
        else if JsString.endsWith (removeTrailingForwardSlash (route routeData_)) "/500"
             then 500
             else 200).
Proof.
  unfold getDefaultStatusCode. split.
  - intros Hown Hfb. rewrite Hown. simpl.
    apply existsb_exists in Hfb. now rewrite Hfb.
  - intros [Hown | Hnone].
    + now rewrite Hown.
    + assert (E : existsb (fun fallbackRoute => pattern fallbackRoute pathname_)
                    (fallbackRoutes routeData_) = false).
      { destruct (existsb _ _) eqn:E; [|reflexivity].
        apply existsb_exists in E. destruct E as [f [Hin Hf]].
        rewrite (Hnone f Hin) in Hf. discriminate. }
      rewrite E. now rewrite andb_false_r.
Qed.

Lemma getDefaultStatusCode_cases_witness :
  getDefaultStatusCode Sample.notFoundWithFallback "/es/404" = 302
  /\ getDefaultStatusCode (Sample.routeAt "/500/" RouteType.page false) "/500/"
     = 500.
Proof.
  split.
  - apply (proj1 (getDefaultStatusCode_cases Sample.notFoundWithFallback "/es/404")).
    + reflexivity.
    + exists (Sample.routeAt "/es/404" RouteType.fallback false).
      split; [now left | reflexivity].
  - exact (proj2 (getDefaultStatusCode_cases
                    (Sample.routeAt "/500/" RouteType.page false) "/500/")
             (or_introl eq_refl)).
Defined.

(** C6, where the specification says otherwise: a route whose path is not [/404] but ends
    with it has default status 404, and the route [/404] itself has
    default status 302 when the request came in through one of its
    fallback routes. *)
Lemma getDefaultStatusCode_not_literal :
  getDefaultStatusCode (Sample.routeAt "/blog/404" RouteType.page false) "/blog/404"
  = 404
  /\ getDefaultStatusCode Sample.notFoundWithFallback "/es/404" = 302.
Proof. split; reflexivity. Qed.

(* ================================================================== *)
(** * [Pipeline.renderRoute] *)
(* ================================================================== *)

(** C10.  For an endpoint route, [renderRoute] throws when the Pipeline
    has no handler for endpoint results; with a handler, what it
    returns is the handler applied to the request of the render context
    and to the result of the endpoint. *)
Theorem renderRoute_endpoint `{RenderHost} (this : Pipeline)
  (renderContext renderContext' : RenderContext)
  (componentInstance : option ComponentInstance) (w w1 : World) :
  runHooks (hooks_before this) renderContext componentInstance w
  = (Normal renderContext', w1) ->
  type (rc_route renderContext') = RouteType.endpoint ->
  (endpointHandler this = None ->
   exists e w', renderRoute this renderContext componentInstance w = (Throw e, w'))
  /\ (forall handler result w2,
        endpointHandler this = Some handler ->
        tryRenderRoute renderContext' (env this) componentInstance (onRequest this) w1
        = (Normal result, w2) ->
        renderRoute this renderContext componentInstance w
        = handler (request renderContext') result w2).
Proof.
  intros Hhooks Htype. unfold renderRoute, bind. rewrite Hhooks. split.
  - intro Hnone.
    destruct (tryRenderRoute renderContext' (env this) componentInstance
                (onRequest this) w1) as [[result|e] w2].
    + rewrite Htype, Hnone. unfold throw. eauto.
    + eauto.
  - intros handler result w2 Hsome Htry.
    now rewrite Htry, Htype, Hsome.
Qed.

Lemma renderRoute_endpoint_witness :
  (exists e w',
     renderRoute (Sample.pipelineWith None) Sample.apiContext_
       (Some (Sample.Renders (Sample.html 200 "{}"))) 0%nat = (Throw e, w'))
  /\ renderRoute (Sample.pipelineWith (Some Sample.markingHandler))
       Sample.apiContext_ (Some (Sample.Renders (Sample.html 200 "{}"))) 0%nat
     = Sample.markingHandler (request Sample.apiContext_)
         (Sample.html 200 "{}") 1%nat.
Proof.
  split.
  - apply (proj1 (renderRoute_endpoint (Sample.pipelineWith None)
                    Sample.apiContext_ (Some (Sample.Renders (Sample.html 200 "{}")))
                    0%nat eq_refl eq_refl)).
    reflexivity.
  - apply (proj2 (renderRoute_endpoint
                    (Sample.pipelineWith (Some Sample.markingHandler))
                    Sample.apiContext_ (Some (Sample.Renders (Sample.html 200 "{}")))
                    0%nat eq_refl eq_refl)); reflexivity.
Defined.

(* ================================================================== *)
(** * [App.render] *)
(* ================================================================== *)

Section RenderTheory.
Context `{HT : HostTypes} `{RH : !RenderHost} `{DH : !DispatchHost}.

(** Once the route is known and the render context built, [render] is
    the [try] block followed by its [catch] or by the end of the
    function. *)
Lemma render_reaches_try (fuel : nat) (request_ : Request.t)
  (routeDataOrOptions : option RouteDataOrOptions) (maybeLocals : option Locals)
  (s s0 s1 : St) (given : option RouteData) (locals_ : option Locals)
  (routeData_ : RouteData) (mod_ : SinglePageBuiltModule)
  (pageModule_ : ComponentInstance) (renderContext : RenderContext) :
  render_arguments routeDataOrOptions maybeLocals s
  = (Normal (given, locals_), s0) ->
  render_route (fst s0) given (render_request request_) = Some routeData_ ->
  render_prepare (render_locals (render_request request_) locals_) routeData_ s0
  = (Normal (mod_, pageModule_, renderContext), s1) ->
  render fuel request_ routeDataOrOptions maybeLocals s
  = match render_try mod_ renderContext pageModule_ s1 with
    | (Throw err, s2) =>
        render_catch fuel (render_locals (render_request request_) locals_) err s2
    | (Normal response_, s2) =>
        render_finish fuel (render_locals (render_request request_) locals_)
          routeData_ response_ s2
    end.
Proof.
  intros Hargs Hroute Hprepare. unfold render.
  now rewrite Hargs, Hroute, Hprepare.
Qed.

Lemma STATUS_CODES_has_spec (status_ : Z) :
  match STATUS_CODES_has status_ with
  | Some st => statusCode st = status_
  | None => status_ <> 404 /\ status_ <> 500
  end.
Proof.
  unfold STATUS_CODES_has.
  destruct (Z.eqb_spec status_ 404) as [E|E]; [now subst|].
  destruct (Z.eqb_spec status_ 500) as [E'|E']; [now subst|].
  now split.
Qed.

(** C2, as the code has it.  When the Pipeline has returned a response
    for a page or a redirect route, a status of 404 or 500 sends
    [render] into the error fallback with that response as the original
    one, and any other status lets the response through; the response
    of an endpoint or of a fallback route is returned whatever its
    status. *)
Theorem render_status_fallback (fuel : nat) (request_ : Request.t)
  (routeDataOrOptions : option RouteDataOrOptions) (maybeLocals : option Locals)
  (s s0 s1 s2 : St) (given : option RouteData) (locals_ : option Locals)
  (routeData_ : RouteData) (mod_ : SinglePageBuiltModule)
  (pageModule_ : ComponentInstance) (renderContext : RenderContext)
  (response_ : Response.t) :
  render_arguments routeDataOrOptions maybeLocals s
  = (Normal (given, locals_), s0) ->
  render_route (fst s0) given (render_request request_) = Some routeData_ ->
  render_prepare (render_locals (render_request request_) locals_) routeData_ s0
  = (Normal (mod_, pageModule_, renderContext), s1) ->
  render_try mod_ renderContext pageModule_ s1 = (Normal response_, s2) ->
  (type routeData_ = RouteType.page \/ type routeData_ = RouteType.redirect ->
   Response.status response_ = 404 \/ Response.status response_ = 500 ->
   exists status_,
     statusCode status_ = Response.status response_
     /\ render fuel request_ routeDataOrOptions maybeLocals s
        = renderError fuel (render_locals (render_request request_) locals_)
            {| o_status := status_; response := Some response_;
               skipMiddleware := false |} s2)
  /\ (type routeData_ = RouteType.page \/ type routeData_ = RouteType.redirect ->
      Response.status response_ <> 404 -> Response.status response_ <> 500 ->
      render fuel request_ routeDataOrOptions maybeLocals s
      = Some (Normal (Response.setResponseSent response_), s2))
  /\ (type routeData_ = RouteType.endpoint \/ type routeData_ = RouteType.fallback ->
      render fuel request_ routeDataOrOptions maybeLocals s
      = Some (Normal response_, s2)).
Proof.
  intros Hargs Hroute Hprepare Htry.
  rewrite (render_reaches_try fuel request_ _ _ _ Hargs Hroute Hprepare), Htry.
  unfold render_finish.
  pose proof (STATUS_CODES_has_spec (Response.status response_)) as Hhas.
  repeat split.
  - intros Htype Hstatus.
    destruct (STATUS_CODES_has (Response.status response_)) as [st|].
    + exists st. split; [exact Hhas|]. now destruct Htype as [-> | ->].
    + destruct Hhas, Hstatus; contradiction.
  - intros Htype H404 H500.
    destruct (STATUS_CODES_has (Response.status response_)) as [st|].
    + destruct st; simpl in Hhas; congruence.
    + now destruct Htype as [-> | ->].
  - now intros [-> | ->].
Qed.

(** X24.  When the [try] block of [render] throws, an
    [EndpointNotFoundError] sends [render] into the error fallback for
    404 with the response the error carries as the original one; for
    every other thrown value the text [err.stack || err.message ||
    String(err)] is read: it is logged as an error, and [render] goes
    into the error fallback for 500 without an original response; when
    reading it throws, [render] throws that error and logs nothing. *)
Theorem render_catches (fuel : nat) (request_ : Request.t)
  (routeDataOrOptions : option RouteDataOrOptions) (maybeLocals : option Locals)
  (s s0 s1 s2 : St) (given : option RouteData) (locals_ : option Locals)
  (routeData_ : RouteData) (mod_ : SinglePageBuiltModule)
  (pageModule_ : ComponentInstance) (renderContext : RenderContext)
  (err : Exn) :
  render_arguments routeDataOrOptions maybeLocals s
  = (Normal (given, locals_), s0) ->
  render_route (fst s0) given (render_request request_) = Some routeData_ ->
  render_prepare (render_locals (render_request request_) locals_) routeData_ s0
  = (Normal (mod_, pageModule_, renderContext), s1) ->
  render_try mod_ renderContext pageModule_ s1 = (Throw err, s2) ->
  (forall originalResponse,
     err = EndpointNotFoundError originalResponse ->
     render fuel request_ routeDataOrOptions maybeLocals s
     = renderError fuel (render_locals (render_request request_) locals_)
         {| o_status := E404; response := Some originalResponse;
            skipMiddleware := false |} s2)
  /\ (forall text,
        (forall originalResponse, err <> EndpointNotFoundError originalResponse) ->
        errorText (snd s2) err = Normal text ->
        render fuel request_ routeDataOrOptions maybeLocals s
        = renderError fuel (render_locals (render_request request_) locals_)
            {| o_status := E500; response := None; skipMiddleware := false |}
            (snd (log "error" None text s2)))
  /\ (forall e,
        (forall originalResponse, err <> EndpointNotFoundError originalResponse) ->
        errorText (snd s2) err = Throw e ->
        render fuel request_ routeDataOrOptions maybeLocals s
        = Some (Throw e, s2)).
Proof.
  intros Hargs Hroute Hprepare Htry.
  rewrite (render_reaches_try fuel request_ _ _ _ Hargs Hroute Hprepare), Htry.
  unfold render_catch. split; [|split].
  - intros originalResponse ->. reflexivity.
  - intros text Hother Htext.
    destruct err as [originalResponse| | | | | |]; try (now rewrite Htext).
    now destruct (Hother originalResponse).
  - intros e Hother Htext.
    destruct err as [originalResponse| | | | | |]; try (now rewrite Htext).
    now destruct (Hother originalResponse).
Qed.

End RenderTheory.

(* ================================================================== *)
(** * [App.#renderError] *)
(* ================================================================== *)

Section RenderErrorTheory.
Context `{HT : HostTypes} `{RH : !RenderHost} `{DH : !DispatchHost}.

(** With [skipMiddleware] set, [#renderError] does not call itself: one
    unit of fuel is enough, and more changes nothing. *)
Lemma renderError_skip (fuel : nat) (request_ : Request.t)
  (options : RenderErrorOptions) (s : St) :
  skipMiddleware options = true ->
  renderError (S fuel) request_ options s = renderError 1 request_ options s
  /\ exists r, renderError 1 request_ options s = Some r.
Proof.
  destruct options as [status_ originalResponse skip];
    cbn [skipMiddleware]; intros ->.
  cbn [renderError o_status response skipMiddleware].
  destruct (matchRoute (errorRoutePath (fst s) status_) (manifestData (fst s)))
    as [errorRouteData|]; [|split; eauto].
  destruct (prerender errorRouteData).
  - destruct (liftU (fetch (statusURL (fst s) request_ errorRouteData status_)) s)
      as [[r|e] s1]; split; eauto.
  - destruct (getModuleForRoute errorRouteData s) as [[m|e] s1]; [|split; eauto].
    destruct (renderError_merged request_ errorRouteData m status_ true
                originalResponse s1)
      as [[r|e] s2]; split; eauto.
Qed.

(** Two nested calls are all [#renderError] ever makes. *)
Lemma renderError_fuel (fuel : nat) (request_ : Request.t)
  (options : RenderErrorOptions) (s : St) :
  renderError (S (S fuel)) request_ options s = renderError 2 request_ options s
  /\ exists r, renderError 2 request_ options s = Some r.
Proof.
  destruct options as [status_ originalResponse skip].
  cbn [renderError o_status response skipMiddleware].
  destruct (matchRoute (errorRoutePath (fst s) status_) (manifestData (fst s)))
    as [errorRouteData|]; [|split; eauto].
  destruct (prerender errorRouteData).
  - destruct (liftU (fetch (statusURL (fst s) request_ errorRouteData status_)) s)
      as [[r|e] s1]; split; eauto.
  - destruct (getModuleForRoute errorRouteData s) as [[m|e] s1]; [|split; eauto].
    destruct (renderError_merged request_ errorRouteData m status_ skip
                originalResponse s1)
      as [[r|e] s2]; [split; eauto|].
    destruct skip; [split; eauto|].
    destruct (mod_onRequest m); [|split; eauto].
    destruct (renderError_skip fuel request_
                {| o_status := status_; response := originalResponse;
                   skipMiddleware := true |} s2 eq_refl) as [E [r Hr]].
    split; [exact E | eauto].
Qed.

(** The response without body that [#renderError] ends with. *)
Lemma renderError_bare_alone (status_ : ErrorStatus) :
  renderError_bare status_ None
  = Normal (Response.mk (statusCode status_) "" Headers.empty None true).
Proof. destruct status_; reflexivity. Qed.

Lemma renderError_bare_merged (status_ : ErrorStatus) (original : Response.t) :
  Response.inRange
    (if Response.status original =? 200 then statusCode status_
     else Response.status original) = true ->
  exists r,
    renderError_bare status_ (Some original) = Normal r
    /\ Response.body r = None
    /\ Response.status r
       = if Response.status original =? 200 then statusCode status_
         else Response.status original.
Proof.
  intro Hrange. unfold renderError_bare.
  replace (completion
             (Response.new None (Some (statusCode status_)) None
                Response.NoHeaders))
    with (Normal (Response.mk (statusCode status_) "" Headers.empty None false))
    by (now destruct status_).
  rewrite mergeResponses_unfold. unfold mergedStatus.
  cbn [Response.status Response.body Response.statusText Response.headers].
  erewrite new_ok; [|exact Hrange | now left | reflexivity].
  eexists. split; [reflexivity|]. split; reflexivity.
Qed.

(** C7, as the code has it.  [#renderError] returns for every input
    within two nested calls, and within one when [skipMiddleware] is
    set.  When the render of a dynamic error route throws, or the merge
    of its response does, the call is repeated, once and with
    [skipMiddleware] set, if it was not set and the module of the error
    route has middleware; in every other case there is no second render
    and the response is the one without body, with the status that was
    asked for, or merged with the original response. *)
Theorem renderError_retry_bounded :
  (forall request_ options s, exists r, renderError 2 request_ options s = Some r)
  /\ (forall fuel request_ options s,
        renderError (S (S fuel)) request_ options s
        = renderError 2 request_ options s)
  /\ (forall request_ options s,
        skipMiddleware options = true ->
        exists r, renderError 1 request_ options s = Some r)
  /\ (forall fuel request_ options s errorRouteData mod_ s1 e s2,
        matchRoute (errorRoutePath (fst s) (o_status options))
          (manifestData (fst s)) = Some errorRouteData ->
        prerender errorRouteData = false ->
        getModuleForRoute errorRouteData s = (Normal mod_, s1) ->
        renderError_try request_ errorRouteData mod_ (o_status options)
          (skipMiddleware options) s1 = (Throw e, s2) ->
        renderError (S fuel) request_ options s
        = match skipMiddleware options, mod_onRequest mod_ with
          | false, Some _ =>
              renderError fuel request_
                {| o_status := o_status options; response := response options;
                   skipMiddleware := true |} s2
          | _, _ =>
              Some (renderError_bare (o_status options) (response options), s2)
          end)
  /\ (forall fuel request_ options s errorRouteData mod_ s1 rendered e s2,
        matchRoute (errorRoutePath (fst s) (o_status options))
          (manifestData (fst s)) = Some errorRouteData ->
        prerender errorRouteData = false ->
        getModuleForRoute errorRouteData s = (Normal mod_, s1) ->
        renderError_try request_ errorRouteData mod_ (o_status options)
          (skipMiddleware options) s1 = (Normal rendered, s2) ->
        mergeResponses rendered (response options) None = Throw e ->
        renderError (S fuel) request_ options s
        = match skipMiddleware options, mod_onRequest mod_ with
          | false, Some _ =>
              renderError fuel request_
                {| o_status := o_status options; response := response options;
                   skipMiddleware := true |} s2
          | _, _ =>
              Some (renderError_bare (o_status options) (response options), s2)
          end)
  /\ (forall status_,
        renderError_bare status_ None
        = Normal (Response.mk (statusCode status_) "" Headers.empty None true))
  /\ (forall status_ original,
        Response.inRange
          (if Response.status original =? 200 then statusCode status_
           else Response.status original) = true ->
        exists r,
          renderError_bare status_ (Some original) = Normal r
          /\ Response.body r = None
          /\ Response.status r
             = if Response.status original =? 200 then statusCode status_
               else Response.status original).
Proof.
  split; [|split; [|split; [|split; [|split; [|split]]]]].
  - intros. apply (renderError_fuel 0).
  - intros. apply renderError_fuel.
  - intros request_ options s Hskip. now apply (renderError_skip 0).
  - intros fuel request_ options s errorRouteData mod_ s1 e s2
      Hmatch Hdynamic Hmodule Htry.
    cbn [renderError]. rewrite Hmatch, Hdynamic, Hmodule.
    unfold renderError_merged, bind. now rewrite Htry.
  - intros fuel request_ options s errorRouteData mod_ s1 rendered e s2
      Hmatch Hdynamic Hmodule Htry Hmerge.
    cbn [renderError]. rewrite Hmatch, Hdynamic, Hmodule.
    unfold renderError_merged, bind, pure. now rewrite Htry, Hmerge.
  - apply renderError_bare_alone.
  - apply renderError_bare_merged.
Qed.

(** C5, as the code has it.  A request for which no route is found is
    answered by the error fallback for 404, without original response:
    with status 404 and no body when there is no error route; with
    status 404 and the body of the stored document when the error route
    is prerendered; and with the response of the error page, as it is,
    when the error route is rendered and the render returns. *)
Theorem render_unmatched (fuel : nat) (request_ : Request.t)
  (routeDataOrOptions : option RouteDataOrOptions) (maybeLocals : option Locals)
  (s s0 : St) (locals_ : option Locals) :
  render_arguments routeDataOrOptions maybeLocals s
  = (Normal (None, locals_), s0) ->
  match_ (fst s0) (render_request request_) = None ->
  render fuel request_ routeDataOrOptions maybeLocals s
  = renderError fuel (render_request request_)
      {| o_status := E404; response := None; skipMiddleware := false |} s0
  /\ (matchRoute (errorRoutePath (fst s0) E404) (manifestData (fst s0)) = None ->
      exists r,
        render (S fuel) request_ routeDataOrOptions maybeLocals s
        = Some (Normal r, s0)
        /\ Response.status r = 404 /\ Response.body r = None)
  /\ (forall errorRouteData stored s1,
        matchRoute (errorRoutePath (fst s0) E404) (manifestData (fst s0))
        = Some errorRouteData ->
        prerender errorRouteData = true ->
        liftU (fetch (statusURL (fst s0) (render_request request_)
                        errorRouteData E404)) s0
        = (Normal stored, s1) ->
        exists r,
          render (S fuel) request_ routeDataOrOptions maybeLocals s
          = Some (Normal r, s1)
          /\ Response.status r = 404
          /\ Response.body r = Response.body stored)
  /\ (forall errorRouteData mod_ s1 rendered s2,
        matchRoute (errorRoutePath (fst s0) E404) (manifestData (fst s0))
        = Some errorRouteData ->
        prerender errorRouteData = false ->
        getModuleForRoute errorRouteData s0 = (Normal mod_, s1) ->
        renderError_try (render_request request_) errorRouteData mod_ E404 false s1
        = (Normal rendered, s2) ->
        render (S fuel) request_ routeDataOrOptions maybeLocals s
        = Some (Normal rendered, s2)).
Proof.
  intros Hargs Hmatch.
  assert (E : forall n,
             render n request_ routeDataOrOptions maybeLocals s
             = renderError n (render_request request_)
                 {| o_status := E404; response := None; skipMiddleware := false |}
                 s0).
  { intro n. unfold render. rewrite Hargs. unfold render_route.
    now rewrite Hmatch. }
  split; [apply E|]. rewrite E. cbn [renderError o_status response skipMiddleware].
  split; [|split].
  - intros ->. eexists. split; [reflexivity|]. split; reflexivity.
  - intros errorRouteData stored s1 -> -> ->.
    rewrite mergeResponses_override_alone.
    eexists. split; [reflexivity|]. split; reflexivity.
  - intros errorRouteData mod_ s1 rendered s2 -> -> ->.
    unfold renderError_merged, bind. intros ->. reflexivity.
Qed.

End RenderErrorTheory.

(* ================================================================== *)
(** * The theorems on the sample site *)
(* ================================================================== *)

(** Runs the code on a closed input, up to the values still to be
    found. *)
Ltac run := cbv; reflexivity.

Lemma render_status_fallback_witness :
  exists status_,
    statusCode status_ = 404
    /\ render 2 (Sample.get_ "/") None None
         (Sample.siteWith Sample.reports404 Sample.notFoundPage, 0%nat)
       = renderError 2 (render_locals (render_request (Sample.get_ "/")) None)
           {| o_status := status_; response := Some (Sample.html 404 "gone");
              skipMiddleware := false |}
           (Sample.siteWith Sample.reports404 Sample.notFoundPage, 1%nat).
Proof.
  edestruct (render_status_fallback 2 (Sample.get_ "/") None None
               (Sample.siteWith Sample.reports404 Sample.notFoundPage, 0%nat))
    as [H _]; [run | run | run | run |].
  apply H; [left; reflexivity | left; reflexivity].
Defined.

(** C2, where the specification says otherwise: the route is a fallback route, not an
    endpoint, and its response has status 404; [render] returns it as
    it is, without rendering a module, whereas the error fallback would
    have answered with the page [/404]. *)
Lemma render_fallback_route_404_returned :
  Sample.observe
    (render 2 (Sample.get_ "/es/about") None None (Sample.fallbackSite, 0%nat))
  = Some (Normal (Response.mk 404 "" Headers.empty None false), 0%nat)
  /\ Sample.observe
       (renderError 2 (Sample.get_ "/es/about")
          {| o_status := E404;
             response := Some (Response.mk 404 "" Headers.empty None false);
             skipMiddleware := false |}
          (Sample.fallbackSite, 0%nat))
     = Some (Normal (Sample.html 404 "Not Found"), 1%nat).
Proof. split; reflexivity. Qed.

Lemma render_catches_witness :
  render 2 (Sample.get_ "/") None None
    (Sample.siteWithout404 Sample.throwingPage, 0%nat)
  = renderError 2 (render_locals (render_request (Sample.get_ "/")) None)
      {| o_status := E500; response := None; skipMiddleware := false |}
      (snd (log "error" None "Error: boom at page.astro:1:7"
              (Sample.siteWithout404 Sample.throwingPage, 1%nat))).
Proof.
  edestruct (render_catches 2 (Sample.get_ "/") None None
               (Sample.siteWithout404 Sample.throwingPage, 0%nat))
    as (_ & H & _); [run | run | run | run |].
  apply H; [intros originalResponse; discriminate | reflexivity].
Defined.

(** C8, on the code: a page throws [undefined]; reading [err.stack] in
    the [catch] of [render] throws a TypeError, with which [render]
    ends: nothing is logged and the page for 500 is not rendered.  For
    a page that throws an [Error], the page for 500 is what [render]
    returns. *)
Lemma render_catch_undefined_rethrows :
  exists message,
    render 2 (Sample.get_ "/") None None
      (Sample.siteWith500 Sample.throwsUndefined, 0%nat)
    = Some (Throw (TypeError message),
            (Sample.siteWith500 Sample.throwsUndefined, 1%nat))
    /\ Sample.observe
         (render 2 (Sample.get_ "/") None None
            (Sample.siteWith500 Sample.throwingPage, 0%nat))
       = Some (Normal (Sample.html 500 "Server Error"), 2%nat).
Proof. eexists. split; reflexivity. Qed.

Lemma mergeResponses_status_witness :
  exists r,
    mergeResponses Sample.errorPage (Some Sample.userResponse) None = Normal r
    /\ Response.status r = 404.
Proof.
  destruct (mergeResponses_status Sample.errorPage Sample.userResponse None)
    as (_ & H & _).
  apply H; [reflexivity | now right].
Defined.

(** C1, where the specification says otherwise: the error page has a
    body and the original response, the one an endpoint sent, has
    status 204; the constructor of [Response] refuses a body with that
    status, and the merge throws instead of giving a response with
    status 204. *)
Lemma mergeResponses_null_body_status_throws :
  exists message,
    mergeResponses (Sample.html 404 "Not Found") (Some Sample.noContent) None
    = Throw (TypeError message).
Proof. eexists. reflexivity. Qed.



Lemma render_unmatched_witness :
  exists r,
    render 2 (Sample.get_ "/missing") None None
      (Sample.siteWithout404 Sample.homePage, 0%nat)
    = Some (Normal r, (Sample.siteWithout404 Sample.homePage, 0%nat))
    /\ Response.status r = 404 /\ Response.body r = None.
Proof.
  edestruct (render_unmatched 1 (Sample.get_ "/missing") None None
               (Sample.siteWithout404 Sample.homePage, 0%nat))
    as [_ [H _]]; [run | run |].
  apply H. reflexivity.
Defined.

(** C5, where the specification says otherwise: no route is found for [/missing], and the
    page [/404] answers with a redirect; that response is what [render]
    returns, with its status 302. *)
Lemma render_unmatched_status_of_error_page :
  Sample.observe
    (render 2 (Sample.get_ "/missing") None None
       (Sample.siteWith Sample.homePage Sample.redirectingNotFoundPage, 0%nat))
  = Some (Normal (Response.mk 302 "" (Headers.mk false [("location", "/")])
                    None false), 1%nat).
Proof. reflexivity. Qed.

Lemma renderError_retry_bounded_witness :
  exists s2,
    renderError 2 (Sample.get_ "/missing") Sample.notFoundOptions
      (Sample.siteWith Sample.homePage Sample.brokenNotFoundPageWithMiddleware,
       0%nat)
    = renderError 1 (Sample.get_ "/missing")
        {| o_status := E404; response := None; skipMiddleware := true |} s2
    /\ snd s2 = 1%nat.
Proof.
  destruct renderError_retry_bounded as (_ & _ & _ & H & _).
  eexists. split.
  - erewrite (H 1%nat (Sample.get_ "/missing") Sample.notFoundOptions
                (Sample.siteWith Sample.homePage
                   Sample.brokenNotFoundPageWithMiddleware, 0%nat));
      cycle 1; [run | run | run | run |].
    reflexivity.
  - reflexivity.
Defined.

(** C7, where the specification says otherwise: the render of the error page throws and its
    module has no middleware; the module is rendered once, there is no
    second attempt.  With middleware it is rendered twice. *)
Lemma renderError_no_retry_without_middleware :
  Sample.observe
    (renderError 2 (Sample.get_ "/missing") Sample.notFoundOptions
       (Sample.siteWith Sample.homePage Sample.brokenNotFoundPage, 0%nat))
  = Some (renderError_bare E404 None, 1%nat)
  /\ Sample.observe
       (renderError 2 (Sample.get_ "/missing") Sample.notFoundOptions
          (Sample.siteWith Sample.homePage
             Sample.brokenNotFoundPageWithMiddleware, 0%nat))
     = Some (renderError_bare E404 None, 2%nat)
  /\ renderError_bare E404 None
     = Normal (Response.mk 404 "" Headers.empty None true).
Proof. split; [reflexivity | split; reflexivity]. Qed.

(* ================================================================== *)
(** * More on the redirect helpers and on [getParams] *)
(* ================================================================== *)

(** X1.  When the target of a redirect is a route of the site, the
    location that [redirectRouteGenerate] gives is never empty: an
    empty result of the generator falls back to the pathname of the
    target, and then to [/]. *)
Theorem redirectRouteGenerate_target_nonempty (r target : RouteData)
  (data : Params) :
  redirectRoute r = Some target ->
  exists c rest, redirectRouteGenerate r data = String c rest.
Proof.
  intro Htarget. unfold redirectRouteGenerate. rewrite Htarget.
  destruct (generate target data) as [|c rest]; [|now exists c, rest].
  simpl. destruct (pathname target) as [[|c p]|]; simpl; eauto.
Qed.

Lemma redirectRouteGenerate_target_nonempty_witness :
  exists c rest,
    redirectRouteGenerate (Sample.redirectToRoute Sample.patternRoute)
      [("all", None)] = String c rest.
Proof.
  apply (redirectRouteGenerate_target_nonempty
           (Sample.redirectToRoute Sample.patternRoute) [("all", None)]
           (target := Sample.patternRoute)).
  reflexivity.
Defined.

Lemma GetSubstitution_char (m p f : string) (c : ascii) (t : string) :
  (c =? "$")%char = false ->
  JsString.GetSubstitution m p f (String c t)
  = String c (JsString.GetSubstitution m p f t).
Proof.
  destruct c as [[] [] [] [] [] [] [] []]; intro H;
    try reflexivity; discriminate H.
Qed.

(** A replacement without dollar sign is inserted as it is. *)
Lemma GetSubstitution_plain (m p f t : string) :
  JsString.mem "$" t = false -> JsString.GetSubstitution m p f t = t.
Proof.
  induction t as [|c t IH]; intro H; [reflexivity|].
  cbn [JsString.mem] in H. apply orb_false_iff in H. destruct H as [Hc Ht].
  rewrite GetSubstitution_char by (now rewrite Ascii.eqb_sym).
  now rewrite IH.
Qed.

(** Where the only bracket of a string is, a search string that starts
    with a bracket is found there or nowhere. *)
Lemma splitFirst_single_bracket (token pre rest : string) :
  JsString.mem "[" pre = false ->
  JsString.mem "[" rest = false ->
  JsString.splitFirst (String "[" token) (pre ++ String "[" rest)%string
  = match JsString.dropPrefix token rest with
    | Some following => Some (pre, following)
    | None => None
    end.
Proof.
  intros Hpre Hrest. induction pre as [|c pre IH].
  - rewrite splitFirst_unfold.
    change (EmptyString ++ String "[" rest)%string with (String "["%char rest).
    cbn [JsString.dropPrefix]. rewrite Ascii.eqb_refl.
    destruct (JsString.dropPrefix token rest); [reflexivity|].
    now rewrite splitFirst_absent.
  - cbn [JsString.mem] in Hpre. apply orb_false_iff in Hpre.
    destruct Hpre as [Hc Hpre].
    rewrite splitFirst_unfold.
    change (String c pre ++ String "[" rest)%string
      with (String c (pre ++ String "[" rest))%string.
    cbn [JsString.dropPrefix]. rewrite Hc, (IH Hpre).
    now destruct (JsString.dropPrefix token rest).
Qed.

Lemma lookup_single (k : string) (v : option string) : lookup [(k, v)] k = v.
Proof. simpl. now rewrite String.eqb_refl. Qed.

(** One turn of the loop on a template whose only bracket token is
    [[k]]. *)
Lemma substituteParam_token (pre post k : string) (v : option string) :
  JsString.mem "[" pre = false ->
  JsString.mem "[" post = false ->
  JsString.mem "$" (toStringArg v) = false ->
  JsString.mem "[" (toStringArg v) = false ->
  substituteParam [(k, v)] (pre ++ "[" ++ k ++ "]" ++ post) k
  = (pre ++ toStringArg v ++ post)%string.
Proof.
  intros Hpre Hpost Hdollar Hbracket.
  unfold substituteParam. rewrite lookup_single.
  unfold JsString.replace at 2.
  change ("[" ++ k ++ "]")%string with (String "["%char (k ++ "]")).
  change (pre ++ "[" ++ k ++ "]" ++ post)%string
    with (pre ++ String "["%char (k ++ "]" ++ post))%string.
  rewrite <- (string_append_assoc k "]" post).
  change (String "["%char ((k ++ "]") ++ post))
    with (String "["%char (k ++ "]") ++ post)%string.
  rewrite (splitFirst_after (k ++ "]") pre post Hpre).
  rewrite GetSubstitution_plain by exact Hdollar.
  unfold JsString.replace.
  change ("[..." ++ k ++ "]")%string with (String "["%char ("..." ++ k ++ "]")).
  rewrite splitFirst_absent; [reflexivity|].
  now rewrite !mem_app, Hpre, Hpost, Hbracket.
Qed.

(** X2.  A template with one bracket token, [[k]], and the parameter [k]
    alone: the token is replaced by the value of the parameter, for
    every name and every value without dollar sign and bracket; a value
    that is [undefined] is written [undefined]. *)
Theorem redirectRouteGenerate_param (r : RouteData) (pre post k : string)
  (v : option string) :
  redirectRoute r = None ->
  redirect r = Some (RedirectString (pre ++ "[" ++ k ++ "]" ++ post)) ->
  JsString.mem "[" pre = false ->
  JsString.mem "[" post = false ->
  JsString.mem "$" (toStringArg v) = false ->
  JsString.mem "[" (toStringArg v) = false ->
  redirectRouteGenerate r [(k, v)] = (pre ++ toStringArg v ++ post)%string.
Proof.
  intros Htarget Hredirect Hpre Hpost Hdollar Hbracket.
  unfold redirectRouteGenerate. rewrite Htarget, Hredirect.
  rewrite keys_single. cbn [fold_left].
  now apply substituteParam_token.
Qed.

Lemma redirectRouteGenerate_param_witness :
  redirectRouteGenerate (Sample.redirectTo (RedirectString "/docs/[page]/"))
    [("page", Some "intro")] = "/docs/intro/".
Proof.
  apply (redirectRouteGenerate_param
           (Sample.redirectTo (RedirectString "/docs/[page]/"))
           "/docs/" "/" "page" (Some "intro")); reflexivity.
Defined.

Lemma dropPrefix_rest_token (k post : string) :
  JsString.mem "." k = false ->
  JsString.dropPrefix (k ++ "]") ("..." ++ k ++ "]" ++ post) = None.
Proof.
  intro Hk. destruct k as [|c k]; [reflexivity|].
  cbn [JsString.mem] in Hk. apply orb_false_iff in Hk. destruct Hk as [Hc _].
  change ((String c k ++ "]")%string) with (String c (k ++ "]")).
  change ("..." ++ String c k ++ "]" ++ post)%string
    with (String "."%char (".." ++ String c k ++ "]" ++ post)).
  cbn [JsString.dropPrefix]. rewrite Ascii.eqb_sym. now rewrite Hc.
Qed.

(** One turn of the loop on a template whose only bracket token is the
    rest token [[...k]]. *)
Lemma substituteParam_rest_token (pre post k : string) (v : option string) :
  JsString.mem "[" pre = false ->
  JsString.mem "[" post = false ->
  JsString.mem "[" k = false ->
  JsString.mem "." k = false ->
  JsString.mem "$" (toStringArg v) = false ->
  substituteParam [(k, v)] (pre ++ "[..." ++ k ++ "]" ++ post) k
  = (pre ++ toStringArg v ++ post)%string.
Proof.
  intros Hpre Hpost Hk Hdot Hdollar.
  unfold substituteParam. rewrite lookup_single.
  assert (Hrest : JsString.mem "[" ("..." ++ k ++ "]" ++ post) = false).
  { now rewrite !mem_app, Hk, Hpost. }
  unfold JsString.replace at 2.
  change ("[" ++ k ++ "]")%string with (String "["%char (k ++ "]")).
  change (pre ++ "[..." ++ k ++ "]" ++ post)%string
    with (pre ++ String "["%char ("..." ++ k ++ "]" ++ post))%string.
  rewrite (splitFirst_single_bracket (k ++ "]") pre _ Hpre Hrest).
  rewrite (dropPrefix_rest_token k post Hdot).
  unfold JsString.replace.
  change ("[..." ++ k ++ "]")%string with (String "["%char ("..." ++ k ++ "]")).
  rewrite (splitFirst_single_bracket ("..." ++ k ++ "]") pre _ Hpre Hrest).
  replace ("..." ++ k ++ "]" ++ post)%string
    with (("..." ++ k ++ "]") ++ post)%string.
  - rewrite dropPrefix_app. now rewrite GetSubstitution_plain.
  - change ("..." ++ k ++ "]")%string with ("..." ++ (k ++ "]"))%string.
    rewrite string_append_assoc. f_equal. apply string_append_assoc.
Qed.

(** X3.  A template with one bracket token, the rest token [[...k]], and
    the parameter [k] alone: the token is replaced by the value of the
    parameter, and by [undefined] when the parameter has no value. *)
Theorem redirectRouteGenerate_rest_param (r : RouteData) (pre post k : string)
  (v : option string) :
  redirectRoute r = None ->
  redirect r = Some (RedirectString (pre ++ "[..." ++ k ++ "]" ++ post)) ->
  JsString.mem "[" pre = false ->
  JsString.mem "[" post = false ->
  JsString.mem "[" k = false ->
  JsString.mem "." k = false ->
  JsString.mem "$" (toStringArg v) = false ->
  redirectRouteGenerate r [(k, v)] = (pre ++ toStringArg v ++ post)%string.
Proof.
  intros Htarget Hredirect Hpre Hpost Hk Hdot Hdollar.
  unfold redirectRouteGenerate. rewrite Htarget, Hredirect.
  rewrite keys_single. cbn [fold_left].
  now apply substituteParam_rest_token.
Qed.

Lemma redirectRouteGenerate_rest_param_witness :
  redirectRouteGenerate (Sample.redirectTo (RedirectString "/new/[...path]"))
    [("path", Some "a/b")] = "/new/a/b".
Proof.
  apply (redirectRouteGenerate_rest_param
           (Sample.redirectTo (RedirectString "/new/[...path]"))
           "/new/" "" "path" (Some "a/b")); reflexivity.
Defined.

(* ------------------------------------------------------------------ *)
(** ** [getParams] *)












(* ================================================================== *)
(** * More on the Pipeline and on [renderPage] *)
(* ================================================================== *)

Section PipelineTheory.
Context `{HT : HostTypes} `{RH : !RenderHost}.

Lemma runHooks_app (hooks1 hooks2 : list PipelineHookFunction)
  (renderContext : RenderContext) (componentInstance : option ComponentInstance)
  (w : World) :
  runHooks (hooks1 ++ hooks2)%list renderContext componentInstance w
  = match runHooks hooks1 renderContext componentInstance w with
    | (Normal renderContext', w') =>
        runHooks hooks2 renderContext' componentInstance w'
    | (Throw e, w') => (Throw e, w')
    end.
Proof.
  revert renderContext w.
  induction hooks1 as [|hook hooks1 IH]; intros renderContext w; [reflexivity|].
  simpl. unfold bind.
  destruct (hook renderContext componentInstance w) as [[c|e] w']; [|reflexivity].
  apply IH.
Qed.

(** X6.  A hook registered with [onBeforeRenderRoute] runs after every
    hook registered before it, on the render context they left; the
    route is then rendered on the context the new hook left.  When a
    hook throws, nothing after it runs: [renderRoute] throws that error
    in the world the hook left. *)
Theorem renderRoute_hook_order (this : Pipeline) (fn : PipelineHookFunction)
  (renderContext : RenderContext) (componentInstance : option ComponentInstance)
  (w : World) :
  renderRoute (onBeforeRenderRoute this fn) renderContext componentInstance w
  = match runHooks (hooks_before this) renderContext componentInstance w with
    | (Throw e, w1) => (Throw e, w1)
    | (Normal c1, w1) =>
        match fn c1 componentInstance w1 with
        | (Throw e, w2) => (Throw e, w2)
        | (Normal c2, w2) => renderRoute (withoutHooks this) c2 componentInstance w2
        end
    end.
Proof.
  unfold renderRoute, onBeforeRenderRoute, withoutHooks; simpl.
  unfold bind at 1. rewrite runHooks_app.
  destruct (runHooks (hooks_before this) renderContext componentInstance w)
    as [[c1|e] w1]; [|reflexivity].
  simpl. unfold bind at 1.
  destruct (fn c1 componentInstance w1) as [[c2|e] w2]; reflexivity.
Qed.


(** X8.  Outside redirects, [renderPage] reaches the renderer only for
    a module with a default export: a fallback route is answered with
    an empty 404 whatever the module, a missing module throws
    [CantRenderPage], a module without default export throws, and in
    all three cases the world is left as it was. *)
Theorem renderPage_without_component (mod_ : option ComponentInstance)
  (renderContext : RenderContext) (env_ : Environment) (cookies_ : AstroCookies)
  (w : World) :
  (type (rc_route renderContext) = RouteType.fallback ->
   renderPage mod_ renderContext env_ cookies_ w
   = (Normal (Response.mk 404 "" Headers.empty None false), w))
  /\ (type (rc_route renderContext) = RouteType.page ->
      mod_ = None ->
      renderPage mod_ renderContext env_ cookies_ w
      = (Throw (AstroError "CantRenderPage"), w))
  /\ (type (rc_route renderContext) = RouteType.page ->
      forall m, mod_ = Some m -> default m = None ->
      exists message,
        renderPage mod_ renderContext env_ cookies_ w
        = (Throw (Error message), w)).
Proof.
  unfold renderPage, routeIsRedirect, routeIsFallback.
  split; [|split].
  - intros ->. reflexivity.
  - intros -> ->. reflexivity.
  - intros -> m -> Hdefault. simpl. rewrite Hdefault. eexists. reflexivity.
Qed.

End PipelineTheory.


Lemma renderPage_without_component_witness :
  renderPage None
    (Sample.contextOf "GET" (Sample.routeAt "/es/about" RouteType.fallback false) [])
    Sample.environment tt 0%nat
  = (Normal (Response.mk 404 "" Headers.empty None false), 0%nat).
Proof.
  apply (proj1 (renderPage_without_component None
                  (Sample.contextOf "GET"
                     (Sample.routeAt "/es/about" RouteType.fallback false) [])
                  Sample.environment tt 0%nat)).
  reflexivity.
Defined.

(* ================================================================== *)
(** * More on [App] *)
(* ================================================================== *)

Lemma slice_after (a : string) (c : ascii) (rest : string) :
  JsString.slice (String.length a + 1) (a ++ String c rest) = rest.
Proof. induction a as [|x a IH]; simpl; [reflexivity | exact IH]. Qed.

Lemma prefix_app (a b : string) : prefix a (a ++ b) = true.
Proof.
  induction a as [|x a IH]; simpl; [now destruct b|].
  destruct (ascii_dec x x); [exact IH | contradiction].
Qed.

(** X9.  Merging keeps every cookie: the [set-cookie] values of the
    merged response are those of the new response followed by those of
    the original, each one on its own, as the constructor of [Headers]
    takes them (without white space around them, which the values of
    existing headers do not have). *)
Theorem mergeResponses_set_cookie (newResponse originalResponse : Response.t)
  (override : option ErrorStatus) (r : Response.t) (name : string) :
  mergeResponses newResponse (Some originalResponse) override = Normal r ->
  JsString.toLowerCase name = "set-cookie" ->
  Headers.values name (Headers.headerList (Response.headers r))
  = map Headers.normalize
      (Headers.values name (Headers.headerList (Response.headers newResponse))
       ++ Headers.values name
            (Headers.headerList (Response.headers originalResponse)))%list
  /\ ((forall v,
         In v (Headers.values name
                 (Headers.headerList (Response.headers newResponse))
               ++ Headers.values name
                    (Headers.headerList (Response.headers originalResponse)))%list ->
         Headers.normalize v = v) ->
      Headers.values name (Headers.headerList (Response.headers r))
      = (Headers.values name (Headers.headerList (Response.headers newResponse))
         ++ Headers.values name
              (Headers.headerList (Response.headers originalResponse)))%list).
Proof.
  intros H Hname.
  assert (E : Headers.values name (Headers.headerList (Response.headers r))
              = map Headers.normalize
                  (Headers.values name
                     (Headers.headerList (Response.headers newResponse))
                   ++ Headers.values name
                        (Headers.headerList
                           (Response.headers originalResponse)))%list).
  { rewrite (mergeResponses_headerList _ _ _ H).
    rewrite (values_merged_set_cookie _ _ _ Hname).
    now rewrite (values_withoutContentType _ _ Hname). }
  split; [exact E|].
  intro Hfixed. rewrite E.
  rewrite <- (map_id (_ ++ _)%list) at 2.
  now apply map_ext_in.
Qed.

Lemma mergeResponses_set_cookie_witness :
  exists r,
    mergeResponses Sample.errorPageWithCookie
      (Some Sample.userResponseWithCookies) None = Normal r
    /\ Headers.values "Set-Cookie" (Headers.headerList (Response.headers r))
       = ["seen=1"; "session=; Max-Age=0"; "theme=dark"].
Proof.
  eexists. split; [reflexivity|].
  apply (proj1 (@mergeResponses_set_cookie Sample.errorPageWithCookie
                  Sample.userResponseWithCookies None _ "Set-Cookie"
                  eq_refl eq_refl)).
Defined.

(** X10.  Without original response, merging changes the status at
    most: the override, if any, becomes the status, and the body and
    what every header name answers are those of the new response, as
    the constructor of [Headers] copies them when there is an
    override. *)
Theorem mergeResponses_alone (newResponse : Response.t)
  (override : option ErrorStatus) (name : string) :
  exists r,
    mergeResponses newResponse None override = Normal r
    /\ Response.status r
       = match override with
         | Some o => statusCode o
         | None => Response.status newResponse
         end
    /\ Response.body r = Response.body newResponse
    /\ (Headers.nameEqb name "set-cookie" = false ->
        Headers.get name (Response.headers r)
        = match override with
          | Some _ => Headers.copied (Headers.get name (Response.headers newResponse))
          | None => Headers.get name (Response.headers newResponse)
          end)
    /\ (JsString.toLowerCase name = "set-cookie" ->
        Headers.values name (Headers.headerList (Response.headers r))
        = match override with
          | Some _ =>
              map Headers.normalize
                (Headers.values name
                   (Headers.headerList (Response.headers newResponse)))
          | None =>
              Headers.values name
                (Headers.headerList (Response.headers newResponse))
          end).
Proof.
  destruct override as [o|].
  - rewrite mergeResponses_override_alone. eexists. split; [reflexivity|].
    cbn [Response.status Response.body Response.headers].
    split; [reflexivity|]. split; [reflexivity|]. split.
    + intro Hname. now rewrite get_ofEntries, (getList_copied _ _ Hname).
    + intro Hname. rewrite headerList_ofEntries, values_normalized.
      now rewrite (values_entries_set_cookie _ _ Hname).
  - exists newResponse. repeat split; reflexivity.
Qed.

Lemma mergeResponses_alone_witness :
  exists r,
    mergeResponses Sample.errorPage None (Some E500) = Normal r
    /\ Response.status r = 500
    /\ Headers.get "content-type" (Response.headers r) = Some "text/html".
Proof.
  destruct (mergeResponses_alone Sample.errorPage (Some E500) "content-type")
    as (r & Hr & Hstatus & _ & Hget & _).
  exists r. split; [exact Hr|]. split; [exact Hstatus|].
  rewrite (Hget eq_refl). reflexivity.
Defined.

Section AppTheory.
Context `{HT : HostTypes} `{RH : !RenderHost} `{DH : !DispatchHost}.

(** X11.  [match] only gives a route that is not prerendered, for a
    path that is not an asset, and the route is the one [matchRoute]
    finds for the path without the base. *)
Theorem match_dynamic_route (this : App) (request_ : Request.t) (r : RouteData) :
  match_ this request_ = Some r ->
  prerender r = false
  /\ existsb (String.eqb (urlPathname (Request.url request_)))
       (assets (manifest this)) = false
  /\ matchRoute
       (prependForwardSlash
          (removeBase this (urlPathname (Request.url request_))))
       (manifestData this) = Some r.
Proof.
  unfold match_.
  destruct (existsb _ (assets (manifest this))); [discriminate|].
  destruct (matchRoute _ (manifestData this)) as [r'|]; [|discriminate].
  destruct (prerender r') eqn:Hp; [discriminate|].
  intro E. injection E as <-. now repeat split.
Qed.

(** X12.  [removeBase] leaves a path that does not start with the base
    as it is; from a path that does, it cuts the base without its
    trailing slash and the one character that follows, whatever that
    character is.  When the base ends with a slash, a path made of the
    base and a rest is cut down to the rest. *)
Theorem removeBase_cases (this : App) :
  (forall p,
     JsString.startsWith p (base (manifest this)) = false ->
     removeBase this p = p)
  /\ (forall c rest,
        JsString.startsWith
          (baseWithoutTrailingSlash this ++ String c rest)
          (base (manifest this)) = true ->
        removeBase this (baseWithoutTrailingSlash this ++ String c rest) = rest)
  /\ (forall rest,
        base (manifest this) = (baseWithoutTrailingSlash this ++ "/")%string ->
        removeBase this (base (manifest this) ++ rest) = rest).
Proof.
  unfold removeBase. split; [|split].
  - intros p ->. reflexivity.
  - intros c rest ->. apply slice_after.
  - intros rest Hbase. unfold JsString.startsWith. rewrite prefix_app.
    rewrite Hbase at 1. rewrite string_append_assoc. apply slice_after.
Qed.

End AppTheory.

Lemma match_dynamic_route_witness :
  prerender (Sample.routeAt "/" RouteType.page false) = false
  /\ existsb (String.eqb (urlPathname (Request.url (Sample.get_ "/"))))
       (assets (manifest (Sample.siteWithout404 Sample.homePage))) = false
  /\ matchRoute
       (prependForwardSlash
          (removeBase (Sample.siteWithout404 Sample.homePage)
             (urlPathname (Request.url (Sample.get_ "/")))))
       (manifestData (Sample.siteWithout404 Sample.homePage))
     = Some (Sample.routeAt "/" RouteType.page false).
Proof.
  apply (match_dynamic_route (Sample.siteWithout404 Sample.homePage)
           (Sample.get_ "/")).
  reflexivity.
Defined.

Lemma removeBase_cases_witness :
  removeBase (Sample.siteWithout404 Sample.homePage) "/about" = "about".
Proof.
  apply (proj2 (proj2 (removeBase_cases (Sample.siteWithout404 Sample.homePage)))
           "about").
  reflexivity.
Defined.

(* ================================================================== *)
(** * More on [render] and on the error fallback *)
(* ================================================================== *)

Section FallbackTheory.
Context `{HT : HostTypes} `{RH : !RenderHost} `{DH : !DispatchHost}.

(** X13.  A prerendered error route: the stored document is sent with
    the status that was asked for, whatever status the document came
    with and whatever the status of the original response, and with the
    body of the document. *)
Theorem renderError_prerendered (fuel : nat) (request_ : Request.t)
  (options : RenderErrorOptions) (s s1 : St) (errorRouteData : RouteData)
  (stored : Response.t) :
  matchRoute (errorRoutePath (fst s) (o_status options)) (manifestData (fst s))
  = Some errorRouteData ->
  prerender errorRouteData = true ->
  liftU (fetch (statusURL (fst s) request_ errorRouteData (o_status options))) s
  = (Normal stored, s1) ->
  exists r,
    renderError (S fuel) request_ options s = Some (Normal r, s1)
    /\ Response.status r = statusCode (o_status options)
    /\ Response.body r = Response.body stored.
Proof.
  intros Hmatch Hstatic Hfetch. cbn [renderError].
  rewrite Hmatch, Hstatic, Hfetch.
  destruct (response options) as [original|].
  - destruct (mergeResponses_returns stored original (Some (o_status options)))
      as (r & -> & Hstatus & Hbody);
      [apply statusCode_inRange | right; apply statusCode_inRange |].
    exists r. split; [reflexivity|]. split; [exact Hstatus | exact Hbody].
  - rewrite mergeResponses_override_alone. eexists.
    split; [reflexivity|]. split; reflexivity.
Qed.

(** X14.  A page or a redirect answers 404 or 500, and the error route
    for that status is rendered: what [render] returns has the status
    of the page, not the one of the error page, and the body of the
    error page. *)
Theorem render_error_page_keeps_status (fuel : nat) (request_ : Request.t)
  (routeDataOrOptions : option RouteDataOrOptions) (maybeLocals : option Locals)
  (status_ : ErrorStatus)
  (s s0 s1 s2 s3 s4 : St) (given : option RouteData) (locals_ : option Locals)
  (routeData_ errorRouteData : RouteData) (mod_ errorMod : SinglePageBuiltModule)
  (pageModule_ : ComponentInstance) (renderContext : RenderContext)
  (response_ rendered : Response.t) :
  render_arguments routeDataOrOptions maybeLocals s
  = (Normal (given, locals_), s0) ->
  render_route (fst s0) given (render_request request_) = Some routeData_ ->
  render_prepare (render_locals (render_request request_) locals_) routeData_ s0
  = (Normal (mod_, pageModule_, renderContext), s1) ->
  render_try mod_ renderContext pageModule_ s1 = (Normal response_, s2) ->
  type routeData_ = RouteType.page \/ type routeData_ = RouteType.redirect ->
  Response.status response_ = statusCode status_ ->
  matchRoute (errorRoutePath (fst s2) status_) (manifestData (fst s2))
  = Some errorRouteData ->
  prerender errorRouteData = false ->
  getModuleForRoute errorRouteData s2 = (Normal errorMod, s3) ->
  renderError_try (render_locals (render_request request_) locals_)
    errorRouteData errorMod status_ false s3 = (Normal rendered, s4) ->
  exists r,
    render (S fuel) request_ routeDataOrOptions maybeLocals s
    = Some (Normal r, s4)
    /\ Response.status r = Response.status response_
    /\ Response.body r = Response.body rendered.
Proof.
  intros Hargs Hroute Hprepare Htry Htype Hstatus Hmatch Hdynamic Hmodule Herror.
  rewrite (render_reaches_try (S fuel) request_ _ _ _ Hargs Hroute Hprepare), Htry.
  unfold render_finish.
  assert (Hhas : STATUS_CODES_has (Response.status response_) = Some status_).
  { rewrite Hstatus. now destruct status_. }
  assert (E : match type routeData_ with
              | RouteType.page | RouteType.redirect => true
              | _ => false
              end = true) by now destruct Htype as [-> | ->].
  assert (Hmerged : mergedStatus rendered response_ None
                    = Response.status response_).
  { unfold mergedStatus. rewrite Hstatus. now destruct status_. }
  destruct (mergeResponses_returns rendered response_ None)
    as (r & Hr & Hs & Hb).
  { rewrite Hmerged, Hstatus. apply statusCode_inRange. }
  { right. rewrite Hmerged, Hstatus. apply statusCode_inRange. }
  exists r. rewrite Hs, Hmerged. split; [|split; [reflexivity | exact Hb]].
  destruct (type routeData_); try discriminate E;
    rewrite Hhas; cbn [renderError o_status response skipMiddleware];
    rewrite Hmatch, Hdynamic, Hmodule;
    unfold renderError_merged, bind, pure; now rewrite Herror, Hr.
Qed.

(** The text that is logged is the stack of the thrown value when it
    has one. *)
Lemma errorText_stack (w : World) (err : Exn) (text trace : string) :
  errorText w err = Normal text ->
  stack w err = Some trace -> trace <> EmptyString -> text = trace.
Proof.
  unfold errorText. intros H Hstack Hne. rewrite Hstack in H.
  destruct trace as [|c t]; [now destruct Hne|]. cbn [JsString.truthy] in H.
  destruct err; try discriminate H; now injection H as <-.
Qed.

(** X15.  The render throws a value other than an
    [EndpointNotFoundError], of which the text [err.stack ||
    err.message || String(err)] can be read, and the site has no route
    for 500: [render] returns a response with status 500 and no body,
    and that text, the stack of the error if it has one, is the entry
    that was added to the log, as an error without label. *)
Theorem render_uncaught_without_500 (fuel : nat) (request_ : Request.t)
  (routeDataOrOptions : option RouteDataOrOptions) (maybeLocals : option Locals)
  (s s0 s1 s2 : St) (given : option RouteData) (locals_ : option Locals)
  (routeData_ : RouteData) (mod_ : SinglePageBuiltModule)
  (pageModule_ : ComponentInstance) (renderContext : RenderContext)
  (err : Exn) (text : string) :
  render_arguments routeDataOrOptions maybeLocals s
  = (Normal (given, locals_), s0) ->
  render_route (fst s0) given (render_request request_) = Some routeData_ ->
  render_prepare (render_locals (render_request request_) locals_) routeData_ s0
  = (Normal (mod_, pageModule_, renderContext), s1) ->
  render_try mod_ renderContext pageModule_ s1 = (Throw err, s2) ->
  (forall originalResponse, err <> EndpointNotFoundError originalResponse) ->
  errorText (snd s2) err = Normal text ->
  matchRoute (errorRoutePath (fst s2) E500) (manifestData (fst s2)) = None ->
  exists r s3,
    render (S fuel) request_ routeDataOrOptions maybeLocals s
    = Some (Normal r, s3)
    /\ Response.status r = 500
    /\ Response.body r = None
    /\ logged (fst s3)
       = (logged (fst s2)
          ++ [{| log_level := "error"; log_label := None;
                 log_message := text |}])%list
    /\ snd s3 = snd s2
    /\ (forall trace,
          stack (snd s2) err = Some trace -> trace <> EmptyString ->
          text = trace).
Proof.
  intros Hargs Hroute Hprepare Htry Hother Htext Hnone.
  rewrite (render_reaches_try (S fuel) request_ _ _ _ Hargs Hroute Hprepare), Htry.
  assert (E : render_catch (S fuel)
                (render_locals (render_request request_) locals_) err s2
              = renderError (S fuel)
                  (render_locals (render_request request_) locals_)
                  {| o_status := E500; response := None; skipMiddleware := false |}
                  (snd (log "error" None text s2))).
  { unfold render_catch.
    destruct err as [originalResponse| | | | | |]; try (now rewrite Htext).
    now destruct (Hother originalResponse). }
  rewrite E. cbn [renderError o_status response skipMiddleware].
  change (manifestData (fst (snd (log "error" None text s2))))
    with (manifestData (fst s2)).
  change (errorRoutePath (fst (snd (log "error" None text s2))) E500)
    with (errorRoutePath (fst s2) E500).
  rewrite Hnone, renderError_bare_alone. do 2 eexists.
  split; [reflexivity|]. split; [reflexivity|]. split; [reflexivity|].
  split; [reflexivity|]. split; [reflexivity|].
  intros trace. now apply errorText_stack.
Qed.

(** X16.  A route whose component the page map does not have: [render]
    throws the error of [#getModuleForRoute], whose message ends with
    the path of the route; that error is thrown before the [try], so
    that no error page is rendered for it. *)
Theorem render_component_missing (fuel : nat) (request_ : Request.t)
  (routeDataOrOptions : option RouteDataOrOptions) (maybeLocals : option Locals)
  (s s0 : St) (given : option RouteData) (locals_ : option Locals)
  (routeData_ : RouteData)
  (pageMap_ : string -> option (U SinglePageBuiltModule)) :
  render_arguments routeDataOrOptions maybeLocals s
  = (Normal (given, locals_), s0) ->
  render_route (fst s0) given (render_request request_) = Some routeData_ ->
  type routeData_ <> RouteType.redirect ->
  pageMap (manifest (fst s0)) = Some pageMap_ ->
  pageMap_ (component routeData_) = None ->
  render fuel request_ routeDataOrOptions maybeLocals s
  = Some (Throw (Error ("Unexpectedly unable to find a component instance for route "
                        ++ route routeData_)),
          s0).
Proof.
  intros Hargs Hroute Htype Hmap Hmissing. unfold render.
  rewrite Hargs, Hroute. unfold render_prepare, getModuleForRoute, bind, getThis.
  cbn [fst]. rewrite Hmap, Hmissing.
  destruct (type routeData_); try reflexivity. now destruct Htype.
Qed.

(** X17.  The warning about the deprecated signature of [render] is
    logged once: reading the arguments of a call in the old style logs
    it and records that it was shown, and once that is recorded no
    call, of either style, changes the log. *)
Theorem render_arguments_warns_once
  (routeDataOrOptions : option RouteDataOrOptions) (maybeLocals : option Locals)
  (s : St) :
  (renderOptionsDeprecationWarningShown (fst s) = true ->
   snd (render_arguments routeDataOrOptions maybeLocals s) = s)
  /\ (renderOptionsDeprecationWarningShown (fst s) = false ->
      forall routeData_,
        routeDataOrOptions = Some (ArgRouteData routeData_) ->
        let s' := snd (render_arguments routeDataOrOptions maybeLocals s) in
        renderOptionsDeprecationWarningShown (fst s') = true
        /\ List.length (logged (fst s')) = S (List.length (logged (fst s)))).
Proof.
  split.
  - intro Hshown.
    destruct routeDataOrOptions as [[r|[[rd|] [l|]]]|]; simpl;
      unfold bind, logRenderOptionsDeprecationWarning, ret, throw;
      try rewrite Hshown; try reflexivity.
    destruct maybeLocals; [rewrite Hshown|]; reflexivity.
  - intros Hfresh routeData_ ->. simpl.
    unfold bind, logRenderOptionsDeprecationWarning. rewrite Hfresh. simpl.
    split; [reflexivity|]. rewrite length_app. simpl. lia.
Qed.

End FallbackTheory.

(* ================================================================== *)
(** * The Pipeline between requests *)
(* ================================================================== *)

Section SlotTheory.
Context `{HT : HostTypes} `{RH : !RenderHost} `{DH : !DispatchHost}.


(** X20.  [render] makes at most two nested calls of the error
    fallback: with fuel for two it returns or throws for every request,
    and more fuel changes nothing. *)
Theorem render_fuel (fuel : nat) (request_ : Request.t)
  (routeDataOrOptions : option RouteDataOrOptions) (maybeLocals : option Locals)
  (s : St) :
  render (S (S fuel)) request_ routeDataOrOptions maybeLocals s
  = render 2 request_ routeDataOrOptions maybeLocals s
  /\ exists r, render 2 request_ routeDataOrOptions maybeLocals s = Some r.
Proof.
  unfold render.
  destruct (render_arguments routeDataOrOptions maybeLocals s)
    as [[[given locals_]|e] s0]; [|split; [reflexivity | eexists; reflexivity]].
  destruct (render_route (fst s0) given (render_request request_))
    as [routeData_|]; [|apply renderError_fuel].
  destruct (render_prepare _ routeData_ s0)
    as [[[[mod_ pageModule_] renderContext]|e] s1];
    [|split; [reflexivity | eexists; reflexivity]].
  destruct (render_try mod_ renderContext pageModule_ s1) as [[response_|err] s2].
  - unfold render_finish.
    destruct (type routeData_);
      try (split; [reflexivity | eexists; reflexivity]);
      (destruct (STATUS_CODES_has (Response.status response_));
       [apply renderError_fuel | split; [reflexivity | eexists; reflexivity]]).
  - unfold render_catch.
    destruct err; try apply renderError_fuel;
      (destruct (errorText _ _);
       [apply renderError_fuel | split; [reflexivity | eexists; reflexivity]]).
Qed.

End SlotTheory.

(* ================================================================== *)
(** * The error routes of the development server *)
(* ================================================================== *)

(** X21.  When [has404Route] says that the table has a route [/404],
    [getCustom404Route] finds a route, and the route it finds is the
    first of the table whose path is [/404] or [/404/]. *)
Theorem getCustom404Route_found (manifestData_ : ManifestData) :
  has404Route manifestData_ = true ->
  exists before r after,
    getCustom404Route manifestData_ = Some r
    /\ md_routes manifestData_ = (before ++ r :: after)%list
    /\ route404 (route r) = true
    /\ forall r', In r' before -> route404 (route r') = false.
Proof.
  unfold has404Route, getCustom404Route.
  induction (md_routes manifestData_) as [|x l IH]; simpl; [discriminate|].
  intro H. destruct (route404 (route x)) eqn:Ex.
  - exists [], x, l. repeat split; auto. intros r' [].
  - assert (Hx : (route x =? "/404")%string = false).
    { unfold route404 in Ex. now apply orb_false_iff in Ex. }
    rewrite Hx in H. simpl in H.
    destruct (IH H) as [before [r [after [Hfind [Hl [Hr Hbefore]]]]]].
    exists (x :: before), r, after. repeat split; auto.
    + now rewrite Hl.
    + intros r' [<-|Hin]; auto.
Qed.

(* ================================================================== *)
(** * These theorems on the sample site *)
(* ================================================================== *)

Lemma renderError_prerendered_witness :
  exists r,
    renderError 1 (Sample.get_ "/missing")
      {| o_status := E404; response := Some (Sample.html 500 "failed");
         skipMiddleware := false |}
      (Sample.staticErrorSite, 0%nat)
    = Some (Normal r, (Sample.staticErrorSite, 0%nat))
    /\ Response.status r = 404
    /\ Response.body r = Some "static /404.html".
Proof.
  edestruct (renderError_prerendered 0 (Sample.get_ "/missing")
               {| o_status := E404; response := Some (Sample.html 500 "failed");
                  skipMiddleware := false |}
               (Sample.staticErrorSite, 0%nat)) as (r & H1 & H2 & H3);
    [run | run | run |].
  exists r. split; [exact H1 | split; [exact H2 | exact H3]].
Defined.

Lemma render_error_page_keeps_status_witness :
  exists r,
    render 1 (Sample.get_ "/") None None
      (Sample.siteWith Sample.reports404 Sample.softNotFoundPage, 0%nat)
    = Some (Normal r,
            (Sample.siteWith Sample.reports404 Sample.softNotFoundPage, 2%nat))
    /\ Response.status r = 404
    /\ Response.body r = Some "Not Found".
Proof.
  edestruct (render_error_page_keeps_status 0 (Sample.get_ "/") None None E404
               (Sample.siteWith Sample.reports404 Sample.softNotFoundPage, 0%nat))
    as (r & H1 & H2 & H3);
    [run | run | run | run | left; reflexivity | run | run | run | run | run |].
  exists r. split; [exact H1 | split; [exact H2 | exact H3]].
Defined.

Lemma render_uncaught_without_500_witness :
  exists r s3,
    render 1 (Sample.get_ "/") None None
      (Sample.siteWithout404 Sample.throwingPage, 0%nat)
    = Some (Normal r, s3)
    /\ Response.status r = 500
    /\ Response.body r = None
    /\ logged (fst s3)
       = [{| log_level := "error"; log_label := None;
             log_message := "Error: boom at page.astro:1:7" |}]
    /\ snd s3 = 1%nat.
Proof.
  edestruct (render_uncaught_without_500 0 (Sample.get_ "/") None None
               (Sample.siteWithout404 Sample.throwingPage, 0%nat))
    as (r & s3 & H1 & H2 & H3 & H4 & H5 & _);
    [run | run | run | run | intros originalResponse; discriminate | run
    | run |].
  exists r, s3. repeat split; assumption.
Defined.

Lemma render_component_missing_witness :
  render 2 (Sample.get_ "/draft")
    (Sample.withRoute (Sample.routeAt "/draft" RouteType.page false)) None
    (Sample.siteWithout404 Sample.homePage, 0%nat)
  = Some (Throw (Error "Unexpectedly unable to find a component instance for route /draft"),
          (Sample.siteWithout404 Sample.homePage, 0%nat)).
Proof.
  change "Unexpectedly unable to find a component instance for route /draft"
    with ("Unexpectedly unable to find a component instance for route "
          ++ route (Sample.routeAt "/draft" RouteType.page false)).
  eapply (render_component_missing 2 (Sample.get_ "/draft")
            (Sample.withRoute (Sample.routeAt "/draft" RouteType.page false)) None
            (Sample.siteWithout404 Sample.homePage, 0%nat));
    try run.
  discriminate.
Defined.

Lemma render_arguments_warns_once_witness :
  renderOptionsDeprecationWarningShown
    (fst (snd (render_arguments
                 (Some (ArgRouteData (Sample.routeAt "/" RouteType.page false)))
                 None (Sample.siteWithout404 Sample.homePage, 0%nat)))) = true
  /\ List.length
       (logged
          (fst (snd (render_arguments
                       (Some (ArgRouteData (Sample.routeAt "/" RouteType.page false)))
                       None (Sample.siteWithout404 Sample.homePage, 0%nat)))))
     = 1%nat.
Proof.
  apply (proj2 (render_arguments_warns_once
                  (Some (ArgRouteData (Sample.routeAt "/" RouteType.page false)))
                  None (Sample.siteWithout404 Sample.homePage, 0%nat))
           eq_refl (Sample.routeAt "/" RouteType.page false) eq_refl).
Defined.


Lemma getCustom404Route_found_witness :
  exists before r after,
    getCustom404Route
      {| md_routes := [Sample.routeAt "/" RouteType.page false;
                       Sample.routeAt "/404" RouteType.page false] |}
    = Some r
    /\ [Sample.routeAt "/" RouteType.page false;
        Sample.routeAt "/404" RouteType.page false]
       = (before ++ r :: after)%list
    /\ route404 (route r) = true
    /\ forall r', In r' before -> route404 (route r') = false.
Proof.
  apply (getCustom404Route_found
           {| md_routes := [Sample.routeAt "/" RouteType.page false;
                            Sample.routeAt "/404" RouteType.page false] |}).
  reflexivity.
Defined.

(* ================================================================== *)
(** * The site is the same after a request *)
(* ================================================================== *)

Section UnchangedTheory.
Context `{HT : HostTypes} `{RH : !RenderHost} `{DH : !DispatchHost}.

Section Frame.

(** What the methods of [App] keep, for such a relation. *)
Variable R : App -> App -> Prop.
Hypothesis F : Frame R.


Lemma Keeps_ret {A} (a : A) : Keeps R (ret a).
Proof. intro s. apply (frame_refl F). Qed.

Lemma Keeps_throw {A} (e : Exn) : Keeps R (@throw St A e).
Proof. intro s. apply (frame_refl F). Qed.

Lemma Keeps_pure {A} (c : Completion A) : Keeps R (@pure St A c).
Proof. intro s. apply (frame_refl F). Qed.

Lemma Keeps_getThis : Keeps R getThis.
Proof. intro s. apply (frame_refl F). Qed.

Lemma Keeps_liftU {A} (m : U A) : Keeps R (liftU m).
Proof.
  intro s. unfold liftU. destruct (m (snd s)) as [r w]. apply (frame_refl F).
Qed.

Lemma Keeps_bind {A B} (m : AppM A) (k : A -> AppM B) :
  Keeps R m -> (forall a, Keeps R (k a)) -> Keeps R (bind m k).
Proof.
  intros Hm Hk s. unfold bind. specialize (Hm s).
  destruct (m s) as [[a|e] s1]; [|exact Hm].
  eapply (frame_trans F); [exact Hm | apply Hk].
Qed.

Lemma Keeps_getModuleForRoute (route_ : RouteData) :
  Keeps R (getModuleForRoute route_).
Proof.
  unfold getModuleForRoute. apply Keeps_bind; [apply Keeps_getThis|]. intro this.
  destruct (type route_); try apply Keeps_ret;
    (destruct (pageMap (manifest this)) as [pm|];
     [destruct (pm (component route_));
      [apply Keeps_liftU | apply Keeps_throw]
     |destruct (pageModule (manifest this));
      [apply Keeps_ret | apply Keeps_throw]]).
Qed.

Lemma Keeps_createRenderContext (url_ : string) (request_ : Request.t)
  (routeData_ : RouteData) (page_ : SinglePageBuiltModule) (status_ : Z) :
  Keeps R (App_createRenderContext url_ request_ routeData_ page_ status_).
Proof.
  unfold App_createRenderContext. apply Keeps_bind; [apply Keeps_getThis|].
  intro this.
  destruct (type routeData_);
    try (destruct (routeDataToRouteInfo this routeData_);
         [|apply Keeps_throw]);
    (apply Keeps_bind; [apply Keeps_liftU | intro; apply Keeps_liftU]).
Qed.

Lemma Keeps_pipelineRenderRoute (renderContext : RenderContext)
  (page_ : ComponentInstance) :
  Keeps R (pipelineRenderRoute renderContext page_).
Proof.
  unfold pipelineRenderRoute. apply Keeps_bind; [apply Keeps_getThis|].
  intro. apply Keeps_liftU.
Qed.

Lemma Keeps_renderError_try (request_ : Request.t) (errorRouteData : RouteData)
  (mod_ : SinglePageBuiltModule) (status_ : ErrorStatus) (skip : bool) :
  Keeps R (renderError_try request_ errorRouteData mod_ status_ skip).
Proof.
  unfold renderError_try.
  apply Keeps_bind; [apply Keeps_createRenderContext | intro ctx].
  apply Keeps_bind; [apply Keeps_liftU | intro page_].
  apply Keeps_bind.
  - destruct skip; [apply Keeps_ret|].
    destruct (mod_onRequest mod_); [|apply Keeps_ret].
    apply (frame_set F).
  - intros _. apply Keeps_bind.
    + destruct skip; [|apply Keeps_ret]. apply (frame_unset F).
    + intros _. apply Keeps_pipelineRenderRoute.
Qed.

Lemma Keeps_renderError_merged (request_ : Request.t)
  (errorRouteData : RouteData) (mod_ : SinglePageBuiltModule)
  (status_ : ErrorStatus) (skip : bool) (original : option Response.t) :
  Keeps R (renderError_merged request_ errorRouteData mod_ status_ skip original).
Proof.
  unfold renderError_merged.
  apply Keeps_bind; [apply Keeps_renderError_try | intro; apply Keeps_pure].
Qed.

Lemma Keeps_render_arguments (routeDataOrOptions : option RouteDataOrOptions)
  (maybeLocals : option Locals) :
  Keeps R (render_arguments routeDataOrOptions maybeLocals).
Proof.
  unfold render_arguments.
  destruct routeDataOrOptions as [[r|[[rd|] [l|]]]|];
    try apply Keeps_ret;
    try (apply Keeps_bind; [apply (frame_warning F) | intros _]);
    try apply Keeps_ret; try apply Keeps_throw.
  apply Keeps_bind; [|intros _; apply Keeps_ret].
  destruct maybeLocals; [apply (frame_warning F) | apply Keeps_ret].
Qed.

Lemma Keeps_render_prepare (request_ : Request.t) (routeData_ : RouteData) :
  Keeps R (render_prepare request_ routeData_).
Proof.
  unfold render_prepare. apply Keeps_bind; [apply Keeps_getThis | intro this].
  apply Keeps_bind; [apply Keeps_getModuleForRoute | intro mod_].
  apply Keeps_bind; [apply Keeps_liftU | intro pageModule_].
  apply Keeps_bind; [apply Keeps_createRenderContext | intro ctx].
  apply Keeps_ret.
Qed.

Lemma renderError_keeps (fuel : nat) :
  forall request_ options s out s',
    renderError fuel request_ options s = Some (out, s') ->
    R (fst s) (fst s').
Proof.
  induction fuel as [|fuel IH]; intros request_ options s out s' H;
    [discriminate|].
  cbn [renderError] in H.
  destruct (matchRoute _ (manifestData (fst s))) as [errorRouteData|].
  - destruct (prerender errorRouteData).
    + pose proof (Keeps_liftU
                    (fetch (statusURL (fst s) request_ errorRouteData
                              (o_status options))) s) as Hk.
      destruct (liftU _ s) as [[r|e] s1]; injection H as <- <-; exact Hk.
    + pose proof (Keeps_getModuleForRoute errorRouteData s) as Hm.
      destruct (getModuleForRoute errorRouteData s) as [[mod_|e] s1];
        [|injection H as <- <-; exact Hm].
      pose proof (Keeps_renderError_merged request_ errorRouteData mod_
                    (o_status options) (skipMiddleware options)
                    (response options) s1) as Ht.
      destruct (renderError_merged _ _ _ _ _ _ s1) as [[r|e] s2];
        cbn [fst snd] in *.
      * injection H as <- <-. eapply (frame_trans F); eassumption.
      * assert (Hs2 : R (fst s) (fst s2))
          by (eapply (frame_trans F); eassumption).
        destruct (skipMiddleware options);
          [injection H as <- <-; exact Hs2|].
        destruct (mod_onRequest mod_);
          [|injection H as <- <-; exact Hs2].
        eapply (frame_trans F); [exact Hs2 | eapply IH; exact H].
  - injection H as <- <-. apply (frame_refl F).
Qed.

(** The end of [render], after the [try] block. *)
Lemma render_finish_keeps (fuel : nat) (request_ : Request.t)
  (routeData_ : RouteData) (response_ : Response.t) (s2 s' : St)
  (out : Completion Response.t) :
  render_finish fuel request_ routeData_ response_ s2 = Some (out, s') ->
  R (fst s2) (fst s').
Proof.
  unfold render_finish. intro H.
  destruct (type routeData_);
    try (injection H as <- <-; apply (frame_refl F));
    (destruct (STATUS_CODES_has (Response.status response_));
     [eapply renderError_keeps; exact H
     |injection H as <- <-; apply (frame_refl F)]).
Qed.

Lemma render_catch_keeps (fuel : nat) (request_ : Request.t) (err : Exn)
  (s2 s' : St) (out : Completion Response.t) :
  render_catch fuel request_ err s2 = Some (out, s') ->
  R (fst s2) (fst s').
Proof.
  unfold render_catch. intro H.
  assert (Hlog : forall e,
             match errorText (snd s2) e with
             | Throw e' => Some (Throw e', s2)
             | Normal text =>
                 renderError fuel request_
                   {| o_status := E500; response := None;
                      skipMiddleware := false |}
                   (snd (log "error" None text s2))
             end = Some (out, s') ->
             R (fst s2) (fst s')).
  { intros e He. destruct (errorText (snd s2) e) as [text|e'].
    - eapply (frame_trans F); [apply (frame_log F "error" None text s2)|].
      eapply renderError_keeps; exact He.
    - injection He as <- <-. apply (frame_refl F). }
  destruct err as [originalResponse|name|message|e| | |message text];
    [eapply renderError_keeps; exact H
    |exact (Hlog (AstroError name) H)
    |exact (Hlog (Error message) H)
    |exact (Hlog (Native e) H)
    |exact (Hlog Undefined H)
    |exact (Hlog Null H)
    |exact (Hlog (Other message text) H)].
Qed.

(** A request keeps what its [try] block keeps. *)
Lemma render_keeps (fuel : nat) (request_ : Request.t)
  (routeDataOrOptions : option RouteDataOrOptions) (maybeLocals : option Locals)
  (s s' : St) (out : Completion Response.t) :
  (forall mod_ renderContext pageModule_,
     Keeps R (render_try mod_ renderContext pageModule_)) ->
  render fuel request_ routeDataOrOptions maybeLocals s = Some (out, s') ->
  R (fst s) (fst s').
Proof.
  intro Htry. unfold render. intro H.
  pose proof (Keeps_render_arguments routeDataOrOptions maybeLocals s) as Ha.
  destruct (render_arguments routeDataOrOptions maybeLocals s)
    as [[[given locals_]|e] s0]; cbn [fst snd] in Ha;
    [|injection H as <- <-; exact Ha].
  destruct (render_route (fst s0) given (render_request request_))
    as [routeData_|].
  - pose proof (Keeps_render_prepare
                  (render_locals (render_request request_) locals_) routeData_ s0)
      as Hp.
    destruct (render_prepare _ routeData_ s0)
      as [[[[mod_ pageModule_] renderContext]|e] s1]; cbn [fst snd] in Hp;
      [|injection H as <- <-; eapply (frame_trans F); eassumption].
    pose proof (Htry mod_ renderContext pageModule_ s1) as Ht.
    destruct (render_try mod_ renderContext pageModule_ s1)
      as [[response_|err] s2]; cbn [fst snd] in Ht;
      (eapply (frame_trans F); [exact Ha|]; eapply (frame_trans F); [exact Hp|];
       eapply (frame_trans F); [exact Ht|]).
    + eapply render_finish_keeps; exact H.
    + eapply render_catch_keeps; exact H.
  - eapply (frame_trans F); [exact Ha | eapply renderError_keeps; exact H].
Qed.

End Frame.

Lemma sameSite_refl (a : App) : sameSite a a.
Proof.
  unfold sameSite. repeat split. exists []. now rewrite app_nil_r.
Qed.

Lemma sameSite_trans (a b c : App) : sameSite a b -> sameSite b c -> sameSite a c.
Proof.
  intros (H1 & H2 & H3 & H4 & H5 & H6 & m1 & H7)
         (K1 & K2 & K3 & K4 & K5 & K6 & m2 & K7).
  unfold sameSite. repeat split; try congruence.
  exists (m1 ++ m2)%list. now rewrite K7, H7, app_assoc.
Qed.

Lemma sameSite_setPipeline (f : Pipeline -> Pipeline) :
  (forall p, env (f p) = env p /\ endpointHandler (f p) = endpointHandler p) ->
  Keeps sameSite (setPipeline f).
Proof.
  intros Hf s. unfold setPipeline, sameSite; cbn [fst snd manifest manifestData
    routeDataToRouteInfo baseWithoutTrailingSlash pipeline logged].
  destruct (Hf (pipeline (fst s))) as [He Hh].
  repeat split; auto. exists []. now rewrite app_nil_r.
Qed.

Lemma sameSite_log (level : string) (label : option string) (message : string) :
  Keeps sameSite (log level label message).
Proof.
  intro s. unfold log, sameSite; cbn [fst snd manifest manifestData
    routeDataToRouteInfo baseWithoutTrailingSlash pipeline logged].
  repeat split. eauto.
Qed.

Lemma sameSite_warning : Keeps sameSite logRenderOptionsDeprecationWarning.
Proof.
  intro s. unfold logRenderOptionsDeprecationWarning.
  destruct (renderOptionsDeprecationWarningShown (fst s));
    [apply sameSite_refl|].
  unfold sameSite; cbn [fst snd manifest manifestData routeDataToRouteInfo
    baseWithoutTrailingSlash pipeline logged].
  repeat split. eauto.
Qed.

Lemma setters_keep :
  (forall m p, env (setMiddlewareFunction p m) = env p
               /\ endpointHandler (setMiddlewareFunction p m) = endpointHandler p)
  /\ (forall p, env (unsetMiddlewareFunction p) = env p
                /\ endpointHandler (unsetMiddlewareFunction p) = endpointHandler p)
  /\ (forall fn p, env (onBeforeRenderRoute p fn) = env p
                   /\ endpointHandler (onBeforeRenderRoute p fn)
                      = endpointHandler p).
Proof. repeat split. Qed.

Lemma sameSite_frame : Frame sameSite.
Proof.
  destruct setters_keep as (Hset & Hunset & _).
  constructor.
  - exact sameSite_refl.
  - exact sameSite_trans.
  - exact sameSite_log.
  - exact sameSite_warning.
  - intro m. apply sameSite_setPipeline. intro p. apply Hset.
  - apply sameSite_setPipeline. exact Hunset.
Qed.

Lemma sameSite_render_try (mod_ : SinglePageBuiltModule)
  (renderContext : RenderContext) (pageModule_ : ComponentInstance) :
  Keeps sameSite (render_try mod_ renderContext pageModule_).
Proof.
  destruct setters_keep as (Hset & _ & Hhook).
  unfold render_try.
  apply (Keeps_bind sameSite_frame); [intro; apply sameSite_refl | intro this].
  apply (Keeps_bind sameSite_frame).
  - destruct (createI18nMiddleware _ _ _) as [i18nMiddleware|].
    + apply (Keeps_bind sameSite_frame).
      * destruct (mod_onRequest mod_);
          apply sameSite_setPipeline; intro p; apply Hset.
      * intros _. apply sameSite_setPipeline. intro p. apply Hhook.
    + destruct (mod_onRequest mod_);
        [apply sameSite_setPipeline; intro p; apply Hset
        |intro; apply sameSite_refl].
  - intros _. apply (Keeps_pipelineRenderRoute sameSite_frame).
Qed.

(** X22.  Whatever a request does, the [App] it leaves has the same
    manifest, the same route table with the same asset metadata, the
    same base, and a Pipeline with the same environment and the same
    handler of endpoint results; its log starts with the log it had.
    Only the middleware and the hooks of the Pipeline, the log and the
    flag of the warning can differ. *)
Theorem render_keeps_site (fuel : nat) (request_ : Request.t)
  (routeDataOrOptions : option RouteDataOrOptions) (maybeLocals : option Locals)
  (s s' : St) (out : Completion Response.t) :
  render fuel request_ routeDataOrOptions maybeLocals s = Some (out, s') ->
  sameSite (fst s) (fst s').
Proof.
  apply (render_keeps sameSite_frame). apply sameSite_render_try.
Qed.

Lemma sameHooks_frame : Frame sameHooks.
Proof.
  constructor; unfold Keeps, sameHooks.
  - reflexivity.
  - congruence.
  - reflexivity.
  - intro s. unfold logRenderOptionsDeprecationWarning.
    now destruct (renderOptionsDeprecationWarningShown (fst s)).
  - reflexivity.
  - reflexivity.
Qed.

(** The [try] block of [render] on a site with internationalisation:
    the middleware is set and the hook of the locales registered once
    more, whatever the render does. *)
Lemma render_try_hooks (mod_ : SinglePageBuiltModule)
  (renderContext : RenderContext) (pageModule_ : ComponentInstance)
  (i18nMiddleware : MiddlewareHandler) (s : St) :
  createI18nMiddleware (i18n (manifest (fst s))) (base (manifest (fst s)))
    (trailingSlash (manifest (fst s))) = Some i18nMiddleware ->
  hooks_before (pipeline (fst (snd (render_try mod_ renderContext pageModule_ s))))
  = (hooks_before (pipeline (fst s)) ++ [i18nPipelineHook])%list
  /\ onRequest (pipeline (fst (snd (render_try mod_ renderContext pageModule_ s))))
     = Some (match mod_onRequest mod_ with
             | Some onRequest_ => sequence [i18nMiddleware; onRequest_]
             | None => i18nMiddleware
             end).
Proof.
  intro Hi18n.
  unfold render_try, pipelineRenderRoute, bind, getThis, liftU.
  cbn [fst snd]. rewrite Hi18n.
  destruct (mod_onRequest mod_) as [onRequest_|]; cbn [setPipeline fst snd];
    match goal with
    | |- context [renderRoute ?p ?c ?m ?w] =>
        destruct (renderRoute p c m w) as [[r|e] w']
    end; split; reflexivity.
Qed.

(** X19.  On a site with internationalisation, a request for which a
    route is found and whose module and render context are built sets
    the middleware of the locales and registers their hook once more:
    whatever the outcome of the render, of the fallback included, the
    Pipeline has one hook more when [render] ends.  A request for which
    no route is found leaves the hooks as they were. *)
Theorem render_registers_hook (fuel : nat) (request_ : Request.t)
  (routeDataOrOptions : option RouteDataOrOptions) (maybeLocals : option Locals)
  (s s0 s' : St) (given : option RouteData) (locals_ : option Locals)
  (out : Completion Response.t) (i18nMiddleware : MiddlewareHandler) :
  render_arguments routeDataOrOptions maybeLocals s
  = (Normal (given, locals_), s0) ->
  createI18nMiddleware (i18n (manifest (fst s))) (base (manifest (fst s)))
    (trailingSlash (manifest (fst s))) = Some i18nMiddleware ->
  render fuel request_ routeDataOrOptions maybeLocals s = Some (out, s') ->
  (forall routeData_ mod_ pageModule_ renderContext s1,
     render_route (fst s0) given (render_request request_) = Some routeData_ ->
     render_prepare (render_locals (render_request request_) locals_)
       routeData_ s0
     = (Normal (mod_, pageModule_, renderContext), s1) ->
     hooks_before (pipeline (fst s'))
     = (hooks_before (pipeline (fst s)) ++ [i18nPipelineHook])%list)
  /\ (render_route (fst s0) given (render_request request_) = None ->
      hooks_before (pipeline (fst s')) = hooks_before (pipeline (fst s))).
Proof.
  intros Hargs Hi18n H.
  pose proof (Keeps_render_arguments sameHooks_frame
                routeDataOrOptions maybeLocals s) as Ha.
  pose proof (Keeps_render_arguments sameSite_frame
                routeDataOrOptions maybeLocals s) as Sa.
  rewrite Hargs in Ha, Sa. cbn [fst snd] in Ha, Sa.
  unfold render in H. rewrite Hargs in H.
  split.
  - intros routeData_ mod_ pageModule_ renderContext s1 Hroute Hprepare.
    rewrite Hroute, Hprepare in H.
    pose proof (Keeps_render_prepare sameHooks_frame
                  (render_locals (render_request request_) locals_)
                  routeData_ s0) as Hp.
    pose proof (Keeps_render_prepare sameSite_frame
                  (render_locals (render_request request_) locals_)
                  routeData_ s0) as Sp.
    rewrite Hprepare in Hp, Sp. cbn [fst snd] in Hp, Sp.
    assert (Hm : manifest (fst s1) = manifest (fst s)).
    { destruct Sa as (Sa & _), Sp as (Sp & _). congruence. }
    destruct (@render_try_hooks mod_ renderContext pageModule_
                i18nMiddleware s1) as [Ht _].
    { now rewrite Hm. }
    assert (Hend : forall s2,
               snd (render_try mod_ renderContext pageModule_ s1) = s2 ->
               sameHooks (fst s2) (fst s') ->
               hooks_before (pipeline (fst s'))
               = (hooks_before (pipeline (fst s)) ++ [i18nPipelineHook])%list).
    { intros s2 <- Hs2. unfold sameHooks in *. congruence. }
    destruct (render_try mod_ renderContext pageModule_ s1)
      as [[response_|err] s2]; apply (Hend s2 eq_refl).
    + eapply (render_finish_keeps sameHooks_frame); exact H.
    + eapply (render_catch_keeps sameHooks_frame); exact H.
  - intro Hroute. rewrite Hroute in H.
    assert (Hs0 : sameHooks (fst s0) (fst s'))
      by (eapply (renderError_keeps sameHooks_frame); exact H).
    unfold sameHooks in *. congruence.
Qed.

End UnchangedTheory.

Lemma render_keeps_site_witness :
  sameSite (Sample.siteWithout404 Sample.throwingPage)
    (fst (snd (log "error" None "Error: boom at page.astro:1:7"
                 (Sample.siteWithout404 Sample.throwingPage, 1%nat)))).
Proof.
  apply (render_keeps_site 1 (Sample.get_ "/") None None
           (Sample.siteWithout404 Sample.throwingPage, 0%nat)
           (s' := snd (log "error" None "Error: boom at page.astro:1:7"
                         (Sample.siteWithout404 Sample.throwingPage, 1%nat)))
           (out := Normal (Response.mk 500 "" Headers.empty None true))).
  reflexivity.
Defined.

Lemma render_registers_hook_witness :
  option_map
    (fun x => List.length (hooks_before (pipeline (fst (snd x)))))
    (@render Sample.types Sample.renderHost Sample.i18nDispatchHost 2
       (Sample.get_ "/") None None
       (Sample.siteWithout404 Sample.homePage, 0%nat))
  = Some 1%nat.
Proof.
  edestruct (@render_registers_hook Sample.types Sample.renderHost
               Sample.i18nDispatchHost 2 (Sample.get_ "/") None None
               (Sample.siteWithout404 Sample.homePage, 0%nat))
    as [H _]; [run | reflexivity | run |].
  match type of H with
  | forall a b c d e, _ -> _ -> hooks_before (pipeline (fst ?s')) = _ =>
      change (option_map
                (fun x => List.length (hooks_before (pipeline (fst (snd x)))))
                (Some (Normal (Sample.html 200 "home"), s')) = Some 1%nat)
  end.
  cbn [option_map]. apply (f_equal Some).
  etransitivity;
    [apply (f_equal (@List.length _)); eapply H; run | reflexivity].
Defined.

(* ================================================================== *)
(** * Names of transitions *)
(* ================================================================== *)

Lemma replaceInvalid_valid (s : string) : allIdentChars (replaceInvalid s) = true.
Proof.
  induction s as [|c s IH]; simpl; [reflexivity|].
  rewrite IH, andb_true_r. now destruct (isIdentChar c) eqn:E.
Qed.

Lemma replaceInvalid_fixed (s : string) :
  allIdentChars s = true -> replaceInvalid s = s.
Proof.
  induction s as [|c s IH]; simpl; [reflexivity|].
  intro H. apply andb_true_iff in H. destruct H as [Hc Hs].
  now rewrite Hc, IH.
Qed.

Lemma trimStart_valid (s : string) :
  allIdentChars s = true -> allIdentChars (trimStart s) = true.
Proof.
  induction s as [|c s IH]; simpl; [reflexivity|].
  intro H. destruct (c =? "_")%char; [|exact H].
  apply andb_true_iff in H. now apply IH.
Qed.

Lemma trimEnd_valid (s : string) :
  allIdentChars s = true -> allIdentChars (trimEnd s) = true.
Proof.
  induction s as [|c s IH]; simpl; [reflexivity|].
  intro H. apply andb_true_iff in H. destruct H as [Hc Hs].
  specialize (IH Hs). destruct (trimEnd s) as [|d t].
  - destruct (c =? "_")%char; simpl; [reflexivity | now rewrite Hc].
  - change (isIdentChar c && allIdentChars (String d t) = true).
    now rewrite Hc, IH.
Qed.

Lemma trimStart_first (s : string) : firstChar (trimStart s) <> Some "_"%char.
Proof.
  induction s as [|c s IH]; simpl; [discriminate|].
  destruct (Ascii.eqb_spec c "_") as [E|E]; [exact IH|].
  simpl. congruence.
Qed.

Lemma trimStart_fixed (s : string) :
  firstChar s <> Some "_"%char -> trimStart s = s.
Proof.
  destruct s as [|c s]; simpl; [reflexivity|].
  intro H. destruct (Ascii.eqb_spec c "_") as [E|E]; [|reflexivity].
  subst. now destruct H.
Qed.

Lemma trimEnd_first (s : string) :
  firstChar s <> Some "_"%char -> firstChar (trimEnd s) <> Some "_"%char.
Proof.
  destruct s as [|c s]; simpl; [discriminate|].
  intro H. destruct (trimEnd s); [|exact H].
  destruct (Ascii.eqb_spec c "_") as [E|E]; [discriminate | exact H].
Qed.

Lemma trimEnd_last (s : string) : lastChar (trimEnd s) <> Some "_"%char.
Proof.
  induction s as [|c s IH]; simpl; [discriminate|].
  destruct (trimEnd s) as [|d t].
  - destruct (Ascii.eqb_spec c "_") as [E|E]; simpl; congruence.
  - exact IH.
Qed.

Lemma trimEnd_idem (s : string) : trimEnd (trimEnd s) = trimEnd s.
Proof.
  induction s as [|c s IH]; simpl; [reflexivity|].
  destruct (trimEnd s) as [|d t] eqn:E.
  - destruct (Ascii.eqb_spec c "_") as [Ec|Ec]; simpl; [reflexivity|].
    destruct (Ascii.eqb_spec c "_"); [contradiction | reflexivity].
  - cbn [trimEnd]. cbn [trimEnd] in IH. rewrite IH. reflexivity.
Qed.

(** X23.  [toValidIdent] gives a name made of letters, digits, hyphens
    and underscores only, that neither starts nor ends with an
    underscore (it can be empty); a name it gave is left as it is. *)
Theorem toValidIdent_ident (name : string) :
  allIdentChars (toValidIdent name) = true
  /\ firstChar (toValidIdent name) <> Some "_"%char
  /\ lastChar (toValidIdent name) <> Some "_"%char
  /\ toValidIdent (toValidIdent name) = toValidIdent name.
Proof.
  assert (Hvalid : allIdentChars (toValidIdent name) = true).
  { apply trimEnd_valid, trimStart_valid, replaceInvalid_valid. }
  assert (Hfirst : firstChar (toValidIdent name) <> Some "_"%char).
  { apply trimEnd_first, trimStart_first. }
  repeat split; auto.
  - apply trimEnd_last.
  - unfold toValidIdent at 1.
    rewrite (replaceInvalid_fixed _ Hvalid), (trimStart_fixed _ Hfirst).
    apply trimEnd_idem.
Qed.
